(** * Diagnostic regression pipeline: Dow Jones level against CO2 trend

    A shallow embedding of [src/src/statistical_analysis.py]
    ([StatisticalAnalyzer]) and of the analysis step of [src/src/main.py]
    ([EconometricAnalysis._perform_statistical_analysis]).

    The analyzer is written once over an arithmetic [Arith]; it is read in
    two arithmetics: [binary64], the IEEE double of a Python [float] (with
    its NaN and infinities), and [exact], the rationals.  The routines of
    pandas, numpy, statsmodels and scipy that the analyzer calls are not
    part of the repository: the ones with a closed formula are given by
    that formula ([Kernels]), the distribution-based tests are the fields
    of a record [Library]. *)

From Stdlib Require Import ZArith QArith Qround Floats Lia Lqa List Bool.
From Stdlib Require Import Sorting.Sorted Sorting.Permutation.
From stdpp Require Import gmap strings.

Set Default Proof Using "Type".
Set Warnings "-inexact-float".

(** ** Arithmetic *)

Record Arith : Type := MkArith {
  num    : Type;
  of_Z   : Z -> num;
  add    : num -> num -> num;
  sub    : num -> num -> num;
  mul    : num -> num -> num;
  div    : num -> num -> num;
  sqrt   : num -> num;
  ltb    : num -> num -> bool;
  leb    : num -> num -> bool;
  eqb    : num -> num -> bool;
  nan    : num;
  isnan  : num -> bool;
  isfinite : num -> bool
}.

(** Python's [float]: IEEE 754 binary64. *)
Module Binary64.

Definition of_Z (z : Z) : float :=
  match z with
  | Z0 => PrimFloat.zero
  | Zpos _ => PrimFloat.of_uint63 (Uint63.of_Z z)
  | Zneg p => PrimFloat.opp (PrimFloat.of_uint63 (Uint63.of_Z (Zpos p)))
  end.

Definition isnan (x : float) : bool := negb (PrimFloat.eqb x x).

Definition isfinite (x : float) : bool :=
  PrimFloat.ltb (PrimFloat.abs x) PrimFloat.infinity.

End Binary64.

Definition binary64 : Arith :=
  {| num := float;
     of_Z := Binary64.of_Z;
     add := PrimFloat.add;
     sub := PrimFloat.sub;
     mul := PrimFloat.mul;
     div := PrimFloat.div;
     sqrt := PrimFloat.sqrt;
     ltb := PrimFloat.ltb;
     leb := PrimFloat.leb;
     eqb := PrimFloat.eqb;
     nan := PrimFloat.nan;
     isnan := Binary64.isnan;
     isfinite := Binary64.isfinite |}.

(** Exact arithmetic: the rationals.  There is no NaN and no infinity;
    a division by zero is [0] ([Qinv 0 = 0]) and [nan] is read as [0].
    The square root is exact on the squares of rationals and rounded down
    to a multiple of [1/den] elsewhere. *)
Module Exact.

Definition ltb (x y : Q) : bool := negb (Qle_bool y x).

Definition sqrt (x : Q) : Q :=
  Z.sqrt (Qnum x * Zpos (Qden x)) # Qden x.

End Exact.

Definition exact : Arith :=
  {| num := Q;
     of_Z := inject_Z;
     add := Qplus;
     sub := Qminus;
     mul := Qmult;
     div := Qdiv;
     sqrt := Exact.sqrt;
     ltb := Exact.ltb;
     leb := Qle_bool;
     eqb := Qeq_bool;
     nan := 0%Q;
     isnan := fun _ => false;
     isfinite := fun _ => true |}.

(** ** Outcomes: a Python call returns a value or raises an exception,
    named by its class. *)

Inductive outcome (T : Type) : Type :=
| Returns (v : T)
| Raises (cls : string).
Arguments Returns {T} v.
Arguments Raises {T} cls.

#[global] Instance outcome_ret : MRet outcome := fun _ v => Returns v.

#[global] Instance outcome_bind : MBind outcome := fun _ _ k c =>
  match c with
  | Returns v => k v
  | Raises cls => Raises cls
  end.

Declare Scope arith_scope.
Delimit Scope arith_scope with ar.
Notation "x + y" := (add _ x y) : arith_scope.
Notation "x - y" := (sub _ x y) : arith_scope.
Notation "x * y" := (mul _ x y) : arith_scope.
Notation "x / y" := (div _ x y) : arith_scope.
Notation "x <? y" := (ltb _ x y) : arith_scope.
Notation "x <=? y" := (leb _ x y) : arith_scope.
Notation "x =? y" := (eqb _ x y) : arith_scope.

(** ** Data model: the merged frame, one row per date *)

Record Observation (A : Arith) : Type := MkObservation {
  Date      : Z;
  DJI_Close : num A;
  CO2_Level : num A
}.
Arguments MkObservation {A} _ _ _.
Arguments Date {A} _.
Arguments DJI_Close {A} _.
Arguments CO2_Level {A} _.

Definition DataFrame (A : Arith) : Type := list (Observation A).

(** ** Numerical kernels

    The reductions of pandas and numpy that the analyzer calls, by their
    defining formulas.  Sums run left to right (numpy sums long arrays
    pairwise, which gives the same value in exact arithmetic). *)

Module Kernels.
Section Kernels.
Context {A : Arith}.
Local Open Scope arith_scope.
Local Abbreviation F := (num A).
Local Notation "# z" := (of_Z A z) (at level 1, format "# z").

Definition sq (x : F) : F := x * x.

Definition sum (s : list F) : F := fold_left (add A) s #0.

(** pandas reductions skip missing values ([skipna=True]). *)
Definition dropna (s : list F) : list F :=
  List.filter (fun x => negb (isnan A x)) s.

Definition count (s : list F) : F := #(Z.of_nat (length s)).

(** Modelled from the spec: [Series.mean] is pandas code, not in the
    sources; the sum over the count of the values present. *)
Definition mean (s : list F) : F :=
  let v := dropna s in sum v / count v.

(** Modelled from the spec: [Series.var] is pandas code, not in the
    sources; the sample variance with the N - 1 denominator (spec 4.1),
    NaN unless two values are present. *)
Definition var (s : list F) : F :=
  let v := dropna s in
  if (length v <=? 1)%nat then nan A
  else
    let avg := sum v / count v in
    sum (map (fun x => sq (avg - x)) v) / #(Z.of_nat (length v) - 1).

(** [Series.std]. *)
Definition std (s : list F) : F := sqrt A (var s).

(** Modelled from the spec: [Series.min] and [Series.max] are pandas
    code, not in the sources; the least and the greatest value present,
    NaN on a series with no value. *)
Definition min (s : list F) : F :=
  match dropna s with
  | [] => nan A
  | x :: t => fold_left (fun m y => if y <? m then y else m) t x
  end.

Definition max (s : list F) : F :=
  match dropna s with
  | [] => nan A
  | x :: t => fold_left (fun m y => if m <? y then y else m) t x
  end.

(** [np.sort]. *)
Fixpoint insert (x : F) (l : list F) : list F :=
  match l with
  | [] => [x]
  | y :: t => if x <=? y then x :: l else y :: insert x t
  end.

Definition sort (s : list F) : list F := fold_right insert [] s.

(** Modelled from the spec: [Series.median] is pandas code, not in the
    sources; the middle order statistic, or the mean of the two middle
    ones. *)
Definition median (s : list F) : F :=
  let v := sort (dropna s) in
  let n := length v in
  match n with
  | O => nan A
  | _ =>
    if Nat.even n
    then (nth (n / 2 - 1) v (nan A) + nth (n / 2) v (nan A)) / #2
    else nth (n / 2) v (nan A)
  end.

(** numpy's linear interpolation between two order statistics. *)
Definition lerp (a b t : F) : F :=
  if (#1 / #2) <=? t then b - (b - a) * (#1 - t) else a + (b - a) * t.

(** Modelled from the spec: [Series.quantile(q)] is pandas code, not in
    the sources; linear interpolation between order statistics (spec 4.1).
    For [q = qn/qd] the virtual index [q * (n - 1)] is split into its
    integer part and its fraction in integer arithmetic. *)
Definition quantile (qn qd : nat) (s : list F) : F :=
  let v := sort (dropna s) in
  let n := length v in
  match n with
  | O => nan A
  | _ =>
    let pos := (qn * (n - 1))%nat in
    let i := (pos / qd)%nat in
    let r := (pos mod qd)%nat in
    lerp (nth i v (nan A)) (nth (Nat.min (i + 1) (n - 1)) v (nan A))
         (#(Z.of_nat r) / #(Z.of_nat qd))
  end.

(** [np.clip(x, -1, 1)]. *)
Definition clip (x : F) : F :=
  if x <? #(-1) then #(-1) else if #1 <? x then #1 else x.

(** One entry of [np.cov(a, b)] (ddof = 1). *)
Definition cov (xs ys : list F) : F :=
  let mx := sum xs / count xs in
  let my := sum ys / count ys in
  let fact := #1 / #(Z.of_nat (length xs) - 1) in
  sum (map (fun p => (fst p - mx) * (snd p - my)) (combine xs ys)) * fact.

(** Modelled from the spec: [Series.corr] is pandas code, not in the
    sources; the Pearson coefficient (spec 4.4).  Pairs with a missing
    value are dropped, then [np.corrcoef(a, b)[0, 1]]: the covariance over
    the two standard deviations, clipped to [[-1, 1]]. *)
Definition corr (a b : list F) : F :=
  let ab := List.filter (fun p => negb (isnan A (fst p)) && negb (isnan A (snd p)))
                   (combine a b) in
  match ab with
  | [] => nan A
  | _ =>
    let xs := map fst ab in
    let ys := map snd ab in
    clip (cov xs ys / sqrt A (cov xs xs) / sqrt A (cov ys ys))
  end.

(** [np.diff]. *)
Fixpoint diff (s : list F) : list F :=
  match s with
  | x :: (y :: _) as t => (y - x) :: diff t
  | _ => []
  end.

(** [statsmodels.stats.stattools.durbin_watson]. *)
Definition durbin_watson (resids : list F) : F :=
  sum (map sq (diff resids)) / sum (map sq resids).

(** [np.max] and [np.min] of an array: a NaN propagates. *)
Definition maximum (x y : F) : F :=
  if isnan A x then x else if isnan A y then y else if x <? y then y else x.

Definition minimum (x y : F) : F :=
  if isnan A x then x else if isnan A y then y else if y <? x then y else x.

Definition amax (s : list F) : F := fold_left maximum (tl s) (hd (nan A) s).
Definition amin (s : list F) : F := fold_left minimum (tl s) (hd (nan A) s).

(** [np.ptp]: peak to peak. *)
Definition ptp (s : list F) : F := amax s - amin s.

End Kernels.
End Kernels.

(** ** Regression

    The design matrix of [sm.add_constant] and the fit of
    [sm.OLS(y, X).fit()]: statsmodels solves the least-squares problem with
    the pseudo-inverse of the design matrix, so the fit is the solution of
    the normal equations when they have one, and the least-squares solution
    of least norm when the columns are collinear. *)

Record Design (A : Arith) : Type := MkDesign {
  has_const : bool;          (* the column 'const' of ones, prepended *)
  regressor : list (num A)   (* the column 'CO2_Level' *)
}.
Arguments MkDesign {A} _ _.
Arguments has_const {A} _.
Arguments regressor {A} _.

Record RegressionResults (A : Arith) : Type := MkResults {
  endog        : list (num A);
  exog         : Design A;
  params       : list (num A);
  fittedvalues : list (num A);
  resid        : list (num A)
}.
Arguments MkResults {A} _ _ _ _ _.
Arguments endog {A} _.
Arguments exog {A} _.
Arguments params {A} _.
Arguments fittedvalues {A} _.
Arguments resid {A} _.

Module Regression.
Section Regression.
Context {A : Arith}.
Local Open Scope arith_scope.
Local Abbreviation F := (num A).
Local Notation "# z" := (of_Z A z) (at level 1, format "# z").
Import Kernels.

(** [sm.add_constant(x)] with its default [has_constant='skip']: a column
    that is already a non-zero constant stands for the intercept, and no
    column of ones is added. *)
Definition is_nonzero_const (x : list F) : bool :=
  match x with
  | [] => false
  | _ => (ptp x =? #0) && existsb (fun v => negb (v =? #0)) x
  end.

Definition add_constant (x : list F) : Design A :=
  MkDesign (negb (is_nonzero_const x)) x.

(** The row [(1, x_i) . params] or [x_i . params]. *)
Definition predict (X : Design A) (b : list F) : list F :=
  if has_const X
  then map (fun xi => nth 0 b (nan A) + nth 1 b (nan A) * xi) (regressor X)
  else map (fun xi => nth 0 b (nan A) * xi) (regressor X).

Definition dot (u v : list F) : F :=
  sum (map (fun p => fst p * snd p) (combine u v)).

(** Modelled from the spec: the fit of [sm.OLS] is statsmodels code, not
    in the sources; the closed-form normal equations of spec 4.5 and, on
    collinear columns, the least-squares solution of least norm that the
    pseudo-inverse gives. *)
Definition lstsq (y : list F) (X : Design A) : list F :=
  let x := regressor X in
  if has_const X then
    let n := count x in
    let sx := sum x in
    let sxx := dot x x in
    let sy := sum y in
    let sxy := dot x y in
    let det := n * sxx - sx * sx in
    if det =? #0 then
      (* collinear columns (1, c): the solution of least norm *)
      let c := hd #0 x in
      let m := sy / n in
      [ m / (#1 + c * c) ; c * m / (#1 + c * c) ]
    else
      [ (sxx * sy - sx * sxy) / det ; (n * sxy - sx * sy) / det ]
  else
    [ dot x y / dot x x ].

(** [sm.OLS(y, X).fit()].  statsmodels takes the column maxima of the
    design first: an empty design has none, and a maximum that is not
    finite is refused. *)
Definition OLS_fit (y : list F) (X : Design A) : outcome (RegressionResults A) :=
  match regressor X with
  | [] => Raises "ValueError"
  | _ =>
    if negb (isfinite A (amax (regressor X))) then Raises "MissingDataError"
    else
      let b := lstsq y X in
      let fitted := predict X b in
      Returns (MkResults y X b fitted
                 (map (fun p => fst p - snd p) (combine y fitted)))
  end.

(** Weighted least squares by the weighted normal equations. *)
Definition wdot (w u v : list F) : F :=
  sum (map (fun p => fst (fst p) * snd (fst p) * snd p) (combine (combine w u) v)).

Definition WLS_normal (y : list F) (X : Design A) (w : list F)
  : outcome (RegressionResults A) :=
  let x := regressor X in
  let ones := map (fun _ => #1) x in
  let b :=
    if has_const X then
      let sw := wdot w ones ones in
      let swx := wdot w ones x in
      let swxx := wdot w x x in
      let swy := wdot w ones y in
      let swxy := wdot w x y in
      let det := sw * swxx - swx * swx in
      [ (swxx * swy - swx * swxy) / det ; (sw * swxy - swx * swy) / det ]
    else [ wdot w x y / wdot w x x ] in
  let fitted := predict X b in
  Returns (MkResults y X b fitted
             (map (fun p => fst p - snd p) (combine y fitted))).

End Regression.
End Regression.

(** ** The statistical library

    The distribution-based routines of scipy and statsmodels, the weighted
    fit and numpy's random generator are taken as they come: any of them
    may raise. *)

Record ADFResult (A : Arith) : Type := MkADF {
  adf_0 : num A;                       (* test statistic *)
  adf_1 : num A;                       (* MacKinnon p-value *)
  adf_2 : nat;                         (* lags used *)
  adf_3 : nat;                         (* observations used *)
  adf_4 : list (string * num A);       (* critical values at 1%, 5%, 10% *)
  adf_5 : num A                        (* best information criterion *)
}.
Arguments MkADF {A} _ _ _ _ _ _.
Arguments adf_0 {A} _.
Arguments adf_1 {A} _.
Arguments adf_4 {A} _.

Record Library (A : Arith) : Type := MkLibrary {
  RNG : Type;
  RandomState : Z -> RNG;
  choice : RNG -> nat -> nat -> list nat * RNG;
  shapiro : list (num A) -> outcome (num A * num A);
  adfuller : list (num A) -> outcome (ADFResult A);
  het_breuschpagan :
    list (num A) -> Design A -> outcome (num A * num A * num A * num A);
  het_white :
    list (num A) -> Design A -> outcome (num A * num A * num A * num A);
  acorr_breusch_godfrey :
    RegressionResults A -> nat -> outcome (num A * num A * num A * num A);
  WLS_fit :
    list (num A) -> Design A -> list (num A) -> outcome (RegressionResults A)
}.
Arguments RNG {A} _.
Arguments RandomState {A} _ _.
Arguments choice {A} _ _ _ _.
Arguments shapiro {A} _ _.
Arguments adfuller {A} _ _.
Arguments het_breuschpagan {A} _ _ _.
Arguments het_white {A} _ _ _.
Arguments acorr_breusch_godfrey {A} _ _ _.
Arguments WLS_fit {A} _ _ _ _.

(** A computation that may raise and that runs against the process-wide
    generator [np.random]. *)
Definition run {A : Arith} (L : Library A) (T : Type) : Type :=
  RNG L -> outcome T * RNG L.

Definition run_ret {A} {L : Library A} {T} (v : T) : run L T :=
  fun g => (Returns v, g).

Definition run_bind {A} {L : Library A} {T U}
    (c : run L T) (k : T -> run L U) : run L U :=
  fun g =>
    match c g with
    | (Returns v, g') => k v g'
    | (Raises cls, g') => (Raises cls, g')
    end.

Definition lift {A} {L : Library A} {T} (c : outcome T) : run L T :=
  fun g => (c, g).

Notation "x <~ c ;; k" := (run_bind c (fun x => k))
  (at level 100, c at next level, k at level 200, right associativity).

(** ** Results of the analyzer *)

Record DescriptiveStats (A : Arith) : Type := MkDescriptive {
  d_mean : num A;  d_std : num A;  d_var : num A;  d_min : num A;
  d_max : num A;  d_median : num A;  d_q1 : num A;  d_q3 : num A
}.
Arguments MkDescriptive {A} _ _ _ _ _ _ _ _.
Arguments d_mean {A} _.
Arguments d_std {A} _.
Arguments d_var {A} _.
Arguments d_min {A} _.
Arguments d_max {A} _.
Arguments d_median {A} _.
Arguments d_q1 {A} _.
Arguments d_q3 {A} _.

(** A dictionary with the keys ['DJI'] and ['CO2']. *)
Record PerSeries (T : Type) : Type := MkPerSeries { DJI : T; CO2 : T }.
Arguments MkPerSeries {T} _ _.
Arguments DJI {T} _.
Arguments CO2 {T} _.

Record NormalityResult (A : Arith) : Type := MkNormality {
  statistic : num A;
  p_value   : num A;
  is_normal : bool
}.
Arguments MkNormality {A} _ _ _.
Arguments statistic {A} _.
Arguments p_value {A} _.
Arguments is_normal {A} _.

Record StationarityResult (A : Arith) : Type := MkStationarity {
  adf_statistic   : num A;
  adf_p_value     : num A;
  critical_values : list (string * num A);
  is_stationary   : bool
}.
Arguments MkStationarity {A} _ _ _ _.
Arguments adf_statistic {A} _.
Arguments adf_p_value {A} _.
Arguments critical_values {A} _.
Arguments is_stationary {A} _.

(** The entry of one Lagrange-multiplier test; [rejects] is its key
    ['has_heteroscedasticity'] or ['has_autocorrelation']. *)
Record LMTest (A : Arith) : Type := MkLMTest {
  lm_statistic : num A;
  lm_p_value   : num A;
  f_statistic  : num A;
  f_p_value    : num A;
  rejects      : bool
}.
Arguments MkLMTest {A} _ _ _ _ _.
Arguments lm_statistic {A} _.
Arguments lm_p_value {A} _.
Arguments f_statistic {A} _.
Arguments f_p_value {A} _.
Arguments rejects {A} _.

Record HeteroscedasticityResult (A : Arith) : Type := MkHet {
  breusch_pagan : LMTest A;
  white : LMTest A;
  has_heteroscedasticity : bool
}.
Arguments MkHet {A} _ _ _.
Arguments breusch_pagan {A} _.
Arguments white {A} _.
Arguments has_heteroscedasticity {A} _.

Record DWTest (A : Arith) : Type := MkDW {
  dw_statistic : num A;
  dw_has_autocorrelation : bool
}.
Arguments MkDW {A} _ _.
Arguments dw_statistic {A} _.
Arguments dw_has_autocorrelation {A} _.

Record AutocorrelationResult (A : Arith) : Type := MkAuto {
  durbin_watson : DWTest A;
  breusch_godfrey : LMTest A;
  has_autocorrelation : bool
}.
Arguments MkAuto {A} _ _ _.
Arguments durbin_watson {A} _.
Arguments breusch_godfrey {A} _.
Arguments has_autocorrelation {A} _.

Record Summary (A : Arith) : Type := MkSummary {
  s_descriptive : PerSeries (DescriptiveStats A);
  s_normality : PerSeries (NormalityResult A);
  s_stationarity : PerSeries (StationarityResult A);
  s_correlation : num A;
  s_heteroscedasticity : HeteroscedasticityResult A;
  s_autocorrelation : AutocorrelationResult A
}.
Arguments MkSummary {A} _ _ _ _ _ _.

(** ** pandas' [Series.sample(n, random_state=...)]

    With an integer [random_state] pandas draws from a fresh
    [np.random.RandomState(seed)]; with [None] it draws from the
    process-wide generator and advances it.  Sampling is without
    replacement: a negative number of rows, or more rows than the series
    has, is refused. *)

Definition take_rows {T : Type} (idx : list nat) (s : list T) : list T :=
  flat_map (fun i => match nth_error s i with Some v => [v] | None => [] end) idx.

Definition Series_sample {A : Arith} (L : Library A) {T : Type}
    (s : list T) (n : Z) (random_state : option Z) : run L (list T) :=
  fun g =>
    if (n <? 0)%Z || (Z.of_nat (length s) <? n)%Z then (Raises "ValueError", g)
    else
      match random_state with
      | Some seed =>
          (Returns (take_rows
                      (fst (choice L (RandomState L seed) (length s) (Z.to_nat n)))
                      s), g)
      | None =>
          let '(idx, g') := choice L g (length s) (Z.to_nat n) in
          (Returns (take_rows idx s), g')
      end.

(** ** [class StatisticalAnalyzer] (src/src/statistical_analysis.py) *)

Module StatisticalAnalyzer.

Record Analyzer (A : Arith) : Type := MkAnalyzer {
  data : DataFrame A;
  X : Design A;
  y : list (num A)
}.
Arguments MkAnalyzer {A} _ _ _.
Arguments data {A} _.
Arguments X {A} _.
Arguments y {A} _.

Section Methods.
Context {A : Arith} (L : Library A).
Local Open Scope arith_scope.
Local Abbreviation F := (num A).
Local Notation "# z" := (of_Z A z) (at level 1, format "# z").

(** The literal [0.05]; [1.5] and [2.5] are [#15 / #10] and [#25 / #10]. *)
Definition significance : F := #5 / #100.

Definition _prepare_regression_data (self : Analyzer A) : Analyzer A :=
  MkAnalyzer (data self)
             (Regression.add_constant (map CO2_Level (data self)))
             (map DJI_Close (data self)).

(** [X] and [y] are [None] only until [_prepare_regression_data] has run,
    which is before the constructor returns. *)
Definition __init__ (d : DataFrame A) : outcome (Analyzer A) :=
  Returns (_prepare_regression_data (MkAnalyzer d (MkDesign false []) [])).

Definition describe (s : list F) : DescriptiveStats A :=
  MkDescriptive (Kernels.mean s) (Kernels.std s) (Kernels.var s)
                (Kernels.min s) (Kernels.max s) (Kernels.median s)
                (Kernels.quantile 1 4 s) (Kernels.quantile 3 4 s).

Definition compute_descriptive_stats (self : Analyzer A)
  : outcome (PerSeries (DescriptiveStats A)) :=
  Returns (MkPerSeries (describe (map DJI_Close (data self)))
                       (describe (map CO2_Level (data self)))).

Definition test_normality (self : Analyzer A) (sample_size : Z)
  : run L (PerSeries (NormalityResult A)) :=
  let n := Z.min sample_size (Z.of_nat (length (data self))) in
  sample_dji <~ Series_sample L (map DJI_Close (data self)) n (Some 42%Z);;
  dji <~ lift (shapiro L sample_dji);;
  sample_co2 <~ Series_sample L (map CO2_Level (data self)) n (Some 42%Z);;
  co2 <~ lift (shapiro L sample_co2);;
  run_ret (MkPerSeries
             (MkNormality (fst dji) (snd dji) (significance <? snd dji))
             (MkNormality (fst co2) (snd co2) (significance <? snd co2))).

Definition test_stationarity (self : Analyzer A)
  : outcome (PerSeries (StationarityResult A)) :=
  adf_dji ← adfuller L (map DJI_Close (data self));
  adf_co2 ← adfuller L (map CO2_Level (data self));
  mret (MkPerSeries
          (MkStationarity (adf_0 adf_dji) (adf_1 adf_dji) (adf_4 adf_dji)
                          (adf_1 adf_dji <? significance))
          (MkStationarity (adf_0 adf_co2) (adf_1 adf_co2) (adf_4 adf_co2)
                          (adf_1 adf_co2 <? significance))).

Definition compute_correlation (self : Analyzer A) : outcome F :=
  Returns (Kernels.corr (map DJI_Close (data self)) (map CO2_Level (data self))).

Definition run_ols_regression (self : Analyzer A) : outcome (RegressionResults A) :=
  Regression.OLS_fit (y self) (X self).

Definition lm_entry (t : F * F * F * F) : LMTest A :=
  let '(lm, lm_p, fv, f_p) := t in
  MkLMTest lm lm_p fv f_p (lm_p <? significance).

Definition test_heteroscedasticity (self : Analyzer A)
  : outcome (HeteroscedasticityResult A) :=
  model ← run_ols_regression self;
  bp_test ← het_breuschpagan L (resid model) (X self);
  white_test ← het_white L (resid model) (X self);
  mret (MkHet (lm_entry bp_test) (lm_entry white_test)
              ((snd (fst (fst bp_test)) <? significance)
               || (snd (fst (fst white_test)) <? significance))).

Definition test_autocorrelation (self : Analyzer A)
  : outcome (AutocorrelationResult A) :=
  model ← run_ols_regression self;
  let dw_stat := Kernels.durbin_watson (resid model) in
  bg_test ← acorr_breusch_godfrey L model 10;
  mret (MkAuto
          (MkDW dw_stat ((dw_stat <? #15 / #10) || (#25 / #10 <? dw_stat)))
          (lm_entry bg_test)
          ((dw_stat <? #15 / #10) || (#25 / #10 <? dw_stat)
           || (snd (fst (fst bg_test)) <? significance))).

(** [weights = 1 / (ols_model.resid ** 2)], element by element. *)
Definition wls_weights (resids : list F) : list F :=
  map (fun e => #1 / Kernels.sq e) resids.

Definition run_wls_regression (self : Analyzer A) : outcome (RegressionResults A) :=
  ols_model ← run_ols_regression self;
  let weights := wls_weights (resid ols_model) in
  WLS_fit L (y self) (X self) weights.

Definition get_analysis_summary (self : Analyzer A) : run L (Summary A) :=
  descriptive <~ lift (compute_descriptive_stats self);;
  normality <~ test_normality self 5000;;
  stationarity <~ lift (test_stationarity self);;
  correlation <~ lift (compute_correlation self);;
  heteroscedasticity <~ lift (test_heteroscedasticity self);;
  autocorrelation <~ lift (test_autocorrelation self);;
  run_ret (MkSummary descriptive normality stationarity correlation
                     heteroscedasticity autocorrelation).

End Methods.
End StatisticalAnalyzer.

(** ** [class EconometricAnalysis] (src/src/main.py), the analysis step *)

Inductive StatValue (A : Arith) : Type :=
| VDescriptive (v : PerSeries (DescriptiveStats A))
| VNormality (v : PerSeries (NormalityResult A))
| VStationarity (v : PerSeries (StationarityResult A))
| VCorrelation (v : num A)
| VHeteroscedasticity (v : HeteroscedasticityResult A)
| VAutocorrelation (v : AutocorrelationResult A).
Arguments VDescriptive {A} v.
Arguments VNormality {A} v.
Arguments VStationarity {A} v.
Arguments VCorrelation {A} v.
Arguments VHeteroscedasticity {A} v.
Arguments VAutocorrelation {A} v.

Module EconometricAnalysis.

Record State (A : Arith) : Type := MkState {
  start_date : string;
  data : option (DataFrame A);
  stats : gmap string (StatValue A);
  models : gmap string (RegressionResults A)
}.
Arguments MkState {A} _ _ _ _.
Arguments start_date {A} _.
Arguments data {A} _.
Arguments stats {A} _.
Arguments models {A} _.

Section Methods.
Context {A : Arith} (L : Library A).

Definition __init__ (start : string) : State A := MkState start None ∅ ∅.

Definition set_stat (self : State A) (k : string) (v : StatValue A) : State A :=
  MkState (start_date self) (data self) (<[k := v]> (stats self)) (models self).

Definition set_model (self : State A) (k : string) (m : RegressionResults A)
  : State A :=
  MkState (start_date self) (data self) (stats self) (<[k := m]> (models self)).

(** [self.data = collector.collect_all_data()]: the frame comes from the
    series provider. *)
Definition collected (self : State A) (d : DataFrame A) : State A :=
  MkState (start_date self) (Some d) (stats self) (models self).

(** [self.stats['heteroscedasticity']['has_heteroscedasticity']]. *)
Definition heteroscedasticity_flag (self : State A) : outcome bool :=
  match stats self !! "heteroscedasticity" with
  | Some (VHeteroscedasticity h) => Returns (has_heteroscedasticity h)
  | Some _ => Raises "TypeError"
  | None => Raises "KeyError"
  end.

Definition _perform_statistical_analysis (self : State A) : run L (State A) :=
  d <~ lift (match data self with
             | Some d => Returns d
             | None => Raises "TypeError"
             end);;
  analyzer <~ lift (StatisticalAnalyzer.__init__ d);;
  descriptive <~ lift (StatisticalAnalyzer.compute_descriptive_stats analyzer);;
  let self := set_stat self "descriptive" (VDescriptive descriptive) in
  normality <~ StatisticalAnalyzer.test_normality L analyzer 5000;;
  let self := set_stat self "normality" (VNormality normality) in
  stationarity <~ lift (StatisticalAnalyzer.test_stationarity L analyzer);;
  let self := set_stat self "stationarity" (VStationarity stationarity) in
  correlation <~ lift (StatisticalAnalyzer.compute_correlation analyzer);;
  let self := set_stat self "correlation" (VCorrelation correlation) in
  ols <~ lift (StatisticalAnalyzer.run_ols_regression analyzer);;
  let self := set_model self "ols" ols in
  het <~ lift (StatisticalAnalyzer.test_heteroscedasticity L analyzer);;
  let self := set_stat self "heteroscedasticity" (VHeteroscedasticity het) in
  auto <~ lift (StatisticalAnalyzer.test_autocorrelation L analyzer);;
  let self := set_stat self "autocorrelation" (VAutocorrelation auto) in
  flag <~ lift (heteroscedasticity_flag self);;
  if (flag : bool) then
    wls <~ lift (StatisticalAnalyzer.run_wls_regression L analyzer);;
    run_ret (set_model self "wls" wls)
  else run_ret self.

End Methods.
End EconometricAnalysis.

(** ** A library instance to run the analyzer on examples

    The generator draws the first rows; the tests report fixed statistics
    (Breusch-Pagan rejects, White and Breusch-Godfrey do not). *)

Definition fixture : Library binary64 :=
  @MkLibrary binary64 nat Z.to_nat
    (fun g _ n => (seq 0 n, S g))
    (fun _ => Returns (0.96875, 0.375)%float)
    (fun s =>
       Returns (@MkADF binary64 (-3.25)%float 0.015625%float 0 (length s)
                  [("1%", (-3.5)%float); ("5%", (-2.875)%float);
                   ("10%", (-2.5)%float)] 0%float))
    (fun _ _ => Returns (6.5, 0.015625, 6.75, 0.0078125)%float)
    (fun _ _ => Returns (1.25, 0.5, 0.625, 0.5)%float)
    (fun _ _ => Returns (4, 0.875, 0.375, 0.875)%float)
    Regression.WLS_normal.

Definition row (t : Z) (dji co2 : float) : Observation binary64 :=
  @MkObservation binary64 t dji co2.

Definition frame6 : DataFrame binary64 :=
  [ row 1 10 400; row 2 12 401; row 3 11 402;
    row 4 15 403; row 5 14 404; row 6 18 405 ]%float.

(** Five observations: below any sensible minimum for the tests. *)
Definition frame5 : DataFrame binary64 :=
  [ row 1 10 400; row 2 12 401; row 3 11 402; row 4 15 403; row 5 14 404 ]%float.

(** A constant index level: the first series has zero variance. *)
Definition frame_flat_dji : DataFrame binary64 :=
  [ row 1 5 1; row 2 5 2; row 3 5 3 ]%float.

(** A constant predictor. *)
Definition frame_flat_co2 : DataFrame binary64 :=
  [ row 1 1 400; row 2 2 400; row 3 3 400 ]%float.

(** An index level that is zero throughout: the OLS fit is exact and every
    residual is zero. *)
Definition frame_zero_dji : DataFrame binary64 :=
  [ row 1 0 1; row 2 0 2; row 3 0 3 ]%float.

(** Three equal levels whose sum is rounded. *)
Definition frame_tenths : DataFrame binary64 :=
  [ row 1 0.1 1; row 2 0.1 2; row 3 0.1 3 ]%float.

(** The five observations in exact arithmetic. *)
Definition frame5_exact : DataFrame exact :=
  [ @MkObservation exact 1 10 400; @MkObservation exact 2 12 401;
    @MkObservation exact 3 11 402; @MkObservation exact 4 15 403;
    @MkObservation exact 5 14 404 ]%Q.

(** A constant predictor in exact arithmetic. *)
Definition frame_flat_exact : DataFrame exact :=
  [ @MkObservation exact 1 1 400; @MkObservation exact 2 2 400;
    @MkObservation exact 3 3 400 ]%Q.

(** The analyzer that the constructor builds. *)
Definition analyzer_of {A : Arith} (d : DataFrame A) : StatisticalAnalyzer.Analyzer A :=
  StatisticalAnalyzer._prepare_regression_data
    (StatisticalAnalyzer.MkAnalyzer d (MkDesign false []) []).

Definition frame6_het : HeteroscedasticityResult binary64 :=
  MkHet (@MkLMTest binary64 6.5%float 0.015625%float 6.75%float 0.0078125%float true)
        (@MkLMTest binary64 1.25%float 0.5%float 0.625%float 0.5%float false)
        true.

Definition frame6_auto : AutocorrelationResult binary64 :=
  match StatisticalAnalyzer.test_autocorrelation fixture (analyzer_of frame6) with
  | Returns r => r
  | Raises _ =>
      MkAuto (@MkDW binary64 PrimFloat.nan false)
             (@MkLMTest binary64 PrimFloat.nan PrimFloat.nan PrimFloat.nan
                PrimFloat.nan false)
             false
  end.

Definition frame6_report : EconometricAnalysis.State binary64 :=
  match fst (EconometricAnalysis._perform_statistical_analysis fixture
               (EconometricAnalysis.collected
                  (EconometricAnalysis.__init__ "2015-01-01") frame6) 0%nat)
  with
  | Returns self => self
  | Raises _ => EconometricAnalysis.__init__ "2015-01-01"
  end.

(** The same library with an ADF test that refuses a series of fewer than
    six observations. *)
Definition fixture_short : Library binary64 :=
  @MkLibrary binary64 (RNG fixture) (RandomState fixture) (choice fixture)
    (shapiro fixture)
    (fun s => if (length s <? 6)%nat then Raises "ValueError"
              else adfuller fixture s)
    (het_breuschpagan fixture) (het_white fixture)
    (acorr_breusch_godfrey fixture) (WLS_fit fixture).

(** * The series provider: [class DataCollector]
    (src/econometric_analysis/src/data_collector.py)

    A fetched series is its rows [(Date, value)].  The two downloads and
    the CSV writer are services outside the program: each is taken as it
    answers, a frame or an exception.  Log lines are left out. *)

Module DataCollector.

Record Services (A : Arith) : Type := MkServices {
  yf_download : string -> outcome (list (Z * num A));
  co2_api : outcome (list (Z * num A));
  to_csv : DataFrame A -> string -> outcome unit
}.
Arguments MkServices {A} _ _ _.
Arguments yf_download {A} _ _.
Arguments co2_api {A} _.
Arguments to_csv {A} _ _ _.

Record Collector (A : Arith) : Type := MkCollector {
  start_date : string;
  df_merged : option (DataFrame A)
}.
Arguments MkCollector {A} _ _.
Arguments start_date {A} _.
Arguments df_merged {A} _.

Record DataSummary (A : Arith) : Type := MkDataSummary {
  n_observations : nat;
  date_start : option Z;        (* [None] is pandas' NaT *)
  date_end : option Z;
  dji_range : num A * num A;
  co2_range : num A * num A
}.
Arguments MkDataSummary {A} _ _ _ _ _.
Arguments n_observations {A} _.
Arguments date_start {A} _.
Arguments date_end {A} _.
Arguments dji_range {A} _.
Arguments co2_range {A} _.

Section Methods.
Context {A : Arith}.

Definition __init__ (start : string) : Collector A := MkCollector start None.

(** [yf.download("^DJI", start=...)[['Close']].reset_index()]; an
    exception is logged and raised again. *)
Definition collect_dow_jones_data (S : Services A) (self : Collector A)
  : outcome (list (Z * num A)) :=
  yf_download S (start_date self).

(** The CO2 trend of the Global Warming API, by date. *)
Definition collect_co2_data (S : Services A) (self : Collector A)
  : outcome (list (Z * num A)) :=
  co2_api S.

(** [pd.merge(df_dj, df_co2, on='Date', how='inner')]: for each row of
    the left frame, in its order, the rows of the right frame with the same
    date. *)
Definition inner_merge (df_dj df_co2 : list (Z * num A)) : DataFrame A :=
  flat_map
    (fun l => map (fun r => MkObservation (fst l) (snd l) (snd r))
                  (List.filter (fun r => (fst r =? fst l)%Z) df_co2))
    df_dj.

(** [df.dropna()]: a row with a missing value in any column goes. *)
Definition dropna (df : DataFrame A) : DataFrame A :=
  List.filter
    (fun r => negb (isnan A (DJI_Close r)) && negb (isnan A (CO2_Level r))) df.

Definition merge_datasets (df_dj df_co2 : list (Z * num A)) : DataFrame A :=
  dropna (inner_merge df_dj df_co2).

(** The [removed] count of [merge_datasets], logged when positive. *)
Definition removed (df_dj df_co2 : list (Z * num A)) : nat :=
  length (inner_merge df_dj df_co2) - length (merge_datasets df_dj df_co2).

Definition save_data (S : Services A) (df : DataFrame A) (filepath : string)
  : outcome unit :=
  to_csv S df filepath.

(** [collect_all_data]: the frame is stored in [self.df_merged] after it
    has been saved; on an exception the collector is as it was. *)
Definition collect_all_data (S : Services A) (self : Collector A)
  : outcome (DataFrame A) * Collector A :=
  match collect_dow_jones_data S self with
  | Raises cls => (Raises cls, self)
  | Returns df_dj =>
    match collect_co2_data S self with
    | Raises cls => (Raises cls, self)
    | Returns df_co2 =>
      let merged := merge_datasets df_dj df_co2 in
      match save_data S merged "data/dow_jones_co2_data.csv" with
      | Raises cls => (Raises cls, self)
      | Returns _ => (Returns merged, MkCollector (start_date self) (Some merged))
      end
    end
  end.

(** [Series.min] and [Series.max] of the dates: NaT on an empty column. *)
Definition date_min (l : list Z) : option Z :=
  match l with
  | [] => None
  | x :: t => Some (fold_left Z.min t x)
  end.

Definition date_max (l : list Z) : option Z :=
  match l with
  | [] => None
  | x :: t => Some (fold_left Z.max t x)
  end.

Definition get_data_summary (self : Collector A) : outcome (DataSummary A) :=
  match df_merged self with
  | None => Raises "ValueError"
  | Some df =>
      Returns (MkDataSummary (length df)
                 (date_min (map Date df)) (date_max (map Date df))
                 (Kernels.min (map DJI_Close df), Kernels.max (map DJI_Close df))
                 (Kernels.min (map CO2_Level df), Kernels.max (map CO2_Level df)))
  end.

End Methods.
End DataCollector.

(** [EconometricAnalysis._collect_data] (src/src/main.py): a collector for
    the start date of the analysis, and its frame stored in [self.data]. *)
Definition _collect_data {A : Arith} (S : DataCollector.Services A)
    (self : EconometricAnalysis.State A) : outcome (EconometricAnalysis.State A) :=
  df ← fst (DataCollector.collect_all_data S
              (DataCollector.__init__ (EconometricAnalysis.start_date self)));
  mret (EconometricAnalysis.collected self df).

(** Example downloads: the CO2 series has a date the index lacks and a
    missing value. *)
Definition quote (t : Z) (v : float) : Z * num binary64 := (t, v).

Definition dj_rows : list (Z * num binary64) :=
  [ quote 1 10; quote 2 12; quote 4 15; quote 5 14 ].

Definition co2_rows : list (Z * num binary64) :=
  [ quote 1 400; quote 2 PrimFloat.nan; quote 3 402; quote 4 403; quote 5 404 ].

Definition services_ok : DataCollector.Services binary64 :=
  @DataCollector.MkServices binary64
    (fun _ => Returns dj_rows) (Returns co2_rows) (fun _ _ => Returns tt).

Definition services_disk_full : DataCollector.Services binary64 :=
  @DataCollector.MkServices binary64
    (fun _ => Returns dj_rows) (Returns co2_rows) (fun _ _ => Raises "OSError").


(** Strictly increasing dates. *)
Definition increasing (dates : list Z) : Prop := StronglySorted Z.lt dates.

Definition collected_example : EconometricAnalysis.State binary64 :=
  EconometricAnalysis.collected (EconometricAnalysis.__init__ "2015-01-01")
    (DataCollector.merge_datasets dj_rows co2_rows).

(** * The report: [class ReportGenerator]
    (src/econometric_analysis/src/report_generator.py)

    The report is text laid out on PDF pages.  What is modelled is what the
    text depends on: the keys read from [self.stats] and [self.models] and
    the sentences chosen by the flags.  The formatting of the numbers and
    the page layout are left out. *)

Module ReportGenerator.

Record Generator (A : Arith) : Type := MkGenerator {
  data : option (DataFrame A);
  stats : gmap string (StatValue A);
  models : gmap string (RegressionResults A)
}.
Arguments MkGenerator {A} _ _ _.
Arguments data {A} _.
Arguments stats {A} _.
Arguments models {A} _.

(** What the report reads from a fitted model with an integer index:
    [model.params[i]] and [model.pvalues[i]].  Both are pandas Series
    computed by statsmodels; whether an integer is taken as a position or
    as a label, and so whether the read returns or raises, is the
    library's. *)
Record Reads (A : Arith) : Type := MkReads {
  params_at : RegressionResults A -> nat -> outcome (num A);
  pvalues_at : RegressionResults A -> nat -> outcome (num A)
}.
Arguments MkReads {A} _ _.
Arguments params_at {A} _ _ _.
Arguments pvalues_at {A} _ _ _.

Definition nl : string := String (Ascii.ascii_of_nat 10) EmptyString.

Section Methods.
Context {A : Arith}.

Definition __init__ (d : option (DataFrame A)) (st : gmap string (StatValue A))
    (ms : gmap string (RegressionResults A)) : Generator A :=
  MkGenerator d st ms.

(** [self.stats['heteroscedasticity']['has_heteroscedasticity']]. *)
Definition heteroscedasticity_flag (self : Generator A) : outcome bool :=
  match stats self !! "heteroscedasticity" with
  | Some (VHeteroscedasticity h) => Returns (has_heteroscedasticity h)
  | Some _ => Raises "TypeError"
  | None => Raises "KeyError"
  end.

(** [self.stats['autocorrelation']['has_autocorrelation']]. *)
Definition autocorrelation_flag (self : Generator A) : outcome bool :=
  match stats self !! "autocorrelation" with
  | Some (VAutocorrelation a) => Returns (has_autocorrelation a)
  | Some _ => Raises "TypeError"
  | None => Raises "KeyError"
  end.

(** The general conclusion of [_add_heteroscedasticity_tests]. *)
Definition heteroscedasticity_conclusion (self : Generator A) : outcome string :=
  het ← heteroscedasticity_flag self;
  mret (if (het : bool)
        then "Les tests revelent la presence d'heteroscedasticite dans les residus du modele. "
             +:+ "Cela indique que la variance des erreurs n'est pas constante. Une regression "
             +:+ "ponderee (WLS) sera appliquee pour corriger ce probleme."
        else "Les tests ne revelent pas d'heteroscedasticite significative dans les residus. "
             +:+ "L'hypothese d'homoscedasticite est respectee.").

(** [_add_regression_results], by the section titles it prints.  The
    model under 'ols' is read first, then its [params[0]], [params[1]] and
    [pvalues[1]] (the other attributes read are numbers that are always
    there); the weighted fit has a section when ['wls' in self.models],
    with the same reads. *)
Definition _add_regression_results (R : Reads A) (self : Generator A)
  : outcome (list string) :=
  match models self !! "ols" with
  | None => Raises "KeyError"
  | Some ols_model =>
      const ← params_at R ols_model 0;
      beta ← params_at R ols_model 1;
      p ← pvalues_at R ols_model 1;
      match models self !! "wls" with
      | None => mret ["1. Regression OLS (Moindres Carres Ordinaires)"]
      | Some wls_model =>
          const_wls ← params_at R wls_model 0;
          beta_wls ← params_at R wls_model 1;
          p_wls ← pvalues_at R wls_model 1;
          mret ["1. Regression OLS (Moindres Carres Ordinaires)";
                "2. Regression WLS (Moindres Carres Ponderes)"]
      end
  end.

(** [self.stats['correlation']], formatted as a number. *)
Definition correlation_value (self : Generator A) : outcome (num A) :=
  match stats self !! "correlation" with
  | Some (VCorrelation corr) => Returns corr
  | Some _ => Raises "TypeError"
  | None => Raises "KeyError"
  end.

(** [_add_conclusion], by its [issues] and the sentence on the problems
    detected that it appends.  Before them the text reads the model under
    'ols', the correlation and, twice, [ols_model.pvalues[1]]. *)
Definition _add_conclusion (R : Reads A) (self : Generator A)
  : outcome (list string * string) :=
  match models self !! "ols" with
  | None => Raises "KeyError"
  | Some ols_model =>
      corr ← correlation_value self;
      p ← pvalues_at R ols_model 1;
      p' ← pvalues_at R ols_model 1;
      het ← heteroscedasticity_flag self;
      let issues := if (het : bool) then ["heteroscedasticite"] else [] in
      auto ← autocorrelation_flag self;
      let issues := issues ++ (if (auto : bool) then ["autocorrelation"] else []) in
      mret (issues,
            match issues with
            | [] => "Aucun probleme majeur n'a ete detecte dans les residus."
                    +:+ nl +:+ nl
            | _ => "La presence de " +:+ String.concat " et " issues
                   +:+ " a ete detectee, "
                   +:+ "ce qui a necessite l'application de corrections."
                   +:+ nl +:+ nl
            end)
  end.

End Methods.

(** The words on the correlation in [_add_statistical_tests]:
    ['positive' if corr > 0 else 'negative'] and
    ['forte' if abs(corr) > 0.7 else 'moderee' if abs(corr) > 0.3 else 'faible']. *)
Definition correlation_sign (corr : float) : string :=
  if PrimFloat.ltb 0 corr then "positive" else "negative".

Definition correlation_strength (corr : float) : string :=
  if PrimFloat.ltb 0.7 (PrimFloat.abs corr) then "forte"
  else if PrimFloat.ltb 0.3 (PrimFloat.abs corr) then "moderee"
  else "faible".

End ReportGenerator.

(** [EconometricAnalysis._generate_report] builds the generator from the
    data, the statistics and the models of the analysis. *)
Definition report_of {A : Arith} (self : EconometricAnalysis.State A)
  : ReportGenerator.Generator A :=
  ReportGenerator.__init__ (EconometricAnalysis.data self)
    (EconometricAnalysis.stats self) (EconometricAnalysis.models self).

(** Reads by position: entry [i] of the parameters, and a p-value for
    each parameter. *)
Definition reads_positional : ReportGenerator.Reads binary64 :=
  @ReportGenerator.MkReads binary64
    (fun (m : RegressionResults binary64) (i : nat) =>
       match nth_error (params m) i with
       | Some v => Returns (v : float)
       | None => Raises "IndexError"
       end)
    (fun (m : RegressionResults binary64) (i : nat) =>
       match nth_error (params m) i with
       | Some _ => Returns 0.03125%float
       | None => Raises "IndexError"
       end).

(** * Properties *)

(** ** Sequencing *)

Lemma bind_Returns {T U : Type} (c : outcome T) (k : T -> outcome U) (u : U) :
  c ≫= k = Returns u -> exists v, c = Returns v /\ k v = Returns u.
Proof.
  destruct c as [v|cls]; cbn; intros H.
  - exists v; split; [reflexivity | exact H].
  - discriminate H.
Qed.

Lemma bind_Raises {T U : Type} (c : outcome T) (k : T -> outcome U) (cls : string) :
  c ≫= k = Raises cls ->
  c = Raises cls \/ exists v, c = Returns v /\ k v = Raises cls.
Proof.
  destruct c as [v|cls']; cbn; intros H.
  - right; exists v; split; [reflexivity | exact H].
  - left; injection H as ->; reflexivity.
Qed.

Section RunLemmas.
Context {A : Arith} (L : Library A).

Lemma run_bind_Returns {T U : Type} (c : run L T) (k : T -> run L U) g u :
  fst (run_bind c k g) = Returns u ->
  exists v g', c g = (Returns v, g') /\ fst (k v g') = Returns u.
Proof.
  unfold run_bind. destruct (c g) as [[v|cls] g']; cbn; intros H.
  - exists v, g'; split; [reflexivity | exact H].
  - discriminate H.
Qed.

Lemma run_bind_Raises {T U : Type} (c : run L T) (k : T -> run L U) g cls :
  fst (run_bind c k g) = Raises cls ->
  fst (c g) = Raises cls \/
  exists v g', c g = (Returns v, g') /\ fst (k v g') = Raises cls.
Proof.
  unfold run_bind. destruct (c g) as [[v|cls'] g']; cbn; intros H.
  - right; exists v, g'; split; [reflexivity | exact H].
  - left; injection H as ->; reflexivity.
Qed.

Lemma lift_inv {T : Type} (c : outcome T) g r g' :
  lift (L := L) c g = (r, g') -> c = r /\ g' = g.
Proof. unfold lift; intros H; inversion H; split; reflexivity. Qed.

(** A seeded sample neither reads nor advances the process-wide generator. *)
Lemma Series_sample_seeded {T : Type} (s : list T) n seed g :
  Series_sample L s n (Some seed) g =
  (if (n <? 0)%Z || (Z.of_nat (length s) <? n)%Z then Raises "ValueError"
   else Returns (take_rows
                   (fst (choice L (RandomState L seed) (length s) (Z.to_nat n))) s),
   g).
Proof.
  unfold Series_sample.
  destruct ((n <? 0)%Z || (Z.of_nat (length s) <? n)%Z); reflexivity.
Qed.

End RunLemmas.

(** ** Decision rules of the diagnostics *)

Section Diagnostics.
Context {A : Arith} (L : Library A).
Import StatisticalAnalyzer.
Local Open Scope arith_scope.

(** The p-value of the LM form is the second component of what the
    library returns. *)
Definition lm_p (t : num A * num A * num A * num A) : num A := snd (fst (fst t)).

Lemma lm_entry_p t : lm_p_value (lm_entry t) = lm_p t.
Proof. destruct t as [[[a b] c] d]; reflexivity. Qed.

Lemma lm_entry_rejects t : rejects (lm_entry t) = (lm_p t <? significance).
Proof. destruct t as [[[a b] c] d]; reflexivity. Qed.

(** C6.  Whenever [test_heteroscedasticity] returns, the p-values it
    reports are the LM p-values of Breusch-Pagan and of White on the OLS
    residuals; each sub-test flag is true iff its LM p-value is below the
    significance level 0.05, and the aggregate flag is true iff one of the
    two LM p-values is below it. *)
Theorem heteroscedasticity_decision_rule (self : Analyzer A) r :
  test_heteroscedasticity L self = Returns r ->
  exists model bp wh,
    run_ols_regression self = Returns model /\
    het_breuschpagan L (resid model) (X self) = Returns bp /\
    het_white L (resid model) (X self) = Returns wh /\
    lm_p_value (breusch_pagan r) = lm_p bp /\
    lm_p_value (white r) = lm_p wh /\
    (rejects (breusch_pagan r) = true <->
       (lm_p_value (breusch_pagan r) <? significance) = true) /\
    (rejects (white r) = true <->
       (lm_p_value (white r) <? significance) = true) /\
    (has_heteroscedasticity r = true <->
       (lm_p_value (breusch_pagan r) <? significance) = true \/
       (lm_p_value (white r) <? significance) = true).
Proof.
  unfold test_heteroscedasticity. intros H.
  apply bind_Returns in H as (model & Hols & H).
  apply bind_Returns in H as (bp & Hbp & H).
  apply bind_Returns in H as (wh & Hwh & H).
  cbn in H. injection H as <-.
  exists model, bp, wh. cbn [breusch_pagan white has_heteroscedasticity].
  rewrite !lm_entry_p, !lm_entry_rejects.
  repeat split; try assumption; try (intros E; exact E).
  - intros E. apply orb_true_iff in E. exact E.
  - intros E. apply orb_true_iff. exact E.
Qed.

(** C7.  Whenever [test_autocorrelation] returns, the Durbin-Watson
    statistic it reports is that of the OLS residuals and its flag is true
    iff the statistic is below 1.5 or above 2.5; the Breusch-Godfrey entry
    (10 lags) is flagged iff its LM p-value is below 0.05; the aggregate
    flag is true iff the statistic is below 1.5, or above 2.5, or the
    Breusch-Godfrey LM p-value is below 0.05. *)
Theorem autocorrelation_decision_rule (self : Analyzer A) r :
  test_autocorrelation L self = Returns r ->
  exists model bg,
    run_ols_regression self = Returns model /\
    acorr_breusch_godfrey L model 10 = Returns bg /\
    dw_statistic (durbin_watson r) = Kernels.durbin_watson (resid model) /\
    lm_p_value (breusch_godfrey r) = lm_p bg /\
    (dw_has_autocorrelation (durbin_watson r) = true <->
       (dw_statistic (durbin_watson r) <? of_Z A 15 / of_Z A 10) = true \/
       (of_Z A 25 / of_Z A 10 <? dw_statistic (durbin_watson r)) = true) /\
    (rejects (breusch_godfrey r) = true <->
       (lm_p_value (breusch_godfrey r) <? significance) = true) /\
    (has_autocorrelation r = true <->
       (dw_statistic (durbin_watson r) <? of_Z A 15 / of_Z A 10) = true \/
       (of_Z A 25 / of_Z A 10 <? dw_statistic (durbin_watson r)) = true \/
       (lm_p_value (breusch_godfrey r) <? significance) = true).
Proof.
  unfold test_autocorrelation. intros H.
  apply bind_Returns in H as (model & Hols & H).
  apply bind_Returns in H as (bg & Hbg & H).
  cbn in H. injection H as <-.
  exists model, bg.
  cbn [durbin_watson breusch_godfrey has_autocorrelation
       dw_statistic dw_has_autocorrelation].
  rewrite !lm_entry_p, !lm_entry_rejects.
  repeat split; try assumption; try (intros E; exact E).
  - intros E. apply orb_true_iff in E. exact E.
  - intros E. apply orb_true_iff. exact E.
  - intros E. apply orb_true_iff in E as [E|E]; [|tauto].
    apply orb_true_iff in E. tauto.
  - intros E. rewrite !orb_true_iff. tauto.
Qed.

End Diagnostics.

Lemma heteroscedasticity_decision_rule_witness :
  exists model bp wh,
    StatisticalAnalyzer.run_ols_regression (analyzer_of frame6) = Returns model /\
    het_breuschpagan fixture (resid model) (StatisticalAnalyzer.X (analyzer_of frame6))
      = Returns bp /\
    het_white fixture (resid model) (StatisticalAnalyzer.X (analyzer_of frame6))
      = Returns wh /\
    lm_p_value (breusch_pagan frame6_het) = lm_p bp /\
    lm_p_value (white frame6_het) = lm_p wh /\
    (rejects (breusch_pagan frame6_het) = true <->
       ltb binary64 (lm_p_value (breusch_pagan frame6_het))
         StatisticalAnalyzer.significance = true) /\
    (rejects (white frame6_het) = true <->
       ltb binary64 (lm_p_value (white frame6_het))
         StatisticalAnalyzer.significance = true) /\
    (has_heteroscedasticity frame6_het = true <->
       ltb binary64 (lm_p_value (breusch_pagan frame6_het))
         StatisticalAnalyzer.significance = true \/
       ltb binary64 (lm_p_value (white frame6_het))
         StatisticalAnalyzer.significance = true).
Proof.
  apply (heteroscedasticity_decision_rule fixture (analyzer_of frame6) frame6_het).
  vm_compute. reflexivity.
Defined.

Lemma autocorrelation_decision_rule_witness :
  exists model bg,
    StatisticalAnalyzer.run_ols_regression (analyzer_of frame6) = Returns model /\
    acorr_breusch_godfrey fixture model 10 = Returns bg /\
    dw_statistic (durbin_watson frame6_auto) = Kernels.durbin_watson (resid model) /\
    lm_p_value (breusch_godfrey frame6_auto) = lm_p bg /\
    (dw_has_autocorrelation (durbin_watson frame6_auto) = true <->
       ltb binary64 (dw_statistic (durbin_watson frame6_auto))
         (div binary64 (of_Z binary64 15) (of_Z binary64 10)) = true \/
       ltb binary64 (div binary64 (of_Z binary64 25) (of_Z binary64 10))
         (dw_statistic (durbin_watson frame6_auto)) = true) /\
    (rejects (breusch_godfrey frame6_auto) = true <->
       ltb binary64 (lm_p_value (breusch_godfrey frame6_auto))
         StatisticalAnalyzer.significance = true) /\
    (has_autocorrelation frame6_auto = true <->
       ltb binary64 (dw_statistic (durbin_watson frame6_auto))
         (div binary64 (of_Z binary64 15) (of_Z binary64 10)) = true \/
       ltb binary64 (div binary64 (of_Z binary64 25) (of_Z binary64 10))
         (dw_statistic (durbin_watson frame6_auto)) = true \/
       ltb binary64 (lm_p_value (breusch_godfrey frame6_auto))
         StatisticalAnalyzer.significance = true).
Proof.
  apply (autocorrelation_decision_rule fixture (analyzer_of frame6) frame6_auto).
  vm_compute. reflexivity.
Defined.

(** ** Normality test: independence of the ambient generator *)

Section Normality.
Context {A : Arith} (L : Library A).
Import StatisticalAnalyzer.
Local Open Scope arith_scope.

(** What [test_normality] computes, with no generator state in sight: the
    rows drawn by [RandomState(42)], the same for both columns. *)
Definition normality_of_seed (self : Analyzer A) (sample_size : Z)
  : outcome (PerSeries (NormalityResult A)) :=
  let n := Z.min sample_size (Z.of_nat (length (data self))) in
  if (n <? 0)%Z then Raises "ValueError"
  else
    let rows :=
      fst (choice L (RandomState L 42) (length (data self)) (Z.to_nat n)) in
    dji ← shapiro L (take_rows rows (map DJI_Close (data self)));
    co2 ← shapiro L (take_rows rows (map CO2_Level (data self)));
    mret (MkPerSeries
            (MkNormality (fst dji) (snd dji) (significance <? snd dji))
            (MkNormality (fst co2) (snd co2) (significance <? snd co2))).

Lemma test_normality_run (self : Analyzer A) (sample_size : Z) (g : RNG L) :
  test_normality L self sample_size g = (normality_of_seed self sample_size, g).
Proof.
  assert (Hn : (Z.of_nat (length (data self))
                <? Z.min sample_size (Z.of_nat (length (data self))))%Z = false)
    by (apply Z.ltb_ge, Z.le_min_r).
  unfold test_normality, normality_of_seed, run_bind, lift, run_ret.
  rewrite Series_sample_seeded, length_map, Hn, orb_false_r.
  destruct (Z.min sample_size (Z.of_nat (length (data self))) <? 0)%Z eqn:Hneg;
    [reflexivity|].
  destruct (shapiro L (take_rows _ (map DJI_Close _))) as [dji|cls]; cbn;
    [|reflexivity].
  rewrite Series_sample_seeded, length_map, Hn, Hneg. cbn [orb].
  destruct (shapiro L (take_rows _ (map CO2_Level _))) as [co2|cls]; cbn;
    reflexivity.
Qed.

(** C9.  Two runs of [test_normality] on the same data with the same cap
    return the same result (statistics, p-values and flags, or the same
    exception) whatever the state of the process-wide generator at each
    run: the rows are drawn by a generator seeded with 42, and the
    process-wide generator is left as it was. *)
Theorem test_normality_deterministic
    (self : Analyzer A) (sample_size : Z) (g1 g2 : RNG L) :
  fst (test_normality L self sample_size g1)
    = fst (test_normality L self sample_size g2) /\
  fst (test_normality L self sample_size g1)
    = normality_of_seed self sample_size /\
  snd (test_normality L self sample_size g1) = g1.
Proof. rewrite !test_normality_run. cbn. repeat split. Qed.

End Normality.

(** ** The analysis step: weighted fit iff heteroscedasticity *)

Section Pipeline.
Context {A : Arith}.
Import EconometricAnalysis.

(** The library [L] with another weighted fit. *)
Definition with_WLS (L : Library A)
    (fit : list (num A) -> Design A -> list (num A) -> outcome (RegressionResults A))
  : Library A :=
  MkLibrary A (RNG L) (RandomState L) (choice L) (shapiro L) (adfuller L)
            (het_breuschpagan L) (het_white L) (acorr_breusch_godfrey L) fit.

(** The steps of [_perform_statistical_analysis] up to the branch. *)
Record Diagnosed : Type := MkDiagnosed {
  dg_analyzer : StatisticalAnalyzer.Analyzer A;
  dg_ols : RegressionResults A;
  dg_het : HeteroscedasticityResult A;
  dg_self : State A
}.

Definition diagnose (L : Library A) (self : State A) : run L Diagnosed :=
  d <~ lift (match data self with
             | Some d => Returns d
             | None => Raises "TypeError"
             end);;
  analyzer <~ lift (StatisticalAnalyzer.__init__ d);;
  descriptive <~ lift (StatisticalAnalyzer.compute_descriptive_stats analyzer);;
  normality <~ StatisticalAnalyzer.test_normality L analyzer 5000;;
  stationarity <~ lift (StatisticalAnalyzer.test_stationarity L analyzer);;
  correlation <~ lift (StatisticalAnalyzer.compute_correlation analyzer);;
  ols <~ lift (StatisticalAnalyzer.run_ols_regression analyzer);;
  het <~ lift (StatisticalAnalyzer.test_heteroscedasticity L analyzer);;
  auto <~ lift (StatisticalAnalyzer.test_autocorrelation L analyzer);;
  run_ret
    (MkDiagnosed analyzer ols het
       (set_stat
          (set_stat
             (set_model
                (set_stat
                   (set_stat
                      (set_stat
                         (set_stat self "descriptive" (VDescriptive descriptive))
                         "normality" (VNormality normality))
                      "stationarity" (VStationarity stationarity))
                   "correlation" (VCorrelation correlation))
                "ols" ols)
             "heteroscedasticity" (VHeteroscedasticity het))
          "autocorrelation" (VAutocorrelation auto))).

Definition branch (L : Library A) (x : Diagnosed) : run L (State A) :=
  if has_heteroscedasticity (dg_het x) then
    wls <~ lift (StatisticalAnalyzer.run_wls_regression L (dg_analyzer x));;
    run_ret (set_model (dg_self x) "wls" wls)
  else run_ret (dg_self x).

Lemma perform_diagnose_branch (L : Library A) (self : State A) (g : RNG L) :
  _perform_statistical_analysis L self g = run_bind (diagnose L self) (branch L) g.
Proof.
  unfold _perform_statistical_analysis, diagnose, branch, run_bind, lift, run_ret.
  destruct (data self) as [d|]; [|reflexivity].
  destruct (StatisticalAnalyzer.__init__ d) as [analyzer|]; [|reflexivity].
  destruct (StatisticalAnalyzer.compute_descriptive_stats analyzer)
    as [descriptive|]; [|reflexivity].
  destruct (StatisticalAnalyzer.test_normality L analyzer 5000 g)
    as [[normality|] g']; [|reflexivity].
  destruct (StatisticalAnalyzer.test_stationarity L analyzer)
    as [stationarity|]; [|reflexivity].
  destruct (StatisticalAnalyzer.compute_correlation analyzer)
    as [correlation|]; [|reflexivity].
  destruct (StatisticalAnalyzer.run_ols_regression analyzer)
    as [ols|]; [|reflexivity].
  destruct (StatisticalAnalyzer.test_heteroscedasticity L analyzer)
    as [het|]; [|reflexivity].
  destruct (StatisticalAnalyzer.test_autocorrelation L analyzer)
    as [auto|]; [|reflexivity].
  unfold heteroscedasticity_flag. cbn [stats set_stat set_model dg_het dg_self dg_analyzer].
  rewrite lookup_insert_ne by discriminate.
  rewrite lookup_insert_eq.
  reflexivity.
Qed.

Lemma diagnose_inv (L : Library A) (self : State A) (g g' : RNG L) (x : Diagnosed) :
  diagnose L self g = (Returns x, g') ->
  exists d,
    data self = Some d /\
    StatisticalAnalyzer.__init__ d = Returns (dg_analyzer x) /\
    StatisticalAnalyzer.run_ols_regression (dg_analyzer x) = Returns (dg_ols x) /\
    StatisticalAnalyzer.test_heteroscedasticity L (dg_analyzer x)
      = Returns (dg_het x) /\
    stats (dg_self x) !! "heteroscedasticity"
      = Some (VHeteroscedasticity (dg_het x)) /\
    models (dg_self x) = <["ols" := dg_ols x]> (models self).
Proof.
  unfold diagnose, run_bind, lift, run_ret.
  destruct (data self) as [d|]; [|discriminate].
  destruct (StatisticalAnalyzer.__init__ d) as [analyzer|] eqn:Hinit;
    [|discriminate].
  destruct (StatisticalAnalyzer.compute_descriptive_stats analyzer)
    as [descriptive|]; [|discriminate].
  destruct (StatisticalAnalyzer.test_normality L analyzer 5000 g)
    as [[normality|] g1]; [|discriminate].
  destruct (StatisticalAnalyzer.test_stationarity L analyzer)
    as [stationarity|]; [|discriminate].
  destruct (StatisticalAnalyzer.compute_correlation analyzer)
    as [correlation|]; [|discriminate].
  destruct (StatisticalAnalyzer.run_ols_regression analyzer)
    as [ols|] eqn:Hols; [|discriminate].
  destruct (StatisticalAnalyzer.test_heteroscedasticity L analyzer)
    as [het|] eqn:Hhet; [|discriminate].
  destruct (StatisticalAnalyzer.test_autocorrelation L analyzer)
    as [auto|]; [|discriminate].
  intros H. injection H as <- <-. exists d.
  cbn [dg_analyzer dg_ols dg_het dg_self stats models set_stat set_model].
  rewrite lookup_insert_ne by discriminate. rewrite lookup_insert_eq.
  repeat split; assumption.
Qed.

(** The steps before the branch make no use of the weighted fit. *)
Lemma diagnose_with_WLS (L : Library A) fit (self : State A) (g : RNG L) :
  diagnose (with_WLS L fit) self g = diagnose L self g.
Proof.
  unfold diagnose, run_bind, lift, run_ret.
  destruct (data self) as [d|]; [|reflexivity].
  destruct (StatisticalAnalyzer.__init__ d) as [analyzer|]; [|reflexivity].
  destruct (StatisticalAnalyzer.compute_descriptive_stats analyzer)
    as [descriptive|]; [|reflexivity].
  change (StatisticalAnalyzer.test_normality (with_WLS L fit) analyzer 5000 g)
    with (StatisticalAnalyzer.test_normality L analyzer 5000 g).
  destruct (StatisticalAnalyzer.test_normality L analyzer 5000 g)
    as [[normality|] g']; [|reflexivity].
  change (StatisticalAnalyzer.test_stationarity (with_WLS L fit) analyzer)
    with (StatisticalAnalyzer.test_stationarity L analyzer).
  destruct (StatisticalAnalyzer.test_stationarity L analyzer)
    as [stationarity|]; [|reflexivity].
  destruct (StatisticalAnalyzer.compute_correlation analyzer)
    as [correlation|]; [|reflexivity].
  destruct (StatisticalAnalyzer.run_ols_regression analyzer)
    as [ols|]; [|reflexivity].
  change (StatisticalAnalyzer.test_heteroscedasticity (with_WLS L fit) analyzer)
    with (StatisticalAnalyzer.test_heteroscedasticity L analyzer).
  destruct (StatisticalAnalyzer.test_heteroscedasticity L analyzer)
    as [het|]; [|reflexivity].
  change (StatisticalAnalyzer.test_autocorrelation (with_WLS L fit) analyzer)
    with (StatisticalAnalyzer.test_autocorrelation L analyzer).
  destruct (StatisticalAnalyzer.test_autocorrelation L analyzer)
    as [auto|]; reflexivity.
Qed.

(** C1.  Whenever the analysis step completes on a dataset, the weighted
    fit is in the models of the output if and only if the aggregate flag
    of [test_heteroscedasticity] is true.  With the flag true the models
    are the OLS fit and the result of [run_wls_regression]; with the flag
    false they are the OLS fit alone, and the weighted estimator is not
    run: the output is the same whatever the weighted fit would do. *)
Theorem wls_iff_heteroscedasticity (L : Library A)
    (start : string) (d : DataFrame A) (g : RNG L) (self' : State A) :
  fst (_perform_statistical_analysis L (collected (__init__ start) d) g)
    = Returns self' ->
  exists analyzer ols het,
    StatisticalAnalyzer.__init__ d = Returns analyzer /\
    StatisticalAnalyzer.run_ols_regression analyzer = Returns ols /\
    StatisticalAnalyzer.test_heteroscedasticity L analyzer = Returns het /\
    stats self' !! "heteroscedasticity" = Some (VHeteroscedasticity het) /\
    models self' !! "ols" = Some ols /\
    (is_Some (models self' !! "wls") <-> has_heteroscedasticity het = true) /\
    (has_heteroscedasticity het = true ->
       exists wls,
         StatisticalAnalyzer.run_wls_regression L analyzer = Returns wls /\
         models self' = <["wls" := wls]> {["ols" := ols]}) /\
    (has_heteroscedasticity het = false ->
       models self' = {["ols" := ols]} /\
       forall fit,
         fst (_perform_statistical_analysis (with_WLS L fit)
                (collected (__init__ start) d) g) = Returns self').
Proof.
  intros H. rewrite perform_diagnose_branch in H.
  apply run_bind_Returns in H as (x & g' & Hd & Hb).
  destruct (diagnose_inv _ _ _ _ _ Hd)
    as (d' & Hdata & Hinit & Hols & Hhet & Hstat & Hmodels).
  cbn in Hdata. injection Hdata as <-.
  cbn [models collected __init__] in Hmodels. rewrite insert_empty in Hmodels.
  exists (dg_analyzer x), (dg_ols x), (dg_het x).
  unfold branch in Hb.
  destruct (has_heteroscedasticity (dg_het x)) eqn:Hflag.
  - apply run_bind_Returns in Hb as (wls & g'' & Hw & Hr).
    apply lift_inv in Hw as [Hw _].
    cbn in Hr. injection Hr as <-.
    cbn [stats models set_model]. rewrite Hmodels.
    repeat split; try assumption; try congruence.
    + intros _. rewrite lookup_insert_eq. eexists; reflexivity.
    + intros _. exists wls. split; [exact Hw | reflexivity].
  - cbn in Hb. injection Hb as <-. rewrite Hmodels.
    repeat split; try assumption; try congruence.
    + intros [w Hw]. rewrite lookup_singleton_ne in Hw by discriminate.
      discriminate Hw.
    + intros fit. rewrite perform_diagnose_branch. unfold run_bind.
      rewrite diagnose_with_WLS, Hd. unfold branch. rewrite Hflag. reflexivity.
Qed.

End Pipeline.

Lemma wls_iff_heteroscedasticity_witness :
  exists analyzer ols het,
    StatisticalAnalyzer.__init__ frame6 = Returns analyzer /\
    StatisticalAnalyzer.run_ols_regression analyzer = Returns ols /\
    StatisticalAnalyzer.test_heteroscedasticity fixture analyzer = Returns het /\
    EconometricAnalysis.stats frame6_report !! "heteroscedasticity"
      = Some (VHeteroscedasticity het) /\
    EconometricAnalysis.models frame6_report !! "ols" = Some ols /\
    (is_Some (EconometricAnalysis.models frame6_report !! "wls")
       <-> has_heteroscedasticity het = true) /\
    (has_heteroscedasticity het = true ->
       exists wls,
         StatisticalAnalyzer.run_wls_regression fixture analyzer = Returns wls /\
         EconometricAnalysis.models frame6_report
           = <["wls" := wls]> {["ols" := ols]}) /\
    (has_heteroscedasticity het = false ->
       EconometricAnalysis.models frame6_report = {["ols" := ols]} /\
       forall fit,
         fst (EconometricAnalysis._perform_statistical_analysis
                (with_WLS fixture fit)
                (EconometricAnalysis.collected
                   (EconometricAnalysis.__init__ "2015-01-01") frame6) 0%nat)
           = Returns frame6_report).
Proof.
  apply (wls_iff_heteroscedasticity fixture "2015-01-01" frame6 0%nat frame6_report).
  vm_compute. reflexivity.
Defined.

(** ** Lists *)

Lemma filter_all_true {T : Type} (f : T -> bool) (l : list T) :
  Forall (fun v => f v = true) l -> List.filter f l = l.
Proof.
  induction 1 as [|v l Hv _ IH]; cbn; [reflexivity|].
  rewrite Hv, IH. reflexivity.
Qed.

Lemma map_fst_combine {T U : Type} (xs : list T) (ys : list U) :
  length xs = length ys -> map fst (combine xs ys) = xs.
Proof.
  revert ys. induction xs as [|x xs IH]; intros [|y ys] H; cbn in *;
    try reflexivity; try discriminate H.
  f_equal. apply IH. injection H as H. exact H.
Qed.

Lemma map_snd_combine {T U : Type} (xs : list T) (ys : list U) :
  length xs = length ys -> map snd (combine xs ys) = ys.
Proof.
  revert ys. induction xs as [|x xs IH]; intros [|y ys] H; cbn in *;
    try reflexivity; try discriminate H.
  f_equal. apply IH. injection H as H. exact H.
Qed.

Lemma combine_maps {R T U : Type} (f : R -> T) (g : R -> U) (d : list R) :
  combine (map f d) (map g d) = map (fun r => (f r, g r)) d.
Proof. induction d as [|r d IH]; cbn; [reflexivity | rewrite IH; reflexivity]. Qed.

Lemma filter_all_present {A : Arith} (xs ys : list (num A)) :
  Forall (fun v => isnan A v = false) xs ->
  Forall (fun v => isnan A v = false) ys ->
  List.filter (fun p => negb (isnan A (fst p)) && negb (isnan A (snd p)))
    (combine xs ys) = combine xs ys.
Proof.
  intros Hx Hy. apply filter_all_true.
  revert ys Hy. induction Hx as [|x xs Hx0 _ IH]; intros ys Hy; cbn; [constructor|].
  destruct Hy as [|y ys Hy0 Hy]; cbn; constructor.
  - cbn. rewrite Hx0, Hy0. reflexivity.
  - apply IH. exact Hy.
Qed.

(** ** What the analyzer does not check *)

Section NoValidation.
Context {A : Arith} (L : Library A).
Import StatisticalAnalyzer.
Local Open Scope arith_scope.

(** The rows that [test_normality] hands to [shapiro] for a column. *)
Definition normality_sample (self : Analyzer A) (sample_size : Z)
    (column : list (num A)) : list (num A) :=
  take_rows
    (fst (choice L (RandomState L 42) (length (data self))
            (Z.to_nat (Z.min sample_size (Z.of_nat (length (data self)))))))
    column.

(** A call that a run of the analyzer makes to the statistical library, on
    the data of this analyzer, raised [cls]: one of the two Shapiro-Wilk
    tests on the sampled rows, one of the two ADF tests on a column, the
    OLS fit of [y] on [X], or one of the three tests on the residuals of
    that fit. *)
Definition library_raises (self : Analyzer A) (cls : string) : Prop :=
  shapiro L (normality_sample self 5000 (map DJI_Close (data self))) = Raises cls \/
  shapiro L (normality_sample self 5000 (map CO2_Level (data self))) = Raises cls \/
  adfuller L (map DJI_Close (data self)) = Raises cls \/
  adfuller L (map CO2_Level (data self)) = Raises cls \/
  Regression.OLS_fit (y self) (X self) = Raises cls \/
  exists model,
    Regression.OLS_fit (y self) (X self) = Returns model /\
    (het_breuschpagan L (resid model) (X self) = Raises cls \/
     het_white L (resid model) (X self) = Raises cls \/
     acorr_breusch_godfrey L model 10 = Raises cls).

Lemma test_stationarity_raises self cls :
  test_stationarity L self = Raises cls -> library_raises self cls.
Proof.
  unfold test_stationarity. intros H.
  apply bind_Raises in H as [H|(v1 & _ & H)];
    [right; right; left; exact H|].
  apply bind_Raises in H as [H|(v2 & _ & H)];
    [right; right; right; left; exact H|].
  discriminate H.
Qed.

Lemma run_ols_raises (self : Analyzer A) cls :
  run_ols_regression self = Raises cls -> library_raises self cls.
Proof. intros H. do 4 right. left. exact H. Qed.

Lemma test_heteroscedasticity_raises self cls :
  test_heteroscedasticity L self = Raises cls -> library_raises self cls.
Proof.
  unfold test_heteroscedasticity. intros H.
  apply bind_Raises in H as [H|(m & Hm & H)];
    [eapply run_ols_raises; exact H|].
  do 5 right. exists m. split; [exact Hm|].
  apply bind_Raises in H as [H|(bp & _ & H)]; [left; exact H|].
  apply bind_Raises in H as [H|(wh & _ & H)]; [right; left; exact H|].
  discriminate H.
Qed.

Lemma test_autocorrelation_raises self cls :
  test_autocorrelation L self = Raises cls -> library_raises self cls.
Proof.
  unfold test_autocorrelation. intros H.
  apply bind_Raises in H as [H|(m & Hm & H)];
    [eapply run_ols_raises; exact H|].
  do 5 right. exists m. split; [exact Hm|].
  apply bind_Raises in H as [H|(bg & _ & H)]; [right; right; exact H|].
  discriminate H.
Qed.

Lemma normality_of_seed_raises self cls :
  normality_of_seed L self 5000 = Raises cls -> library_raises self cls.
Proof.
  unfold normality_of_seed. intros H.
  destruct (Z.min 5000 (Z.of_nat (length (data self))) <? 0)%Z eqn:Hneg.
  - apply Z.ltb_lt in Hneg. lia.
  - apply bind_Raises in H as [H|(v1 & _ & H)]; [left; exact H|].
    apply bind_Raises in H as [H|(v2 & _ & H)]; [right; left; exact H|].
    discriminate H.
Qed.

(** The summary raises only what one of its library calls raised. *)
Lemma get_analysis_summary_raises self g cls :
  fst (get_analysis_summary L self g) = Raises cls -> library_raises self cls.
Proof.
  intros H. unfold get_analysis_summary in H.
  apply run_bind_Raises in H as [H|(v & g1 & Hc & H)]; [discriminate H|].
  apply run_bind_Raises in H as [H|(nr & g2 & Hn & H)].
  { rewrite test_normality_run in H. cbn [fst] in H.
    apply normality_of_seed_raises. exact H. }
  apply run_bind_Raises in H as [H|(st & g3 & Hs & H)].
  { eapply test_stationarity_raises. exact H. }
  apply run_bind_Raises in H as [H|(co & g4 & Hco & H)]; [discriminate H|].
  apply run_bind_Raises in H as [H|(he & g5 & Hhe & H)].
  { eapply test_heteroscedasticity_raises. exact H. }
  apply run_bind_Raises in H as [H|(au & g6 & Hau & H)].
  { eapply test_autocorrelation_raises. exact H. }
  discriminate H.
Qed.

(** C3, as the code has it.  The analyzer has no minimum length: for a
    dataset of any length the constructor returns an analyzer over that
    data and the descriptive statistics are computed.  A run of
    [get_analysis_summary] on it raises [cls] only when one of its calls
    to the statistical library, on this data, raised [cls]; when none of
    them raises, the run returns the summary. *)
Theorem analyzer_accepts_any_length (d : DataFrame A) :
  exists self,
    __init__ d = Returns self /\
    data self = d /\
    compute_descriptive_stats self
      = Returns (MkPerSeries (describe (map DJI_Close d))
                             (describe (map CO2_Level d))) /\
    forall g,
      (forall cls,
         fst (get_analysis_summary L self g) = Raises cls ->
         library_raises self cls) /\
      ((forall cls, ~ library_raises self cls) ->
       exists summary, fst (get_analysis_summary L self g) = Returns summary).
Proof.
  exists (analyzer_of d). repeat split.
  - intros cls. apply get_analysis_summary_raises.
  - intros Hnone.
    destruct (fst (get_analysis_summary L (analyzer_of d) g)) as [s|cls] eqn:E.
    + exists s. reflexivity.
    + exfalso. apply (Hnone cls).
      eapply get_analysis_summary_raises. exact E.
Qed.

(** [compute_correlation] checks no variance and raises nothing: it
    returns the Pearson quotient of the two columns, whatever that quotient
    evaluates to. *)
Lemma compute_correlation_quotient (self : Analyzer A) :
  (exists r, compute_correlation self = Returns r) /\
  (forall cls, compute_correlation self <> Raises cls) /\
  let xs := map DJI_Close (data self) in
  let ys := map CO2_Level (data self) in
  (Forall (fun v => isnan A v = false) xs ->
   Forall (fun v => isnan A v = false) ys ->
   data self <> [] ->
   compute_correlation self
     = Returns (Kernels.clip (Kernels.cov xs ys / sqrt A (Kernels.cov xs xs)
                              / sqrt A (Kernels.cov ys ys)))).
Proof.
  split; [eexists; reflexivity|]. split; [intros cls H; discriminate H|].
  intros xs ys Hx Hy Hd. unfold compute_correlation, Kernels.corr.
  fold xs ys. rewrite (filter_all_present xs ys Hx Hy).
  assert (Hlen : length xs = length ys) by (unfold xs, ys; rewrite !length_map; reflexivity).
  rewrite (map_fst_combine xs ys Hlen), (map_snd_combine xs ys Hlen).
  destruct (combine xs ys) as [|p t] eqn:Hc; [|reflexivity].
  exfalso. apply Hd. apply (f_equal (@length _)) in Hc.
  rewrite length_combine, <- Hlen, Nat.min_id in Hc.
  unfold xs in Hc. rewrite length_map in Hc.
  destruct (data self); [reflexivity | discriminate Hc].
Qed.

(** C5, as the code has it.  The weight of observation [i] is
    [1 / residual_i ** 2], one weight per residual, and these weights are
    what the weighted fit receives: the quotient is taken at every
    residual, a zero one included, with no perturbation and no fallback. *)
Theorem wls_weights_are_inverse_squares (self : Analyzer A) ols :
  run_ols_regression self = Returns ols ->
  run_wls_regression L self
    = WLS_fit L (y self) (X self) (wls_weights (resid ols)) /\
  length (wls_weights (resid ols)) = length (resid ols) /\
  forall i e,
    nth_error (resid ols) i = Some e ->
    nth_error (wls_weights (resid ols)) i = Some (of_Z A 1 / (e * e)).
Proof.
  intros H. unfold run_wls_regression. rewrite H. cbn. split; [reflexivity|].
  unfold wls_weights. split; [apply length_map|].
  intros i e Hi. rewrite nth_error_map, Hi. reflexivity.
Qed.

End NoValidation.

(** ** Exact arithmetic: sums *)

Section ExactSums.
Local Open Scope Q_scope.

Lemma fold_left_Qplus_acc (s : list Q) (a b : Q) :
  a == b -> fold_left Qplus s a == fold_left Qplus s b.
Proof.
  revert a b. induction s as [|x s IH]; intros a b H; cbn; [exact H|].
  apply IH. rewrite H. reflexivity.
Qed.

Lemma fold_left_Qplus_shift (s : list Q) (a : Q) :
  fold_left Qplus s a == a + fold_left Qplus s 0.
Proof.
  revert a. induction s as [|x s IH]; intros a; cbn; [ring|].
  rewrite (IH (a + x)), (IH (0 + x)). ring.
Qed.

Lemma Qsq_nonneg (a : Q) : 0 <= a * a.
Proof.
  destruct (Qlt_le_dec a 0) as [H|H].
  - assert (E : a * a == (- a) * (- a)) by ring.
    rewrite E. apply Qmult_le_0_compat; lra.
  - apply Qmult_le_0_compat; exact H.
Qed.

Lemma Qsq_zero (a : Q) : a * a == 0 -> a == 0.
Proof. intros H. apply Qmult_integral in H. tauto. Qed.

Lemma qsum_nil : @Kernels.sum exact (@nil Q) == 0.
Proof. reflexivity. Qed.

Lemma qsum_cons (x : Q) (s : list Q) :
  @Kernels.sum exact (x :: s) == x + @Kernels.sum exact s.
Proof.
  unfold Kernels.sum. cbn. change (inject_Z 0) with 0.
  rewrite fold_left_Qplus_shift. ring.
Qed.

Lemma count_cons (k : nat) :
  inject_Z (Z.of_nat (S k)) == inject_Z (Z.of_nat k) + 1.
Proof.
  rewrite Nat2Z.inj_succ. unfold Z.succ. rewrite inject_Z_plus. reflexivity.
Qed.

Lemma count_pos (k : nat) : (0 < k)%nat -> 0 < inject_Z (Z.of_nat k).
Proof.
  intros H. change 0 with (inject_Z 0). rewrite <- Zlt_Qlt. lia.
Qed.

Context {R : Type}.
Implicit Types (f g : R -> Q) (d : list R).

Lemma qsum_map_ext f g d :
  (forall r, In r d -> f r == g r) ->
  @Kernels.sum exact (map f d) == @Kernels.sum exact (map g d).
Proof.
  induction d as [|r d IH]; intros H; cbn [map]; [reflexivity|].
  rewrite !qsum_cons, IH, (H r) by (intros; (apply H; right; assumption) || (left; reflexivity)).
  reflexivity.
Qed.

Lemma qsum_map_nonneg f d :
  (forall r, In r d -> 0 <= f r) -> 0 <= @Kernels.sum exact (map f d).
Proof.
  induction d as [|r d IH]; intros H; cbn [map].
  - rewrite qsum_nil. lra.
  - rewrite qsum_cons.
    assert (0 <= f r) by (apply H; left; reflexivity).
    assert (0 <= @Kernels.sum exact (map f d))
      by (apply IH; intros; apply H; right; assumption).
    lra.
Qed.

Lemma qsum_map_zero f d :
  (forall r, In r d -> 0 <= f r) ->
  @Kernels.sum exact (map f d) == 0 ->
  forall r, In r d -> f r == 0.
Proof.
  induction d as [|r0 d IH]; intros Hpos Hsum r Hr; [destruct Hr|].
  cbn [map] in Hsum. rewrite qsum_cons in Hsum.
  assert (H0 : 0 <= f r0) by (apply Hpos; left; reflexivity).
  assert (H1 : 0 <= @Kernels.sum exact (map f d))
    by (apply qsum_map_nonneg; intros; apply Hpos; right; assumption).
  destruct Hr as [<-|Hr]; [lra|].
  apply IH; [intros; apply Hpos; right; assumption | lra | exact Hr].
Qed.

(** The residuals of a line with intercept [a] and slope [b]. *)
Lemma qsum_residuals f g (a b : Q) d :
  @Kernels.sum exact (map (fun r => g r - (a + b * f r)) d)
  == @Kernels.sum exact (map g d) - inject_Z (Z.of_nat (length d)) * a
     - b * @Kernels.sum exact (map f d).
Proof.
  induction d as [|r d IH]; cbn [map length].
  - rewrite !qsum_nil. cbn. ring.
  - rewrite !qsum_cons, IH, count_cons. ring.
Qed.

Lemma qsum_residuals_times f g (a b : Q) d :
  @Kernels.sum exact (map (fun r => (g r - (a + b * f r)) * f r) d)
  == @Kernels.sum exact (map (fun r => f r * g r) d)
     - a * @Kernels.sum exact (map f d)
     - b * @Kernels.sum exact (map (fun r => f r * f r) d).
Proof.
  induction d as [|r d IH]; cbn [map].
  - rewrite !qsum_nil. ring.
  - rewrite !qsum_cons, IH. ring.
Qed.

(** Sum of squared deviations from any centre. *)
Lemma qsum_deviations f (c : Q) d :
  @Kernels.sum exact (map (fun r => (f r - c) * (f r - c)) d)
  == @Kernels.sum exact (map (fun r => f r * f r) d)
     - 2 * c * @Kernels.sum exact (map f d)
     + inject_Z (Z.of_nat (length d)) * c * c.
Proof.
  induction d as [|r d IH]; cbn [map length].
  - rewrite !qsum_nil. cbn. ring.
  - rewrite !qsum_cons, IH, count_cons. ring.
Qed.

(** A column with a vanishing determinant [n Sxx - Sx Sx] is constant. *)
Lemma det_zero_constant f d :
  d <> [] ->
  inject_Z (Z.of_nat (length d)) * @Kernels.sum exact (map (fun r => f r * f r) d)
    - @Kernels.sum exact (map f d) * @Kernels.sum exact (map f d) == 0 ->
  forall r, In r d ->
    f r == @Kernels.sum exact (map f d) / inject_Z (Z.of_nat (length d)).
Proof.
  intros Hd Hdet r Hr.
  set (n := inject_Z (Z.of_nat (length d))) in *.
  set (sx := @Kernels.sum exact (map f d)) in *.
  set (sxx := @Kernels.sum exact (map (fun r => f r * f r) d)) in *.
  assert (Hn : 0 < n)
    by (apply count_pos; destruct d; [congruence | cbn; lia]).
  assert (Hdev : @Kernels.sum exact
                   (map (fun r => (f r - sx / n) * (f r - sx / n)) d) == 0).
  { rewrite qsum_deviations. fold n sx sxx.
    assert (E : sxx - 2 * (sx / n) * sx + n * (sx / n) * (sx / n)
                == (n * sxx - sx * sx) / n) by (field; lra).
    rewrite E, Hdet. field. lra. }
  assert (Hz : (f r - sx / n) * (f r - sx / n) == 0).
  { apply (qsum_map_zero (fun r => (f r - sx / n) * (f r - sx / n)) d);
      [|exact Hdev|exact Hr].
    intros r' _. apply Qsq_nonneg. }
  apply Qsq_zero in Hz. lra.
Qed.

End ExactSums.

(** ** Exact arithmetic: order *)

Section ExactOrder.
Local Open Scope Q_scope.

Lemma Exact_ltb_lt (x y : Q) : Exact.ltb x y = true <-> x < y.
Proof.
  unfold Exact.ltb. rewrite negb_true_iff. split; intros H.
  - apply Qnot_le_lt. intros Hle. apply Qle_bool_iff in Hle. congruence.
  - destruct (Qle_bool y x) eqn:E; [|reflexivity].
    apply Qle_bool_iff in E. lra.
Qed.

Lemma Exact_ltb_ge (x y : Q) : Exact.ltb x y = false <-> y <= x.
Proof.
  unfold Exact.ltb. rewrite negb_false_iff. apply Qle_bool_iff.
Qed.

Lemma Qeq_bool_false (x y : Q) : ~ x == y -> Qeq_bool x y = false.
Proof.
  intros H. destruct (Qeq_bool x y) eqn:E; [|reflexivity].
  apply Qeq_bool_iff in E. contradiction.
Qed.

Lemma fold_maximum_ge (l : list Q) (acc : Q) :
  acc <= fold_left (@Kernels.maximum exact) l acc /\
  forall v, In v l -> v <= fold_left (@Kernels.maximum exact) l acc.
Proof.
  revert acc. induction l as [|x l IH]; intros acc; cbn [fold_left].
  - split; [lra | intros v []].
  - destruct (IH (@Kernels.maximum exact acc x)) as [H1 H2].
    assert (Hm : acc <= @Kernels.maximum exact acc x
                 /\ x <= @Kernels.maximum exact acc x).
    { unfold Kernels.maximum. cbn.
      destruct (Exact.ltb acc x) eqn:E.
      - apply Exact_ltb_lt in E. lra.
      - apply Exact_ltb_ge in E. lra. }
    split; [lra|]. intros v [<-|Hv]; [lra | apply H2, Hv].
Qed.

Lemma fold_minimum_le (l : list Q) (acc : Q) :
  fold_left (@Kernels.minimum exact) l acc <= acc /\
  forall v, In v l -> fold_left (@Kernels.minimum exact) l acc <= v.
Proof.
  revert acc. induction l as [|x l IH]; intros acc; cbn [fold_left].
  - split; [lra | intros v []].
  - destruct (IH (@Kernels.minimum exact acc x)) as [H1 H2].
    assert (Hm : @Kernels.minimum exact acc x <= acc
                 /\ @Kernels.minimum exact acc x <= x).
    { unfold Kernels.minimum. cbn.
      destruct (Exact.ltb x acc) eqn:E.
      - apply Exact_ltb_lt in E. lra.
      - apply Exact_ltb_ge in E. lra. }
    split; [lra|]. intros v [<-|Hv]; [lra | apply H2, Hv].
Qed.

Lemma amax_ge (s : list Q) (v : Q) : In v s -> v <= @Kernels.amax exact s.
Proof.
  unfold Kernels.amax. destruct s as [|x s]; [intros []|]. cbn [hd tl].
  destruct (fold_maximum_ge s x) as [H1 H2].
  intros [<-|Hv]; [exact H1 | apply H2, Hv].
Qed.

Lemma amin_le (s : list Q) (v : Q) : In v s -> @Kernels.amin exact s <= v.
Proof.
  unfold Kernels.amin. destruct s as [|x s]; [intros []|]. cbn [hd tl].
  destruct (fold_minimum_le s x) as [H1 H2].
  intros [<-|Hv]; [exact H1 | apply H2, Hv].
Qed.

(** A column with two different values gets its column of ones. *)
Lemma is_nonzero_const_varied (x : list Q) (a b : Q) :
  In a x -> In b x -> ~ a == b ->
  @Regression.is_nonzero_const exact x = false.
Proof.
  intros Ha Hb Hab. unfold Regression.is_nonzero_const.
  destruct x as [|x0 x]; [reflexivity|].
  apply andb_false_iff. left. unfold Kernels.ptp. cbn.
  apply Qeq_bool_false. intros E.
  pose proof (amax_ge _ _ Ha). pose proof (amax_ge _ _ Hb).
  pose proof (amin_le _ _ Ha). pose proof (amin_le _ _ Hb).
  unfold Kernels.amax, Kernels.amin in *. cbn [hd tl] in *.
  change (num exact) with Q in *. change (inject_Z 0) with 0 in E.
  apply Hab. lra.
Qed.

End ExactOrder.

(** ** Ordinary least squares: the normal equations *)

Section OLS.
Import StatisticalAnalyzer.

Lemma dot_maps {A : Arith} {R : Type} (f g : R -> num A) (d : list R) :
  Regression.dot (map f d) (map g d)
  = Kernels.sum (map (fun r => mul A (f r) (g r)) d).
Proof.
  unfold Regression.dot. rewrite combine_maps, map_map. reflexivity.
Qed.

Lemma residuals_of_line {A : Arith} (d : DataFrame A) (b : list (num A)) :
  map (fun p => sub A (fst p) (snd p))
      (combine (map DJI_Close d)
         (Regression.predict (MkDesign true (map CO2_Level d)) b))
  = map (fun r => sub A (DJI_Close r)
                    (add A (nth 0 b (nan A))
                       (mul A (nth 1 b (nan A)) (CO2_Level r)))) d.
Proof.
  unfold Regression.predict. cbn [has_const regressor].
  rewrite map_map, combine_maps, map_map. reflexivity.
Qed.

Local Open Scope Q_scope.

(** C8.  For every dataset of more than two observations whose predictor
    takes two different values, [run_ols_regression] returns a fit of the
    response on the design (1, X): two parameters [a] and [b], the fitted
    values [a + b * X_i] and the residuals [e_i = Y_i - (a + b * X_i)].
    These residuals sum to zero and are orthogonal to the predictor, in
    exact arithmetic. *)
Theorem ols_residuals_orthogonal (d : DataFrame exact) (self : Analyzer exact) :
  __init__ d = Returns self ->
  (2 < length d)%nat ->
  (exists r1 r2, In r1 d /\ In r2 d /\ ~ CO2_Level r1 == CO2_Level r2) ->
  exists (model : RegressionResults exact) (a b : Q),
    run_ols_regression self = Returns model /\
    endog model = map DJI_Close d /\
    regressor (exog model) = map CO2_Level d /\
    has_const (exog model) = true /\
    params model = [a; b] /\
    fittedvalues model
      = map (fun r : Observation exact => a + b * CO2_Level r) d /\
    resid model
      = map (fun r : Observation exact =>
               DJI_Close r - (a + b * CO2_Level r)) d /\
    length (resid model) = length d /\
    @Kernels.sum exact (resid model) == 0 /\
    @Regression.dot exact (resid model) (map CO2_Level d) == 0.
Proof.
  intros Hinit Hlen (r1 & r2 & H1 & H2 & Hne).
  injection Hinit as <-.
  assert (Hd : d <> []) by (destruct d; [cbn in Hlen; lia | discriminate]).
  assert (Hconst : @Regression.is_nonzero_const exact (map CO2_Level d) = false).
  { apply (is_nonzero_const_varied _ (CO2_Level r1) (CO2_Level r2));
      [apply in_map, H1 | apply in_map, H2 | exact Hne]. }
  unfold run_ols_regression, _prepare_regression_data. cbn [X y data].
  unfold Regression.add_constant. rewrite Hconst. cbn [negb].
  unfold Regression.OLS_fit. cbn [regressor].
  destruct (map CO2_Level d) as [|x0 xs] eqn:Hx.
  { destruct d; [congruence | discriminate Hx]. }
  rewrite <- Hx. cbn [isfinite exact negb].
  set (bb := Regression.lstsq (map DJI_Close d) (MkDesign true (map CO2_Level d))).
  eexists. exists (nth 0 bb (nan exact)), (nth 1 bb (nan exact)).
  split; [reflexivity|].
  cbn [endog exog params fittedvalues resid has_const regressor].
  split; [reflexivity|]. split; [reflexivity|]. split; [reflexivity|].
  split.
  { unfold bb, Regression.lstsq. cbn [has_const regressor].
    match goal with
    | |- (if ?c then _ else _) = _ => destruct c; reflexivity
    end. }
  split.
  { unfold Regression.predict. cbn [has_const regressor].
    rewrite map_map. reflexivity. }
  rewrite residuals_of_line, dot_maps.
  split; [reflexivity|].
  split; [apply length_map|].
  unfold bb, Regression.lstsq. cbn [has_const regressor].
  rewrite !dot_maps. unfold Kernels.count. rewrite length_map.
  cbn [num of_Z add sub mul div eqb nan exact].
  change (num exact) with Q in *.
  set (n := inject_Z (Z.of_nat (length d))).
  set (sx := @Kernels.sum exact (@map _ Q (@CO2_Level exact) d)).
  set (sy := @Kernels.sum exact (@map _ Q (@DJI_Close exact) d)).
  set (sxx := @Kernels.sum exact
                (@map _ Q (fun r : Observation exact => CO2_Level r * CO2_Level r) d)).
  set (sxy := @Kernels.sum exact
                (@map _ Q (fun r : Observation exact => CO2_Level r * DJI_Close r) d)).
  destruct (Qeq_bool (n * sxx - sx * sx) (inject_Z 0)) eqn:E.
  { exfalso. apply Qeq_bool_iff in E. apply Hne.
    rewrite (det_zero_constant (@CO2_Level exact) d Hd E r1 H1).
    rewrite (det_zero_constant (@CO2_Level exact) d Hd E r2 H2). reflexivity. }
  assert (Hdet : ~ n * sxx - sx * sx == 0).
  { intros E'. apply Qeq_bool_iff in E'.
    change (inject_Z 0) with 0 in E. congruence. }
  cbn [nth].
  split.
  - rewrite (qsum_residuals (@CO2_Level exact) (@DJI_Close exact)).
    fold n sx sy. field. exact Hdet.
  - rewrite (qsum_residuals_times (@CO2_Level exact) (@DJI_Close exact)).
    fold sx sxx sxy. field. exact Hdet.
Qed.

End OLS.

(** ** Order statistics *)

Section Sorting.

Lemma insert_perm {A : Arith} (x : num A) (l : list (num A)) :
  Permutation (Kernels.insert x l) (x :: l).
Proof.
  induction l as [|y l IH]; cbn; [reflexivity|].
  destruct (leb A x y); [reflexivity|].
  rewrite IH. apply perm_swap.
Qed.

Lemma sort_perm {A : Arith} (s : list (num A)) : Permutation (Kernels.sort s) s.
Proof.
  induction s as [|x s IH]; cbn; [reflexivity|].
  rewrite insert_perm, IH. reflexivity.
Qed.

Lemma sort_length {A : Arith} (s : list (num A)) :
  length (Kernels.sort s) = length s.
Proof. apply Permutation_length, sort_perm. Qed.

Lemma dropna_exact (s : list Q) : @Kernels.dropna exact s = s.
Proof. unfold Kernels.dropna. apply filter_all_true, List.Forall_forall. reflexivity. Qed.

Local Open Scope Q_scope.

Lemma insert_sorted (x : Q) (l : list Q) :
  StronglySorted Qle l -> StronglySorted Qle (@Kernels.insert exact x l).
Proof.
  induction 1 as [|y l Hl IH Hy]; cbn.
  - constructor; constructor.
  - destruct (Qle_bool x y) eqn:E.
    + apply Qle_bool_iff in E. constructor; [constructor; assumption|].
      constructor; [exact E|].
      apply List.Forall_forall. intros z Hz.
      rewrite List.Forall_forall in Hy. specialize (Hy z Hz). lra.
    + assert (Hyx : y <= x).
      { destruct (Qlt_le_dec y x) as [H|H]; [lra|].
        apply Qle_bool_iff in H. congruence. }
      constructor; [exact IH|].
      apply List.Forall_forall. intros z Hz.
      apply (Permutation_in _ (@insert_perm exact x l)) in Hz.
      destruct Hz as [<-|Hz]; [exact Hyx|].
      rewrite List.Forall_forall in Hy. apply Hy, Hz.
Qed.

Lemma sort_sorted (s : list Q) : StronglySorted Qle (@Kernels.sort exact s).
Proof.
  induction s as [|x s IH]; cbn; [constructor | apply insert_sorted, IH].
Qed.

Lemma sorted_nth_le (l : list Q) (i j : nat) (dflt : Q) :
  StronglySorted Qle l -> (i <= j)%nat -> (j < length l)%nat ->
  nth i l dflt <= nth j l dflt.
Proof.
  intros Hs. revert i j. induction Hs as [|y l Hl IH Hy]; intros i j Hij Hj.
  - cbn in Hj. lia.
  - destruct i as [|i], j as [|j]; cbn in *; try lia.
    + lra.
    + rewrite List.Forall_forall in Hy. apply Hy, nth_In. lia.
    + apply IH; lia.
Qed.

(** [Series.min] lies below and [Series.max] above every value. *)
Lemma fold_min_le (l : list Q) (acc : Q) :
  let m := fold_left (fun m y => if Exact.ltb y m then y else m) l acc in
  m <= acc /\ forall v, In v l -> m <= v.
Proof.
  revert acc. induction l as [|x l IH]; intros acc; cbn [fold_left].
  - split; [lra | intros v []].
  - destruct (IH (if Exact.ltb x acc then x else acc)) as [H1 H2].
    assert (Hm : (if Exact.ltb x acc then x else acc) <= acc
                 /\ (if Exact.ltb x acc then x else acc) <= x).
    { destruct (Exact.ltb x acc) eqn:E.
      - apply Exact_ltb_lt in E. lra.
      - apply Exact_ltb_ge in E. lra. }
    cbn zeta. split; [lra|]. intros v [<-|Hv]; [lra | apply H2, Hv].
Qed.

Lemma fold_max_ge (l : list Q) (acc : Q) :
  let m := fold_left (fun m y => if Exact.ltb m y then y else m) l acc in
  acc <= m /\ forall v, In v l -> v <= m.
Proof.
  revert acc. induction l as [|x l IH]; intros acc; cbn [fold_left].
  - split; [lra | intros v []].
  - destruct (IH (if Exact.ltb acc x then x else acc)) as [H1 H2].
    assert (Hm : acc <= (if Exact.ltb acc x then x else acc)
                 /\ x <= (if Exact.ltb acc x then x else acc)).
    { destruct (Exact.ltb acc x) eqn:E.
      - apply Exact_ltb_lt in E. lra.
      - apply Exact_ltb_ge in E. lra. }
    cbn zeta. split; [lra|]. intros v [<-|Hv]; [lra | apply H2, Hv].
Qed.

Lemma min_le (s : list Q) (v : Q) : In v s -> @Kernels.min exact s <= v.
Proof.
  unfold Kernels.min. rewrite dropna_exact.
  destruct s as [|x s]; [intros []|].
  destruct (fold_min_le s x) as [H1 H2].
  intros [<-|Hv]; [exact H1 | apply H2, Hv].
Qed.

Lemma max_ge (s : list Q) (v : Q) : In v s -> v <= @Kernels.max exact s.
Proof.
  unfold Kernels.max. rewrite dropna_exact.
  destruct s as [|x s]; [intros []|].
  destruct (fold_max_ge s x) as [H1 H2].
  intros [<-|Hv]; [exact H1 | apply H2, Hv].
Qed.

End Sorting.

(** ** Quantiles as one piecewise-linear function of the position *)

Section Interpolation.
Local Open Scope Q_scope.

(** A count as a rational. *)
Definition Qn (k : nat) : Q := inject_Z (Z.of_nat k).

(** The value at position [i + t] between the order statistics [i] and
    [i + 1] of [v]. *)
Definition interp (v : list Q) (i : nat) (t : Q) : Q :=
  nth i v 0 + (nth (Nat.min (i + 1) (length v - 1)) v 0 - nth i v 0) * t.

Lemma Qn_nonneg k : 0 <= Qn k.
Proof. unfold Qn. change 0 with (inject_Z 0). rewrite <- Zle_Qle. lia. Qed.

Lemma Qn_le i j : (i <= j)%nat -> Qn i <= Qn j.
Proof. intros H. unfold Qn. rewrite <- Zle_Qle. lia. Qed.

Lemma Qn_S k : Qn (S k) == Qn k + 1.
Proof. apply count_cons. Qed.

Lemma Qn_add i j : Qn (i + j) == Qn i + Qn j.
Proof. unfold Qn. rewrite Nat2Z.inj_add, inject_Z_plus. reflexivity. Qed.

Lemma Qn_mul i j : Qn (i * j) == Qn i * Qn j.
Proof. unfold Qn. rewrite Nat2Z.inj_mul, inject_Z_mult. reflexivity. Qed.

(** Integer part and fraction of [k / b]. *)
Lemma Qn_div_mod (k b : nat) :
  (0 < b)%nat -> Qn (k / b) + Qn (k mod b) / Qn b == Qn k / Qn b.
Proof.
  intros Hb.
  assert (Hq : 0 < Qn b) by (apply count_pos, Hb).
  rewrite (Nat.div_mod_eq k b) at 3. rewrite Qn_add, Qn_mul.
  field. lra.
Qed.

Lemma Qn_frac (k b : nat) :
  (0 < b)%nat -> 0 <= Qn (k mod b) / Qn b /\ Qn (k mod b) / Qn b < 1.
Proof.
  intros Hb.
  assert (Hq : 0 < Qn b) by (apply count_pos, Hb).
  split.
  - apply Qle_shift_div_l; [exact Hq|]. pose proof (Qn_nonneg (k mod b)). lra.
  - apply Qlt_shift_div_r; [exact Hq|].
    unfold Qn. rewrite Qmult_1_l, <- Zlt_Qlt.
    pose proof (Nat.mod_upper_bound k b). lia.
Qed.

Lemma lerp_exact (a b t : Q) : @Kernels.lerp exact a b t == a + (b - a) * t.
Proof.
  unfold Kernels.lerp. cbn. change (inject_Z 1) with 1.
  destruct (Qle_bool _ t); ring.
Qed.

Lemma interp_step (v : list Q) (i : nat) :
  StronglySorted Qle v -> v <> [] ->
  (i <= length v - 1)%nat ->
  nth i v 0 <= nth (Nat.min (i + 1) (length v - 1)) v 0.
Proof.
  intros Hsorted Hne Hi.
  assert (0 < length v)%nat by (destruct v; [congruence | cbn; lia]).
  apply sorted_nth_le; [exact Hsorted | lia | lia].
Qed.

Lemma interp_bounds (v : list Q) (i : nat) (t : Q) :
  StronglySorted Qle v -> v <> [] ->
  (i <= length v - 1)%nat -> 0 <= t -> t <= 1 ->
  nth i v 0 <= interp v i t /\
  interp v i t <= nth (Nat.min (i + 1) (length v - 1)) v 0.
Proof.
  intros Hsorted Hne Hi H0 H1.
  pose proof (interp_step v i Hsorted Hne Hi). unfold interp. split; nra.
Qed.

(** The interpolation is non-decreasing in the position. *)
Lemma interp_mono (v : list Q) (i j : nat) (t u : Q) :
  StronglySorted Qle v -> v <> [] ->
  (i <= length v - 1)%nat -> (j <= length v - 1)%nat ->
  0 <= t -> t < 1 -> 0 <= u -> u < 1 ->
  Qn i + t <= Qn j + u ->
  interp v i t <= interp v j u.
Proof.
  intros Hsorted Hne Hi Hj Ht0 Ht1 Hu0 Hu1 Hpos.
  assert (Hlen : (0 < length v)%nat) by (destruct v; [congruence | cbn; lia]).
  destruct (Nat.lt_trichotomy i j) as [Hlt|[->|Hgt]].
  - destruct (interp_bounds v i t Hsorted Hne Hi) as [_ Hup]; [lra | lra |].
    destruct (interp_bounds v j u Hsorted Hne Hj) as [Hlo _]; [lra | lra |].
    assert (nth (Nat.min (i + 1) (length v - 1)) v 0 <= nth j v 0)
      by (apply sorted_nth_le; [exact Hsorted | lia | lia]).
    lra.
  - pose proof (interp_step v j Hsorted Hne Hj). unfold interp.
    assert (t <= u) by lra. nra.
  - exfalso. assert (Hs : Qn (S j) <= Qn i) by (apply Qn_le; lia).
    rewrite Qn_S in Hs. lra.
Qed.

Lemma quantile_interp (qn qd : nat) (s : list Q) :
  s <> [] ->
  @Kernels.quantile exact qn qd s
  == interp (@Kernels.sort exact s) (qn * (length s - 1) / qd)
            (Qn ((qn * (length s - 1)) mod qd) / Qn qd).
Proof.
  intros Hne. unfold Kernels.quantile, interp. rewrite dropna_exact. cbn zeta.
  change (num exact) with Q. rewrite !(@sort_length exact).
  change (num exact) with Q.
  destruct (length s) as [|k] eqn:E; [destruct s; [congruence | discriminate E]|].
  rewrite lerp_exact. reflexivity.
Qed.

Lemma median_interp (s : list Q) :
  s <> [] ->
  @Kernels.median exact s
  == interp (@Kernels.sort exact s) ((length s - 1) / 2)
            (Qn ((length s - 1) mod 2) / Qn 2).
Proof.
  intros Hne. unfold Kernels.median, interp. rewrite dropna_exact. cbn zeta.
  change (num exact) with Q. rewrite !(@sort_length exact).
  change (num exact) with Q.
  destruct (length s) as [|k] eqn:E; [destruct s; [congruence | discriminate E]|].
  cbn [nan exact of_Z add div].
  change (inject_Z 2) with 2. change (Qn 2) with 2.
  pose proof (Nat.div_mod_eq (S k) 2) as D1.
  pose proof (Nat.mod_upper_bound (S k) 2 ltac:(lia)) as M1.
  pose proof (Nat.div_mod_eq (S k - 1) 2) as D2.
  pose proof (Nat.mod_upper_bound (S k - 1) 2 ltac:(lia)) as M2.
  destruct (Nat.even (S k)) eqn:Ev.
  - apply Nat.even_spec in Ev as [m Hm].
    assert (H1 : (S k / 2 = m)%nat) by lia.
    assert (H2 : ((S k - 1) / 2 = m - 1)%nat) by lia.
    assert (H3 : ((S k - 1) mod 2 = 1)%nat) by lia.
    assert (H4 : (Nat.min (m - 1 + 1) (S k - 1) = m)%nat) by lia.
    rewrite H1, H2, H3, H4. change (Qn 1) with 1. field.
  - rewrite <- Nat.negb_odd in Ev. apply negb_false_iff in Ev.
    apply Nat.odd_spec in Ev as [m Hm].
    assert (H1 : (S k / 2 = m)%nat) by lia.
    assert (H2 : ((S k - 1) / 2 = m)%nat) by lia.
    assert (H3 : ((S k - 1) mod 2 = 0)%nat) by lia.
    rewrite H1, H2, H3. change (Qn 0) with 0. field.
Qed.

Lemma qsum_bounds (s : list Q) (lo hi : Q) :
  (forall v, In v s -> lo <= v /\ v <= hi) ->
  Qn (length s) * lo <= @Kernels.sum exact s /\
  @Kernels.sum exact s <= Qn (length s) * hi.
Proof.
  induction s as [|x s IH]; intros H.
  - rewrite qsum_nil. change (Qn (length [])) with 0. lra.
  - cbn [length]. rewrite qsum_cons, Qn_S.
    destruct (H x (or_introl eq_refl)).
    destruct IH as [I1 I2]; [intros v Hv; apply H; right; exact Hv|].
    split; lra.
Qed.

Lemma mean_bounds (s : list Q) (lo hi : Q) :
  s <> [] ->
  (forall v, In v s -> lo <= v /\ v <= hi) ->
  lo <= @Kernels.mean exact s /\ @Kernels.mean exact s <= hi.
Proof.
  intros Hne H. unfold Kernels.mean, Kernels.count. rewrite dropna_exact.
  cbn [div of_Z exact]. change (num exact) with Q. fold (Qn (length s)).
  assert (Hn : 0 < Qn (length s))
    by (apply count_pos; destruct s; [congruence | cbn; lia]).
  destruct (qsum_bounds s lo hi H) as [B1 B2].
  split.
  - apply Qle_shift_div_l; [exact Hn | lra].
  - apply Qle_shift_div_r; [exact Hn | lra].
Qed.

(** The ordering invariant of one [DescriptiveStats] record. *)
Definition ordered (st : DescriptiveStats exact) : Prop :=
  d_min st <= d_q1 st /\ d_q1 st <= d_median st /\
  d_median st <= d_q3 st /\ d_q3 st <= d_max st /\
  d_min st <= d_mean st /\ d_mean st <= d_max st.

Lemma describe_ordered (s : list Q) :
  s <> [] -> ordered (@StatisticalAnalyzer.describe exact s).
Proof.
  intros Hne. unfold ordered, StatisticalAnalyzer.describe.
  cbn [d_min d_q1 d_median d_q3 d_max d_mean].
  change (num exact) with Q.
  set (v := @Kernels.sort exact s : list Q).
  assert (Hs : StronglySorted Qle v) by apply sort_sorted.
  assert (Hlen : length v = length s) by exact (@sort_length exact s).
  assert (Hpos : (0 < length s)%nat) by (destruct s; [congruence | cbn; lia]).
  assert (Hv : v <> []) by (intros E; rewrite E in Hlen; cbn in Hlen; lia).
  assert (Hin : forall i, (i <= length v - 1)%nat ->
                  @Kernels.min exact s <= nth i v 0 /\
                  nth i v 0 <= @Kernels.max exact s).
  { intros i Hi.
    assert (Hi' : (i < length v)%nat) by lia.
    assert (In (nth i v 0) s)
      by (apply (Permutation_in _ (@sort_perm exact s)), nth_In; exact Hi').
    split; [apply min_le | apply max_ge]; assumption. }
  set (N := (length s - 1)%nat).
  pose proof (Nat.div_mod_eq (1 * N) 4) as D1.
  pose proof (Nat.mod_upper_bound (1 * N) 4 ltac:(lia)) as M1.
  pose proof (Nat.div_mod_eq N 2) as D2.
  pose proof (Nat.mod_upper_bound N 2 ltac:(lia)) as M2.
  pose proof (Nat.div_mod_eq (3 * N) 4) as D3.
  pose proof (Nat.mod_upper_bound (3 * N) 4 ltac:(lia)) as M3.
  assert (I1 : (1 * N / 4 <= length v - 1)%nat) by (rewrite Hlen; fold N; lia).
  assert (I2 : (N / 2 <= length v - 1)%nat) by (rewrite Hlen; fold N; lia).
  assert (I3 : (3 * N / 4 <= length v - 1)%nat) by (rewrite Hlen; fold N; lia).
  destruct (Qn_frac (1 * N) 4 ltac:(lia)) as [F1 F1'].
  destruct (Qn_frac N 2 ltac:(lia)) as [F2 F2'].
  destruct (Qn_frac (3 * N) 4 ltac:(lia)) as [F3 F3'].
  pose proof (Qn_div_mod (1 * N) 4 ltac:(lia)) as P1.
  pose proof (Qn_div_mod N 2 ltac:(lia)) as P2.
  pose proof (Qn_div_mod (3 * N) 4 ltac:(lia)) as P3.
  rewrite Qn_mul in P1, P3.
  change (Qn 1) with 1 in P1. change (Qn 3) with 3 in P3.
  change (Qn 4) with 4 in *. change (Qn 2) with 2 in *.
  pose proof (Qn_nonneg N) as HN.
  rewrite (quantile_interp 1 4 s Hne), (quantile_interp 3 4 s Hne),
          (median_interp s Hne).
  fold v N. change (Qn 4) with 4. change (Qn 2) with 2.
  destruct (interp_bounds v (1 * N / 4) _ Hs Hv I1 F1 ltac:(lra)) as [L1 _].
  destruct (interp_bounds v (3 * N / 4) _ Hs Hv I3 F3 ltac:(lra)) as [_ U3].
  destruct (Hin (1 * N / 4)%nat I1) as [Hmin _].
  destruct (Hin (Nat.min (3 * N / 4 + 1) (length v - 1))) as [_ Hmax]; [lia|].
  destruct (mean_bounds s (@Kernels.min exact s) (@Kernels.max exact s) Hne)
    as [Hm1 Hm2].
  { intros x Hx. split; [apply min_le | apply max_ge]; exact Hx. }
  assert (E1 : 1 * Qn N / 4 == (1 # 4) * Qn N) by field.
  assert (E2 : Qn N / 2 == (1 # 2) * Qn N) by field.
  assert (E3 : 3 * Qn N / 4 == (3 # 4) * Qn N) by field.
  rewrite E1 in P1. rewrite E2 in P2. rewrite E3 in P3.
  repeat split; try lra.
  - apply (interp_mono v _ _ _ _ Hs Hv I1 I2 F1 F1' F2 F2').
    set (f1 := Qn ((1 * N) mod 4) / 4) in *.
    set (f2 := Qn (N mod 2) / 2) in *. lra.
  - apply (interp_mono v _ _ _ _ Hs Hv I2 I3 F2 F2' F3 F3').
    set (f2 := Qn (N mod 2) / 2) in *.
    set (f3 := Qn ((3 * N) mod 4) / 4) in *. lra.
Qed.

End Interpolation.

(** ** A constant predictor *)

Section ConstantPredictor.
Import StatisticalAnalyzer.
Local Open Scope Q_scope.

Lemma qsum_map_const {R : Type} (f : R -> Q) (c : Q) (d : list R) :
  (forall r, In r d -> f r == c) ->
  @Kernels.sum exact (map f d) == Qn (length d) * c.
Proof.
  induction d as [|r d IH]; intros H; cbn [map length].
  - rewrite qsum_nil. change (Qn 0) with 0. ring.
  - rewrite qsum_cons, Qn_S, IH, (H r)
      by (intros; (apply H; right; assumption) || (left; reflexivity)).
    ring.
Qed.

Lemma qsum_map_scale {R : Type} (g : R -> Q) (c : Q) (d : list R) :
  @Kernels.sum exact (map (fun r => c * g r) d)
  == c * @Kernels.sum exact (map g d).
Proof.
  induction d as [|r d IH]; cbn [map].
  - rewrite !qsum_nil. ring.
  - rewrite !qsum_cons, IH. ring.
Qed.

Lemma fold_maximum_In (l : list Q) (acc : Q) :
  fold_left (@Kernels.maximum exact) l acc = acc \/
  In (fold_left (@Kernels.maximum exact) l acc) l.
Proof.
  revert acc. induction l as [|x l IH]; intros acc; cbn [fold_left];
    [left; reflexivity|].
  destruct (IH (@Kernels.maximum exact acc x)) as [E|E].
  - rewrite E. unfold Kernels.maximum. cbn.
    destruct (Exact.ltb acc x); [right; left; reflexivity | left; reflexivity].
  - right; right; exact E.
Qed.

Lemma fold_minimum_In (l : list Q) (acc : Q) :
  fold_left (@Kernels.minimum exact) l acc = acc \/
  In (fold_left (@Kernels.minimum exact) l acc) l.
Proof.
  revert acc. induction l as [|x l IH]; intros acc; cbn [fold_left];
    [left; reflexivity|].
  destruct (IH (@Kernels.minimum exact acc x)) as [E|E].
  - rewrite E. unfold Kernels.minimum. cbn.
    destruct (Exact.ltb x acc); [right; left; reflexivity | left; reflexivity].
  - right; right; exact E.
Qed.

Lemma ptp_constant (x : list Q) (c : Q) :
  x <> [] -> (forall v, In v x -> v == c) -> @Kernels.ptp exact x == 0.
Proof.
  intros Hx Hc. destruct x as [|x0 x]; [congruence|].
  unfold Kernels.ptp, Kernels.amax, Kernels.amin. cbn [hd tl sub exact].
  assert (Hmax : fold_left (@Kernels.maximum exact) x x0 == c).
  { destruct (fold_maximum_In x x0) as [->|E].
    - apply Hc. left; reflexivity.
    - apply Hc. right; exact E. }
  assert (Hmin : fold_left (@Kernels.minimum exact) x x0 == c).
  { destruct (fold_minimum_In x x0) as [->|E].
    - apply Hc. left; reflexivity.
    - apply Hc. right; exact E. }
  change (num exact) with Q. rewrite Hmax, Hmin. ring.
Qed.

(** [sm.add_constant] on a constant column: no column of ones unless the
    constant is zero. *)
Lemma is_nonzero_const_constant (x : list Q) (c : Q) :
  x <> [] -> (forall v, In v x -> v == c) ->
  @Regression.is_nonzero_const exact x = negb (Qeq_bool c 0).
Proof.
  intros Hx Hc. unfold Regression.is_nonzero_const.
  pose proof (ptp_constant x c Hx Hc) as Hptp.
  destruct x as [|x0 x]; [congruence|].
  cbn [eqb of_Z exact]. change (inject_Z 0) with 0.
  apply Qeq_bool_iff in Hptp. rewrite Hptp. cbn [andb].
  destruct (Qeq_bool c 0) eqn:E; cbn [negb].
  - apply Qeq_bool_iff in E.
    apply not_true_is_false. intros Hex. apply existsb_exists in Hex.
    destruct Hex as (v & Hv & Hnz). apply negb_true_iff in Hnz.
    assert (Hv0 : v == 0) by (rewrite (Hc v Hv); exact E).
    apply Qeq_bool_iff in Hv0. congruence.
  - apply existsb_exists. exists x0. split; [left; reflexivity|].
    apply negb_true_iff, Qeq_bool_false. intros H0. 
    assert (c == 0) by (rewrite <- (Hc x0 (or_introl eq_refl)); exact H0).
    apply Qeq_bool_iff in H. congruence.
Qed.

(** The modelled fit on a constant predictor, in exact arithmetic: the
    least-squares solution of least norm, whose fitted values are all the
    mean of the response. *)
Lemma ols_constant_predictor
    (d : DataFrame exact) (c : Q) (self : Analyzer exact) :
  d <> [] ->
  (forall r, In r d -> CO2_Level r == c) ->
  __init__ d = Returns self ->
  exists model,
    run_ols_regression self = Returns model /\
    has_const (exog model) = Qeq_bool c 0 /\
    length (fittedvalues model) = length d /\
    forall f, In f (fittedvalues model) ->
      f == @Kernels.mean exact (map DJI_Close d).
Proof.
  intros Hd Hc Hinit. injection Hinit as <-.
  assert (Hx : map (@CO2_Level exact) d <> [])
    by (destruct d; [congruence | discriminate]).
  assert (Hxc : forall v, In v (map (@CO2_Level exact) d) -> v == c).
  { intros v Hv. apply in_map_iff in Hv as (r & <- & Hr). apply Hc, Hr. }
  assert (Hn : 0 < Qn (length d))
    by (apply count_pos; destruct d; [congruence | cbn; lia]).
  unfold run_ols_regression, _prepare_regression_data. cbn [X y data].
  unfold Regression.add_constant.
  rewrite (is_nonzero_const_constant _ c Hx Hxc), negb_involutive.
  unfold Regression.OLS_fit. cbn [regressor].
  destruct (map CO2_Level d) as [|x0 xs] eqn:Ex; [congruence|].
  rewrite <- Ex. rewrite <- Ex in Hxc. clear Hx. cbn [isfinite exact negb].
  eexists. split; [reflexivity|]. cbn [exog fittedvalues has_const].
  split; [reflexivity|].
  assert (Hmean : @Kernels.mean exact (map DJI_Close d)
                  == @Kernels.sum exact (map (@DJI_Close exact) d) / Qn (length d)).
  { unfold Kernels.mean, Kernels.count. rewrite dropna_exact, length_map.
    reflexivity. }
  assert (Sx : @Kernels.sum exact (map (@CO2_Level exact) d) == Qn (length d) * c)
    by (apply qsum_map_const, Hc).
  assert (Sxx : @Kernels.sum exact
                  (map (fun r : Observation exact => CO2_Level r * CO2_Level r) d)
                == Qn (length d) * (c * c)).
  { apply qsum_map_const. intros r Hr. rewrite (Hc r Hr). reflexivity. }
  assert (Sxy : @Kernels.sum exact
                  (map (fun r : Observation exact => CO2_Level r * DJI_Close r) d)
                == c * @Kernels.sum exact (map (@DJI_Close exact) d)).
  { rewrite <- qsum_map_scale. apply qsum_map_ext.
    intros r Hr. rewrite (Hc r Hr). reflexivity. }
  unfold Regression.predict, Regression.lstsq. cbn [has_const regressor].
  rewrite !dot_maps. unfold Kernels.count. rewrite !length_map.
  cbn [num of_Z add sub mul div eqb nan exact].
  change (num exact) with Q in *. fold (Qn (length d)).
  destruct (Qeq_bool c 0) eqn:Ec.
  - apply Qeq_bool_iff in Ec.
    assert (Hdet : Qn (length d)
                     * @Kernels.sum exact
                         (map (fun r : Observation exact =>
                                 CO2_Level r * CO2_Level r) d)
                   - @Kernels.sum exact (map (@CO2_Level exact) d)
                     * @Kernels.sum exact (map (@CO2_Level exact) d) == 0).
    { rewrite Sx, Sxx, Ec. ring. }
    apply Qeq_bool_iff in Hdet.
    match goal with
    | |- context [if Qeq_bool ?a ?b then _ else _] =>
        destruct (Qeq_bool a b) eqn:Edet
    end;
      [|discriminate (eq_trans (eq_sym Edet) Hdet)].
    cbn [nth]. split; [rewrite !length_map; reflexivity|].
    intros f Hf. apply in_map_iff in Hf as (v & <- & Hv).
    assert (Hh : hd 0 (map (@CO2_Level exact) d) == 0).
    { assert (Hin : In (hd 0 (map (@CO2_Level exact) d))
                       (map (@CO2_Level exact) d))
        by (destruct d; [congruence | left; reflexivity]).
      rewrite (Hxc _ Hin). exact Ec. }
    rewrite Hmean, Hh, (Hxc v Hv), Ec. change (inject_Z 1) with 1.
    field. lra.
  - assert (Hc0 : ~ c == 0).
    { intros H0. apply Qeq_bool_iff in H0. congruence. }
    cbn [nth]. split; [rewrite !length_map; reflexivity|].
    intros f Hf. apply in_map_iff in Hf as (v & <- & Hv).
    rewrite Hmean, Sxy, Sxx, (Hxc v Hv). field. split; [lra | exact Hc0].
Qed.

End ConstantPredictor.

Lemma ols_constant_predictor_witness :
  exists model,
    StatisticalAnalyzer.run_ols_regression (analyzer_of frame_flat_exact)
      = Returns model /\
    has_const (exog model) = Qeq_bool 400 0 /\
    length (fittedvalues model) = length frame_flat_exact /\
    forall f, In f (fittedvalues model) ->
      (f == @Kernels.mean exact (map DJI_Close frame_flat_exact))%Q.
Proof.
  apply (ols_constant_predictor frame_flat_exact 400%Q
           (analyzer_of frame_flat_exact)).
  - discriminate.
  - intros r [<-|[<-|[<-|[]]]]; reflexivity.
  - reflexivity.
Defined.

(** ** A predictor without variance *)

Section ConstantPredictorReturns.
Context {A : Arith}.
Import StatisticalAnalyzer.

Lemma maximum_same (c : num A) : Kernels.maximum c c = c.
Proof.
  unfold Kernels.maximum. destruct (isnan A c); [reflexivity|].
  destruct (ltb A c c); reflexivity.
Qed.

Lemma amax_constant (x : list (num A)) (c : num A) :
  x <> [] -> (forall v, In v x -> v = c) -> Kernels.amax x = c.
Proof.
  intros Hx Hc. destruct x as [|x0 x]; [congruence|].
  unfold Kernels.amax. cbn [hd tl].
  rewrite (Hc x0 (or_introl eq_refl)).
  assert (Ht : forall v, In v x -> v = c) by (intros v Hv; apply Hc; right; exact Hv).
  clear Hx Hc. induction x as [|x1 x IH]; [reflexivity|]. cbn [fold_left].
  rewrite (Ht x1 (or_introl eq_refl)), maximum_same.
  apply IH. intros v Hv. apply Ht. right; exact Hv.
Qed.

(** C4, as the code has it.  [run_ols_regression] checks no variance and
    has no error of its own: on every non-empty dataset whose predictor is
    one finite value throughout, it returns the results of the fit of the
    response [DJI_Close] on the design built from [CO2_Level], one fitted
    value and one residual per observation, and raises nothing. *)
Theorem ols_constant_predictor_returns
    (d : DataFrame A) (c : num A) (self : Analyzer A) :
  d <> [] ->
  (forall r, In r d -> CO2_Level r = c) ->
  isfinite A c = true ->
  __init__ d = Returns self ->
  exists model,
    run_ols_regression self = Returns model /\
    endog model = map DJI_Close d /\
    regressor (exog model) = map CO2_Level d /\
    length (fittedvalues model) = length d /\
    resid model
      = map (fun p => sub A (fst p) (snd p))
            (combine (map DJI_Close d) (fittedvalues model)) /\
    length (resid model) = length d /\
    forall cls, run_ols_regression self <> Raises cls.
Proof.
  intros Hd Hc Hfin Hinit. injection Hinit as <-.
  assert (Hx : map (@CO2_Level A) d <> [])
    by (destruct d; [congruence | discriminate]).
  assert (Hxc : forall v, In v (map (@CO2_Level A) d) -> v = c).
  { intros v Hv. apply in_map_iff in Hv as (r & <- & Hr). apply Hc, Hr. }
  assert (Hlen : length (Regression.predict
                           (Regression.add_constant (map CO2_Level d))
                           (Regression.lstsq (map DJI_Close d)
                              (Regression.add_constant (map CO2_Level d))))
                 = length d).
  { unfold Regression.predict.
    destruct (has_const (Regression.add_constant (map CO2_Level d)));
      cbn [regressor Regression.add_constant]; rewrite !length_map; reflexivity. }
  assert (Hfit : Regression.OLS_fit (map DJI_Close d)
                   (Regression.add_constant (map CO2_Level d))
                 = Returns
                     (MkResults (map DJI_Close d)
                        (Regression.add_constant (map CO2_Level d))
                        (Regression.lstsq (map DJI_Close d)
                           (Regression.add_constant (map CO2_Level d)))
                        (Regression.predict
                           (Regression.add_constant (map CO2_Level d))
                           (Regression.lstsq (map DJI_Close d)
                              (Regression.add_constant (map CO2_Level d))))
                        (map (fun p => sub A (fst p) (snd p))
                           (combine (map DJI_Close d)
                              (Regression.predict
                                 (Regression.add_constant (map CO2_Level d))
                                 (Regression.lstsq (map DJI_Close d)
                                    (Regression.add_constant (map CO2_Level d)))))))).
  { unfold Regression.OLS_fit.
    change (regressor (Regression.add_constant (map CO2_Level d)))
      with (map (@CO2_Level A) d).
    rewrite (amax_constant _ c Hx Hxc), Hfin. cbn [negb].
    destruct (map CO2_Level d); [congruence | reflexivity]. }
  unfold run_ols_regression, _prepare_regression_data. cbn [X y data].
  rewrite Hfit. eexists. split; [reflexivity|].
  cbn [endog exog fittedvalues resid].
  split; [reflexivity|]. split; [reflexivity|]. split; [exact Hlen|].
  split; [reflexivity|]. split.
  - rewrite length_map, length_combine, length_map, Hlen. apply Nat.min_id.
  - intros cls H. discriminate H.
Qed.

End ConstantPredictorReturns.

Lemma ols_constant_predictor_returns_witness :
  exists model,
    StatisticalAnalyzer.run_ols_regression (analyzer_of frame_flat_co2)
      = Returns model /\
    endog model = map DJI_Close frame_flat_co2 /\
    regressor (exog model) = map CO2_Level frame_flat_co2 /\
    length (fittedvalues model) = length frame_flat_co2 /\
    resid model
      = map (fun p => sub binary64 (fst p) (snd p))
            (combine (map DJI_Close frame_flat_co2) (fittedvalues model)) /\
    length (resid model) = length frame_flat_co2 /\
    forall cls,
      StatisticalAnalyzer.run_ols_regression (analyzer_of frame_flat_co2)
        <> Raises cls.
Proof.
  apply (ols_constant_predictor_returns frame_flat_co2 400%float
           (analyzer_of frame_flat_co2)).
  - discriminate.
  - intros r [<-|[<-|[<-|[]]]]; reflexivity.
  - vm_compute. reflexivity.
  - reflexivity.
Defined.

(** On a constant predictor the fit comes back: there is no
    SingularDesignMatrixError. *)
Lemma ols_constant_predictor_binary64 :
  StatisticalAnalyzer.__init__ frame_flat_co2
    = Returns (analyzer_of frame_flat_co2) /\
  map CO2_Level frame_flat_co2 = [400; 400; 400]%float /\
  Kernels.var (map CO2_Level frame_flat_co2) = 0%float /\
  (exists model,
     StatisticalAnalyzer.run_ols_regression (analyzer_of frame_flat_co2)
       = Returns model) /\
  StatisticalAnalyzer.run_ols_regression (analyzer_of frame_flat_co2)
    <> Raises "SingularDesignMatrixError".
Proof.
  split; [reflexivity|]. split; [reflexivity|]. split; [vm_compute; reflexivity|].
  split; [eexists; vm_compute; reflexivity|].
  vm_compute. discriminate.
Qed.

(** ** Correlation of a series without variance *)

Section ZeroVariance.
Import StatisticalAnalyzer.
Local Open Scope Q_scope.

Lemma qsum_constant (xs : list Q) (c : Q) :
  (forall x, In x xs -> x == c) -> @Kernels.sum exact xs == Qn (length xs) * c.
Proof.
  intros H. rewrite <- (map_id xs) at 1. apply (qsum_map_const (fun x => x)), H.
Qed.

Lemma centre_constant (xs : list Q) (c : Q) :
  xs <> [] -> (forall x, In x xs -> x == c) ->
  @Kernels.sum exact xs / @Kernels.count exact xs == c.
Proof.
  intros Hne H. unfold Kernels.count. cbn [of_Z exact].
  change (num exact) with Q. fold (Qn (length xs)).
  assert (0 < Qn (length xs))
    by (apply count_pos; destruct xs; [congruence | cbn; lia]).
  rewrite (qsum_constant xs c H). field. lra.
Qed.

Lemma cov_constant_l (xs ys : list Q) (c : Q) :
  xs <> [] -> (forall x, In x xs -> x == c) -> @Kernels.cov exact xs ys == 0.
Proof.
  intros Hne H. unfold Kernels.cov. cbn [num of_Z add sub mul div exact].
  change (num exact) with Q.
  rewrite (qsum_map_const _ 0).
  - ring.
  - intros [x y] Hp. cbn [fst snd]. apply in_combine_l in Hp.
    rewrite (centre_constant xs c Hne H), (H x Hp). ring.
Qed.

Lemma cov_constant_r (xs ys : list Q) (c : Q) :
  ys <> [] -> (forall y, In y ys -> y == c) -> @Kernels.cov exact xs ys == 0.
Proof.
  intros Hne H. unfold Kernels.cov. cbn [num of_Z add sub mul div exact].
  change (num exact) with Q.
  rewrite (qsum_map_const _ 0).
  - ring.
  - intros [x y] Hp. cbn [fst snd]. apply in_combine_r in Hp.
    rewrite (centre_constant ys c Hne H), (H y Hp). ring.
Qed.

(** C2, as the code has it.  [compute_correlation] checks no variance and
    raises nothing: on every dataset it returns a value, and when no value
    is missing that value is the Pearson quotient, the covariance over the
    two standard deviations, clipped to [-1, 1].  When one of the two
    series is constant, the covariance and the variance of that series are
    both zero in exact arithmetic. *)
Theorem compute_correlation_returns :
  (forall (A : Arith) (self : Analyzer A),
     (exists r, compute_correlation self = Returns r) /\
     (forall cls, compute_correlation self <> Raises cls) /\
     let xs := map DJI_Close (data self) in
     let ys := map CO2_Level (data self) in
     (Forall (fun v => isnan A v = false) xs ->
      Forall (fun v => isnan A v = false) ys ->
      data self <> [] ->
      compute_correlation self
        = Returns (Kernels.clip
                     (div A (div A (Kernels.cov xs ys) (sqrt A (Kernels.cov xs xs)))
                        (sqrt A (Kernels.cov ys ys)))))) /\
  (forall (d : DataFrame exact) (c : Q),
     d <> [] ->
     let xs := map (@DJI_Close exact) d in
     let ys := map (@CO2_Level exact) d in
     ((forall r, In r d -> DJI_Close r == c) ->
      @Kernels.cov exact xs ys == 0 /\ @Kernels.cov exact xs xs == 0) /\
     ((forall r, In r d -> CO2_Level r == c) ->
      @Kernels.cov exact xs ys == 0 /\ @Kernels.cov exact ys ys == 0)).
Proof.
  split; [intros A self; apply compute_correlation_quotient|].
  intros d c Hd xs ys.
  assert (Hx : xs <> []) by (unfold xs; destruct d; [congruence | discriminate]).
  assert (Hy : ys <> []) by (unfold ys; destruct d; [congruence | discriminate]).
  split; intros H.
  - assert (Hc : forall x, In x xs -> x == c).
    { intros x Hin. apply in_map_iff in Hin as (r & <- & Hr). apply H, Hr. }
    split; apply (cov_constant_l _ _ c); assumption.
  - assert (Hc : forall y, In y ys -> y == c).
    { intros y Hin. apply in_map_iff in Hin as (r & <- & Hr). apply H, Hr. }
    split; [apply (cov_constant_r _ _ c) | apply (cov_constant_l _ _ c)];
      assumption.
Qed.

End ZeroVariance.

(** A constant index level in binary64: the variance is zero and the
    correlation comes back as NaN, with no exception. *)
Lemma correlation_zero_variance_nan :
  StatisticalAnalyzer.__init__ frame_flat_dji
    = Returns (analyzer_of frame_flat_dji) /\
  Kernels.var (map DJI_Close frame_flat_dji) = 0%float /\
  StatisticalAnalyzer.compute_correlation (analyzer_of frame_flat_dji)
    = Returns PrimFloat.nan /\
  StatisticalAnalyzer.compute_correlation (analyzer_of frame_flat_dji)
    <> Raises "DegenerateInputError".
Proof.
  split; [reflexivity|]. split; [vm_compute; reflexivity|].
  split; [vm_compute; reflexivity | discriminate].
Qed.

(** Rounding decides what comes back for a constant series: three levels
    0.1 have a rounded mean above 0.1, the deviations are not zero and the
    quotient is the number 0, again with no exception. *)
Example correlation_zero_variance_number :
  StatisticalAnalyzer.compute_correlation (analyzer_of frame_tenths)
    = Returns 0%float.
Proof. vm_compute. reflexivity. Qed.

(** Five observations: the constructor returns and the descriptive
    statistics are computed. *)
Lemma short_series_accepted :
  length frame5 = 5%nat /\
  StatisticalAnalyzer.__init__ frame5 = Returns (analyzer_of frame5) /\
  StatisticalAnalyzer.__init__ frame5 <> Raises "InsufficientDataError" /\
  exists st,
    StatisticalAnalyzer.compute_descriptive_stats (analyzer_of frame5)
      = Returns st /\
    d_mean (DJI st) = 12.4%float /\ d_median (DJI st) = 12%float /\
    d_min (CO2 st) = 400%float /\ d_max (CO2 st) = 404%float.
Proof.
  split; [reflexivity|]. split; [reflexivity|]. split; [discriminate|].
  eexists. split; [reflexivity|]. vm_compute. repeat split.
Qed.

(** The run on the five observations returns when no library routine
    refuses them, and fails with the exception of the ADF test when that
    test refuses a short series. *)
Example short_series_summary :
  (exists summary,
     fst (StatisticalAnalyzer.get_analysis_summary fixture (analyzer_of frame5)
            0%nat) = Returns summary) /\
  fst (StatisticalAnalyzer.get_analysis_summary fixture_short (analyzer_of frame5)
         0%nat) = Raises "ValueError" /\
  adfuller fixture_short (map DJI_Close frame5) = Raises "ValueError".
Proof.
  split; [eexists; vm_compute; reflexivity|].
  split; vm_compute; reflexivity.
Qed.

(** A zero index level: every OLS residual is zero and every weight is the
    quotient 1 / 0, an infinity, which is what the weighted fit receives. *)
Lemma zero_residual_infinite_weight :
  exists ols,
    StatisticalAnalyzer.run_ols_regression (analyzer_of frame_zero_dji)
      = Returns ols /\
    resid ols = [0; 0; 0]%float /\
    StatisticalAnalyzer.wls_weights (resid ols)
      = [infinity; infinity; infinity]%float /\
    StatisticalAnalyzer.run_wls_regression fixture (analyzer_of frame_zero_dji)
      = WLS_fit fixture (map DJI_Close frame_zero_dji)
          (Regression.add_constant (map CO2_Level frame_zero_dji))
          [infinity; infinity; infinity]%float.
Proof.
  eexists. split; [vm_compute; reflexivity|].
  split; [reflexivity|]. split; [vm_compute; reflexivity|].
  vm_compute. reflexivity.
Qed.

Lemma wls_weights_are_inverse_squares_witness :
  exists ols,
    StatisticalAnalyzer.run_ols_regression (analyzer_of frame6) = Returns ols /\
    StatisticalAnalyzer.run_wls_regression fixture (analyzer_of frame6)
      = WLS_fit fixture (StatisticalAnalyzer.y (analyzer_of frame6))
          (StatisticalAnalyzer.X (analyzer_of frame6))
          (StatisticalAnalyzer.wls_weights (resid ols)) /\
    length (StatisticalAnalyzer.wls_weights (resid ols)) = length (resid ols) /\
    forall i e,
      nth_error (resid ols) i = Some e ->
      nth_error (StatisticalAnalyzer.wls_weights (resid ols)) i
        = Some (PrimFloat.div 1 (PrimFloat.mul e e)).
Proof.
  eexists. split; [vm_compute; reflexivity|].
  apply (wls_weights_are_inverse_squares fixture (analyzer_of frame6)).
  vm_compute. reflexivity.
Defined.

(** ** Descriptive statistics *)

Section Descriptive.
Import StatisticalAnalyzer.
Local Open Scope Q_scope.

(** C10, in exact arithmetic.  For every non-empty dataset, both records
    returned by [compute_descriptive_stats] satisfy
    min <= q1 <= median <= q3 <= max and min <= mean <= max. *)
Theorem descriptive_stats_ordered
    (d : DataFrame exact) (self : Analyzer exact)
    (st : PerSeries (DescriptiveStats exact)) :
  d <> [] ->
  __init__ d = Returns self ->
  compute_descriptive_stats self = Returns st ->
  ordered (DJI st) /\ ordered (CO2 st).
Proof.
  intros Hd Hinit Hst. injection Hinit as <-.
  unfold compute_descriptive_stats in Hst. injection Hst as <-.
  cbn [DJI CO2 data _prepare_regression_data].
  split; apply describe_ordered; intros E; apply Hd;
    destruct d; [reflexivity | discriminate E | reflexivity | discriminate E].
Qed.

End Descriptive.

Lemma descriptive_stats_ordered_witness :
  ordered (StatisticalAnalyzer.describe (map DJI_Close frame5_exact)) /\
  ordered (StatisticalAnalyzer.describe (map CO2_Level frame5_exact)).
Proof.
  apply (descriptive_stats_ordered frame5_exact (analyzer_of frame5_exact)
           (MkPerSeries
              (StatisticalAnalyzer.describe (map DJI_Close frame5_exact))
              (StatisticalAnalyzer.describe (map CO2_Level frame5_exact)))).
  - discriminate.
  - reflexivity.
  - reflexivity.
Defined.

(** In binary64 the rounded mean of three levels 0.1 is one unit in the
    last place above their maximum. *)
Lemma mean_above_max_binary64 :
  exists st,
    StatisticalAnalyzer.__init__ frame_tenths
      = Returns (analyzer_of frame_tenths) /\
    StatisticalAnalyzer.compute_descriptive_stats (analyzer_of frame_tenths)
      = Returns st /\
    d_max (DJI st) = 0.1%float /\
    d_mean (DJI st) = 0.10000000000000002%float /\
    PrimFloat.leb (d_mean (DJI st)) (d_max (DJI st)) = false.
Proof.
  eexists. split; [reflexivity|]. split; [reflexivity|].
  vm_compute. repeat split.
Qed.

(** Overflow breaks the ordering as well: the sum of two levels 1e308 is
    infinite, and so is their mean. *)
Example mean_overflow_binary64 :
  exists st,
    StatisticalAnalyzer.compute_descriptive_stats
      (analyzer_of [row 1 1e308 400; row 2 1e308 401]%float) = Returns st /\
    d_max (DJI st) = 1e308%float /\
    d_mean (DJI st) = infinity /\
    PrimFloat.leb (d_mean (DJI st)) (d_max (DJI st)) = false.
Proof.
  eexists. split; [reflexivity|]. vm_compute. repeat split.
Qed.

Lemma ols_residuals_orthogonal_witness :
  exists (model : RegressionResults exact) (a b : Q),
    StatisticalAnalyzer.run_ols_regression (analyzer_of frame5_exact)
      = Returns model /\
    endog model = map DJI_Close frame5_exact /\
    regressor (exog model) = map CO2_Level frame5_exact /\
    has_const (exog model) = true /\
    params model = [a; b] /\
    fittedvalues model
      = map (fun r : Observation exact => a + b * CO2_Level r)%Q frame5_exact /\
    resid model
      = map (fun r : Observation exact =>
               DJI_Close r - (a + b * CO2_Level r))%Q frame5_exact /\
    length (resid model) = length frame5_exact /\
    (@Kernels.sum exact (resid model) == 0)%Q /\
    (@Regression.dot exact (resid model) (map CO2_Level frame5_exact) == 0)%Q.
Proof.
  apply (ols_residuals_orthogonal frame5_exact (analyzer_of frame5_exact)).
  - reflexivity.
  - cbn. lia.
  - exists (@MkObservation exact 1 10%Q 400%Q), (@MkObservation exact 2 12%Q 401%Q).
    split; [left; reflexivity|]. split; [right; left; reflexivity|].
    cbn. intros H. discriminate H.
Defined.

(** The same fit in binary64, on the six observations: the two sums are
    zero to within rounding. *)
Example ols_residuals_binary64 :
  exists model,
    StatisticalAnalyzer.run_ols_regression (analyzer_of frame6) = Returns model /\
    PrimFloat.ltb (PrimFloat.abs (@Kernels.sum binary64 (resid model)))
                  1e-9 = true /\
    PrimFloat.ltb (PrimFloat.abs (@Regression.dot binary64 (resid model)
                                    (map CO2_Level frame6)))
                  1e-6 = true.
Proof.
  eexists. split; [vm_compute; reflexivity|]. vm_compute. split; reflexivity.
Qed.

(** The thresholds are the Python literals. *)
Example significance_is_005 :
  @StatisticalAnalyzer.significance binary64 = 0.05%float.
Proof. reflexivity. Qed.

Example dw_thresholds :
  div binary64 (of_Z binary64 15) (of_Z binary64 10) = 1.5%float /\
  div binary64 (of_Z binary64 25) (of_Z binary64 10) = 2.5%float.
Proof. split; reflexivity. Qed.

Example lit_005 : div binary64 (of_Z binary64 5) (of_Z binary64 100) = 0.05%float.
Proof. vm_compute. reflexivity. Qed.

Example corr_const_nan :
  isnan binary64 (@Kernels.corr binary64 [1;1;1]%float [1;2;3]%float) = true.
Proof. vm_compute. reflexivity. Qed.

Example mean_3 : @Kernels.mean exact [1;2;6]%Q == 3%Q.
Proof. vm_compute. reflexivity. Qed.

Example quant_3 : @Kernels.quantile exact 1 4 [4;1;2;3]%Q == (7#4)%Q.
Proof. vm_compute. reflexivity. Qed.

(** * The collection of the data, the analysis step and the report *)

(** ** Properties of the merge *)

Section Merge.
Context {A : Arith}.
Import DataCollector.

Lemma in_inner_merge (df_dj df_co2 : list (Z * num A)) (r : Observation A) :
  In r (inner_merge df_dj df_co2) <->
  In (Date r, DJI_Close r) df_dj /\ In (Date r, CO2_Level r) df_co2.
Proof.
  unfold inner_merge. rewrite in_flat_map. split.
  - intros ([t a] & Hl & Hr). apply in_map_iff in Hr as ([t' b] & <- & Hf).
    apply filter_In in Hf as [Hf Ht]. cbn in *. apply Z.eqb_eq in Ht. subst t'.
    split; assumption.
  - intros [Hl Hr]. exists (Date r, DJI_Close r). split; [exact Hl|].
    apply in_map_iff. exists (Date r, CO2_Level r). cbn. split.
    + destruct r; reflexivity.
    + apply filter_In. split; [exact Hr | apply Z.eqb_refl].
Qed.

Lemma merge_datasets_present (df_dj df_co2 : list (Z * num A)) (r : Observation A) :
  In r (merge_datasets df_dj df_co2) ->
  isnan A (DJI_Close r) = false /\ isnan A (CO2_Level r) = false.
Proof.
  unfold merge_datasets, dropna. rewrite filter_In.
  rewrite andb_true_iff, !negb_true_iff. tauto.
Qed.

(** X1.  A row is in the frame returned by [merge_datasets] exactly when
    its date carries its index level in the Dow Jones frame and its CO2
    level in the CO2 frame, and neither value is missing. *)
Theorem merge_datasets_rows (df_dj df_co2 : list (Z * num A)) (r : Observation A) :
  In r (merge_datasets df_dj df_co2) <->
  In (Date r, DJI_Close r) df_dj /\ In (Date r, CO2_Level r) df_co2 /\
  isnan A (DJI_Close r) = false /\ isnan A (CO2_Level r) = false.
Proof.
  unfold merge_datasets, dropna. rewrite filter_In, in_inner_merge.
  rewrite andb_true_iff, !negb_true_iff. tauto.
Qed.

Lemma merge_datasets_no_nan (df_dj df_co2 : list (Z * num A)) :
  Forall (fun v => isnan A v = false) (map DJI_Close (merge_datasets df_dj df_co2)) /\
  Forall (fun v => isnan A v = false) (map CO2_Level (merge_datasets df_dj df_co2)).
Proof.
  split; apply List.Forall_forall; intros v Hv;
    apply in_map_iff in Hv as (r & <- & Hr);
    apply merge_datasets_present in Hr; tauto.
Qed.

Lemma dropna_all_present (s : list (num A)) :
  Forall (fun v => isnan A v = false) s -> Kernels.dropna s = s.
Proof.
  intros H. unfold Kernels.dropna. apply filter_all_true.
  eapply List.Forall_impl; [|exact H]. cbn. intros v ->. reflexivity.
Qed.

(** X2.  On a non-empty frame returned by [merge_datasets] the reductions
    of the analyzer skip nothing: the means are the sum over the number
    of rows, the order statistics are those of the whole column, and
    [compute_correlation] is the Pearson quotient of the two whole
    columns. *)
Theorem merged_frame_is_complete (df_dj df_co2 : list (Z * num A)) :
  let d := merge_datasets df_dj df_co2 in
  let xs := map DJI_Close d in
  let ys := map CO2_Level d in
  Kernels.dropna xs = xs /\ Kernels.dropna ys = ys /\
  Kernels.mean xs = div A (Kernels.sum xs) (of_Z A (Z.of_nat (length d))) /\
  Kernels.mean ys = div A (Kernels.sum ys) (of_Z A (Z.of_nat (length d))) /\
  (d <> [] ->
   StatisticalAnalyzer.compute_correlation (analyzer_of d)
   = Returns (Kernels.clip
                (div A (div A (Kernels.cov xs ys) (sqrt A (Kernels.cov xs xs)))
                   (sqrt A (Kernels.cov ys ys))))).
Proof.
  intros d xs ys.
  destruct (merge_datasets_no_nan df_dj df_co2) as [Hx Hy]. fold d xs ys in Hx, Hy.
  assert (Ex : Kernels.dropna xs = xs) by (apply dropna_all_present, Hx).
  assert (Ey : Kernels.dropna ys = ys) by (apply dropna_all_present, Hy).
  repeat split; try assumption.
  - unfold Kernels.mean, Kernels.count. rewrite Ex. unfold xs.
    rewrite length_map. reflexivity.
  - unfold Kernels.mean, Kernels.count. rewrite Ey. unfold ys.
    rewrite length_map. reflexivity.
  - intros Hd.
    destruct (compute_correlation_quotient (analyzer_of d)) as (_ & _ & H).
    apply H; assumption.
Qed.

Lemma filter_date_above (t : Z) (l : list (Z * num A)) :
  Forall (Z.lt t) (map fst l) ->
  List.filter (fun r => (fst r =? t)%Z) l = [].
Proof.
  induction l as [|[t' b] l IH]; cbn; intros H; [reflexivity|].
  inversion H as [|? ? Ht Hl]; subst.
  destruct (Z.eqb_spec t' t) as [->|_]; [lia | apply IH, Hl].
Qed.

Lemma filter_date_unique (t : Z) (l : list (Z * num A)) :
  increasing (map fst l) ->
  (length (List.filter (fun r => (fst r =? t)%Z) l) <= 1)%nat.
Proof.
  unfold increasing. induction l as [|[t' b] l IH]; cbn; intros H; [lia|].
  inversion H as [|? ? Hs Hall]; subst.
  destruct (Z.eqb_spec t' t) as [->|_]; [|apply IH, Hs].
  cbn. rewrite (filter_date_above t l Hall). cbn. lia.
Qed.

Lemma sorted_app (l1 l2 : list Z) :
  increasing l1 -> increasing l2 ->
  (forall a b, In a l1 -> In b l2 -> (a < b)%Z) ->
  increasing (l1 ++ l2).
Proof.
  unfold increasing. induction l1 as [|x l1 IH]; cbn; intros H1 H2 H12; [exact H2|].
  inversion H1 as [|? ? Hs Hall]; subst. constructor.
  - apply IH; [exact Hs | exact H2 | intros a b Ha Hb; apply H12; [right|]; assumption].
  - apply Forall_app. split; [exact Hall|].
    apply List.Forall_forall. intros b Hb. apply H12; [left; reflexivity | exact Hb].
Qed.

Lemma sorted_filter {T : Type} (g : T -> Z) (p : T -> bool) (l : list T) :
  increasing (map g l) -> increasing (map g (List.filter p l)).
Proof.
  unfold increasing. induction l as [|x l IH]; cbn; intros H; [constructor|].
  inversion H as [|? ? Hs Hall]; subst.
  destruct (p x); [|apply IH, Hs]. cbn. constructor; [apply IH, Hs|].
  apply List.Forall_forall. intros b Hb. apply in_map_iff in Hb as (y & <- & Hy).
  apply filter_In in Hy as [Hy _].
  rewrite List.Forall_forall in Hall. apply Hall, in_map, Hy.
Qed.

Lemma increasing_NoDup (l : list Z) : increasing l -> List.NoDup l.
Proof.
  unfold increasing. induction 1 as [|x l Hs IH Hall]; constructor; [|exact IH].
  intros Hx. rewrite List.Forall_forall in Hall. specialize (Hall x Hx). lia.
Qed.

Lemma inner_merge_dates (df_dj df_co2 : list (Z * num A)) (t : Z) :
  In t (map Date (inner_merge df_dj df_co2)) ->
  In t (map fst df_dj) /\ In t (map fst df_co2).
Proof.
  intros H. apply in_map_iff in H as (r & <- & Hr).
  apply in_inner_merge in Hr as [H1 H2].
  split; [apply (in_map fst) in H1 | apply (in_map fst) in H2]; assumption.
Qed.

Lemma inner_merge_increasing (df_dj df_co2 : list (Z * num A)) :
  increasing (map fst df_dj) -> increasing (map fst df_co2) ->
  increasing (map Date (inner_merge df_dj df_co2)).
Proof.
  intros Hl Hr. induction df_dj as [|[t a] l IH]; [constructor|].
  change (inner_merge ((t, a) :: l) df_co2)
    with (map (fun r => MkObservation t a (snd r))
              (List.filter (fun r => (fst r =? t)%Z) df_co2)
          ++ inner_merge l df_co2).
  cbn [map fst] in Hl. inversion Hl as [|? ? Hs Hall]; subst.
  rewrite map_app. apply sorted_app.
  - rewrite map_map. cbn [Date].
    pose proof (filter_date_unique t df_co2 Hr) as Hlen.
    destruct (List.filter _ df_co2) as [|r0 [|r1 rest]]; cbn in *;
      [constructor | constructor; constructor | lia].
  - apply IH, Hs.
  - intros x y Hx Hy. rewrite map_map in Hx. cbn [Date] in Hx.
    apply in_map_iff in Hx as (r & <- & _).
    apply inner_merge_dates in Hy as [Hy _].
    rewrite List.Forall_forall in Hall. apply Hall, Hy.
Qed.

(** X3.  When the dates of both downloads are strictly increasing, so are
    the dates of the frame returned by [merge_datasets]: no date comes
    twice, and the frame has at most as many rows as either download. *)
Theorem merge_datasets_increasing (df_dj df_co2 : list (Z * num A)) :
  increasing (map fst df_dj) -> increasing (map fst df_co2) ->
  increasing (map Date (merge_datasets df_dj df_co2)) /\
  List.NoDup (map Date (merge_datasets df_dj df_co2)) /\
  (length (merge_datasets df_dj df_co2) <= length df_dj)%nat /\
  (length (merge_datasets df_dj df_co2) <= length df_co2)%nat.
Proof.
  intros Hl Hr.
  assert (Hs : increasing (map Date (merge_datasets df_dj df_co2)))
    by (apply sorted_filter, inner_merge_increasing; assumption).
  assert (Hn : List.NoDup (map Date (merge_datasets df_dj df_co2))).
  { apply increasing_NoDup, Hs. }
  assert (Hin : forall t, In t (map Date (merge_datasets df_dj df_co2)) ->
                  In t (map fst df_dj) /\ In t (map fst df_co2)).
  { intros t Ht. apply inner_merge_dates.
    apply in_map_iff in Ht as (r & <- & Hr0). apply in_map.
    apply filter_In in Hr0 as [Hr0 _]. exact Hr0. }
  repeat split; try assumption.
  - rewrite <- (length_map Date), <- (length_map fst df_dj).
    apply NoDup_incl_length; [exact Hn | intros t Ht; apply Hin, Ht].
  - rewrite <- (length_map Date), <- (length_map fst df_co2).
    apply NoDup_incl_length; [exact Hn | intros t Ht; apply Hin, Ht].
Qed.

(** The rows taken out by [merge_datasets] are the matched rows with a
    missing value. *)
Lemma removed_count (df_dj df_co2 : list (Z * num A)) :
  (length (merge_datasets df_dj df_co2) + removed df_dj df_co2
   = length (inner_merge df_dj df_co2))%nat.
Proof.
  unfold removed, merge_datasets, dropna.
  pose proof (filter_length_le
                (fun r => negb (isnan A (DJI_Close r)) && negb (isnan A (CO2_Level r)))
                (inner_merge df_dj df_co2)).
  lia.
Qed.

End Merge.

(** ** The collector's state *)

Section CollectorState.
Context {A : Arith}.
Import DataCollector.

Lemma collect_all_data_returns (S : Services A) (self : Collector A) df :
  fst (collect_all_data S self) = Returns df ->
  exists df_dj df_co2,
    yf_download S (start_date self) = Returns df_dj /\
    co2_api S = Returns df_co2 /\
    df = merge_datasets df_dj df_co2.
Proof.
  unfold collect_all_data, collect_dow_jones_data, collect_co2_data, save_data.
  destruct (yf_download S (start_date self)) as [df_dj|cls]; [|discriminate].
  destruct (co2_api S) as [df_co2|cls]; [|discriminate].
  destruct (to_csv S (merge_datasets df_dj df_co2) _) as [[]|cls]; [|discriminate].
  cbn. intros H. injection H as <-. exists df_dj, df_co2. repeat split.
Qed.

(** X4.  [get_data_summary] raises ValueError exactly while no frame is
    stored.  [collect_all_data] stores the merged frame only after the two
    downloads and the CSV writer have all returned, and the summary then
    counts its rows; when any of the three raises, the collector is left
    as it was. *)
Theorem collect_then_summarise (S : Services A) (self : Collector A) :
  (get_data_summary self = Raises "ValueError" <-> df_merged self = None) /\
  match collect_all_data S self with
  | (Returns df, self') =>
      (exists df_dj df_co2,
         yf_download S (start_date self) = Returns df_dj /\
         co2_api S = Returns df_co2 /\
         df = merge_datasets df_dj df_co2) /\
      to_csv S df "data/dow_jones_co2_data.csv" = Returns tt /\
      df_merged self' = Some df /\
      start_date self' = start_date self /\
      exists summary,
        get_data_summary self' = Returns summary /\
        n_observations summary = length df
  | (Raises cls, self') =>
      self' = self /\
      (yf_download S (start_date self) = Raises cls \/
       co2_api S = Raises cls \/
       exists df, to_csv S df "data/dow_jones_co2_data.csv" = Raises cls)
  end.
Proof.
  split.
  - unfold get_data_summary. destruct (df_merged self); split; intros H;
      try discriminate H; reflexivity.
  - unfold collect_all_data, collect_dow_jones_data, collect_co2_data, save_data.
    destruct (yf_download S (start_date self)) as [df_dj|cls] eqn:Hdj;
      [|split; [reflexivity | left; reflexivity]].
    destruct (co2_api S) as [df_co2|cls] eqn:Hco2;
      [|split; [reflexivity | right; left; reflexivity]].
    destruct (to_csv S (merge_datasets df_dj df_co2) _) as [[]|cls] eqn:Hcsv.
    + split; [exists df_dj, df_co2; repeat split|].
      split; [exact Hcsv|]. split; [reflexivity|]. split; [reflexivity|].
      eexists. split; reflexivity.
    + split; [reflexivity|]. right; right. eexists. exact Hcsv.
Qed.

(** X5.  When [_collect_data] returns, the frame it stores in [self.data]
    is the merge of the two downloads and holds no missing value in
    either column; the statistics and the models are untouched. *)
Theorem collected_data_has_no_missing_value
    (S : Services A) (self self1 : EconometricAnalysis.State A) :
  _collect_data S self = Returns self1 ->
  exists df_dj df_co2,
    yf_download S (EconometricAnalysis.start_date self) = Returns df_dj /\
    co2_api S = Returns df_co2 /\
    EconometricAnalysis.data self1 = Some (merge_datasets df_dj df_co2) /\
    Forall (fun r => isnan A (DJI_Close r) = false /\ isnan A (CO2_Level r) = false)
           (merge_datasets df_dj df_co2) /\
    EconometricAnalysis.stats self1 = EconometricAnalysis.stats self /\
    EconometricAnalysis.models self1 = EconometricAnalysis.models self.
Proof.
  unfold _collect_data. intros H. apply bind_Returns in H as (df & Hc & H).
  cbn in H. injection H as <-.
  apply collect_all_data_returns in Hc as (df_dj & df_co2 & Hdj & Hco2 & ->).
  exists df_dj, df_co2. cbn in Hdj. repeat split; try assumption.
  apply List.Forall_forall. intros r Hr.
  apply merge_datasets_present in Hr. exact Hr.
Qed.

End CollectorState.

Lemma merge_datasets_increasing_witness :
  increasing (map Date (DataCollector.merge_datasets dj_rows co2_rows)) /\
  List.NoDup (map Date (DataCollector.merge_datasets dj_rows co2_rows)) /\
  (length (DataCollector.merge_datasets dj_rows co2_rows) <= length dj_rows)%nat /\
  (length (DataCollector.merge_datasets dj_rows co2_rows) <= length co2_rows)%nat.
Proof.
  apply (merge_datasets_increasing dj_rows co2_rows);
    unfold increasing; cbn; repeat constructor; lia.
Defined.

Lemma collected_data_has_no_missing_value_witness :
  exists df_dj df_co2,
    DataCollector.yf_download services_ok "2015-01-01" = Returns df_dj /\
    DataCollector.co2_api services_ok = Returns df_co2 /\
    EconometricAnalysis.data collected_example
      = Some (DataCollector.merge_datasets df_dj df_co2) /\
    Forall (fun r => isnan binary64 (DJI_Close r) = false
                     /\ isnan binary64 (CO2_Level r) = false)
           (DataCollector.merge_datasets df_dj df_co2) /\
    EconometricAnalysis.stats collected_example = ∅ /\
    EconometricAnalysis.models collected_example = ∅.
Proof.
  apply (collected_data_has_no_missing_value services_ok
           (EconometricAnalysis.__init__ "2015-01-01") collected_example).
  reflexivity.
Defined.

(** A CSV writer that fails leaves the collector without a frame. *)
Example failed_save_keeps_no_frame :
  DataCollector.collect_all_data services_disk_full
    (DataCollector.__init__ "2015-01-01")
  = (Raises "OSError", DataCollector.__init__ "2015-01-01") /\
  DataCollector.get_data_summary
    (snd (DataCollector.collect_all_data services_disk_full
            (DataCollector.__init__ "2015-01-01")))
  = Raises "ValueError".
Proof. split; reflexivity. Qed.

(** * More of the analyzer *)

Section MoreDiagnostics.
Context {A : Arith} (L : Library A).
Import StatisticalAnalyzer.
Local Open Scope arith_scope.

(** X6.  Whenever [test_stationarity] returns, each entry reports the
    statistic, the p-value and the critical values of [adfuller] on its
    column, and a series is flagged stationary iff that p-value is below
    0.05. *)
Theorem stationarity_decision_rule (self : Analyzer A) r :
  test_stationarity L self = Returns r ->
  exists adf_dji adf_co2,
    adfuller L (map DJI_Close (data self)) = Returns adf_dji /\
    adfuller L (map CO2_Level (data self)) = Returns adf_co2 /\
    adf_statistic (DJI r) = adf_0 adf_dji /\
    adf_p_value (DJI r) = adf_1 adf_dji /\
    critical_values (DJI r) = adf_4 adf_dji /\
    adf_statistic (CO2 r) = adf_0 adf_co2 /\
    adf_p_value (CO2 r) = adf_1 adf_co2 /\
    critical_values (CO2 r) = adf_4 adf_co2 /\
    (is_stationary (DJI r) = true <-> (adf_p_value (DJI r) <? significance) = true) /\
    (is_stationary (CO2 r) = true <-> (adf_p_value (CO2 r) <? significance) = true).
Proof.
  unfold test_stationarity. intros H.
  apply bind_Returns in H as (adf_dji & Hd & H).
  apply bind_Returns in H as (adf_co2 & Hc & H).
  cbn in H. injection H as <-.
  exists adf_dji, adf_co2. cbn. repeat split; auto.
Qed.

(** X7.  Whenever [test_normality] returns, the two Shapiro-Wilk tests ran
    on the same row positions of the two columns, the positions drawn by
    the generator seeded with 42, and a series is flagged normal iff its
    p-value is strictly above 0.05. *)
Theorem normality_decision_rule
    (self : Analyzer A) (sample_size : Z) (g : RNG L) r :
  fst (test_normality L self sample_size g) = Returns r ->
  let n := Z.min sample_size (Z.of_nat (length (data self))) in
  let rows := fst (choice L (RandomState L 42) (length (data self)) (Z.to_nat n)) in
  (0 <= sample_size)%Z /\
  shapiro L (take_rows rows (map DJI_Close (data self)))
    = Returns (statistic (DJI r), p_value (DJI r)) /\
  shapiro L (take_rows rows (map CO2_Level (data self)))
    = Returns (statistic (CO2 r), p_value (CO2 r)) /\
  (is_normal (DJI r) = true <-> (significance <? p_value (DJI r)) = true) /\
  (is_normal (CO2 r) = true <-> (significance <? p_value (CO2 r)) = true).
Proof.
  intros H n rows. rewrite test_normality_run in H. cbn [fst] in H.
  unfold normality_of_seed in H. fold n in H.
  destruct (n <? 0)%Z eqn:Hneg; [discriminate H|]. fold rows in H.
  apply bind_Returns in H as ([sd pd] & Hd & H).
  apply bind_Returns in H as ([sc pc] & Hc & H).
  cbn in H. injection H as <-. cbn.
  apply Z.ltb_ge in Hneg.
  repeat split; auto. unfold n in Hneg. lia.
Qed.

(** X8.  A negative sample size makes [test_normality] raise ValueError
    before any test is run.  With a non-negative one the sample never asks
    for more rows than the frame has, so the sampling raises nothing, and
    an exception of [test_normality] is one that [shapiro] raised on the
    sampled rows of a column. *)
Theorem test_normality_errors (self : Analyzer A) (sample_size : Z) (g : RNG L) :
  ((sample_size < 0)%Z ->
     fst (test_normality L self sample_size g) = Raises "ValueError") /\
  ((0 <= sample_size)%Z ->
     forall cls, fst (test_normality L self sample_size g) = Raises cls ->
       let n := Z.min sample_size (Z.of_nat (length (data self))) in
       let rows :=
         fst (choice L (RandomState L 42) (length (data self)) (Z.to_nat n)) in
       shapiro L (take_rows rows (map DJI_Close (data self))) = Raises cls \/
       shapiro L (take_rows rows (map CO2_Level (data self))) = Raises cls).
Proof.
  split.
  - intros Hneg. rewrite test_normality_run. cbn [fst]. unfold normality_of_seed.
    destruct (Z.min sample_size (Z.of_nat (length (data self))) <? 0)%Z eqn:E;
      [reflexivity|].
    apply Z.ltb_ge in E. lia.
  - intros Hpos cls H n rows. rewrite test_normality_run in H. cbn [fst] in H.
    unfold normality_of_seed in H. fold n in H.
    destruct (n <? 0)%Z eqn:E.
    { apply Z.ltb_lt in E. unfold n in E. lia. }
    fold rows in H.
    apply bind_Raises in H as [H|(v1 & _ & H)]; [left; exact H|].
    apply bind_Raises in H as [H|(v2 & _ & H)]; [right; exact H|].
    discriminate H.
Qed.

End MoreDiagnostics.

Lemma stationarity_decision_rule_witness :
  exists r adf_dji adf_co2,
    StatisticalAnalyzer.test_stationarity fixture (analyzer_of frame6) = Returns r /\
    adfuller fixture (map DJI_Close frame6) = Returns adf_dji /\
    adfuller fixture (map CO2_Level frame6) = Returns adf_co2 /\
    adf_p_value (DJI r) = adf_1 adf_dji /\
    adf_p_value (CO2 r) = adf_1 adf_co2 /\
    (is_stationary (DJI r) = true
       <-> ltb binary64 (adf_p_value (DJI r)) StatisticalAnalyzer.significance = true) /\
    (is_stationary (CO2 r) = true
       <-> ltb binary64 (adf_p_value (CO2 r)) StatisticalAnalyzer.significance = true).
Proof.
  destruct (StatisticalAnalyzer.test_stationarity fixture (analyzer_of frame6))
    as [r|cls] eqn:E; [|vm_compute in E; discriminate E].
  destruct (stationarity_decision_rule fixture (analyzer_of frame6) r E)
    as (adf_dji & adf_co2 & Hd & Hc & _ & Hpd & _ & _ & Hpc & _ & Hsd & Hsc).
  exists r, adf_dji, adf_co2. repeat split; try assumption; try reflexivity;
    first [apply Hsd | apply Hsc].
Defined.

Lemma normality_decision_rule_witness :
  exists r,
    fst (StatisticalAnalyzer.test_normality fixture (analyzer_of frame6) 4 0%nat)
      = Returns r /\
    shapiro fixture (take_rows [0; 1; 2; 3]%nat (map DJI_Close frame6))
      = Returns (statistic (DJI r), p_value (DJI r)) /\
    shapiro fixture (take_rows [0; 1; 2; 3]%nat (map CO2_Level frame6))
      = Returns (statistic (CO2 r), p_value (CO2 r)) /\
    (is_normal (DJI r) = true
       <-> ltb binary64 StatisticalAnalyzer.significance (p_value (DJI r)) = true) /\
    (is_normal (CO2 r) = true
       <-> ltb binary64 StatisticalAnalyzer.significance (p_value (CO2 r)) = true).
Proof.
  destruct (fst (StatisticalAnalyzer.test_normality fixture (analyzer_of frame6) 4 0%nat))
    as [r|cls] eqn:E; [|vm_compute in E; discriminate E].
  destruct (normality_decision_rule fixture (analyzer_of frame6) 4 0%nat r E)
    as (_ & Hd & Hc & Hnd & Hnc).
  exists r. repeat split; try assumption; first [apply Hnd | apply Hnc].
Defined.

(** A negative cap, and a test that refuses the sample. *)
Example negative_cap_raises :
  fst (StatisticalAnalyzer.test_normality fixture (analyzer_of frame6) (-1) 0%nat)
  = Raises "ValueError".
Proof. reflexivity. Qed.

(** * The analysis step and the summary *)

Section StepAndSummary.
Context {A : Arith} (L : Library A).
Import EconometricAnalysis.

(** X9.  The statistics that a completed [_perform_statistical_analysis]
    leaves in [self.stats] are the six fields of what
    [get_analysis_summary] returns on the same data, under the keys
    'descriptive', 'normality', 'stationarity', 'correlation',
    'heteroscedasticity' and 'autocorrelation'; the data and the start date
    are kept, and the process-wide generator is where it was. *)
Theorem analysis_stats_are_the_summary
    (self : State A) (d : DataFrame A) (g : RNG L) (self' : State A) :
  data self = Some d ->
  fst (_perform_statistical_analysis L self g) = Returns self' ->
  exists s,
    StatisticalAnalyzer.get_analysis_summary L (analyzer_of d) g = (Returns s, g) /\
    stats self'
      = <["autocorrelation" := VAutocorrelation (s_autocorrelation A s)]>
        (<["heteroscedasticity" := VHeteroscedasticity (s_heteroscedasticity A s)]>
         (<["correlation" := VCorrelation (s_correlation A s)]>
          (<["stationarity" := VStationarity (s_stationarity A s)]>
           (<["normality" := VNormality (s_normality A s)]>
            (<["descriptive" := VDescriptive (s_descriptive A s)]>
             (stats self)))))) /\
    data self' = Some d /\
    start_date self' = start_date self /\
    snd (_perform_statistical_analysis L self g) = g.
Proof.
  intros Hd.
  unfold _perform_statistical_analysis, StatisticalAnalyzer.get_analysis_summary,
    run_bind, lift, run_ret.
  rewrite Hd. cbn [StatisticalAnalyzer.__init__].
  change (StatisticalAnalyzer._prepare_regression_data
            (StatisticalAnalyzer.MkAnalyzer d (MkDesign false []) []))
    with (analyzer_of d).
  cbn [StatisticalAnalyzer.compute_descriptive_stats
       StatisticalAnalyzer.compute_correlation].
  rewrite test_normality_run.
  destruct (normality_of_seed L (analyzer_of d) 5000) as [normality|];
    [|discriminate].
  destruct (StatisticalAnalyzer.test_stationarity L (analyzer_of d))
    as [stationarity|]; [|discriminate].
  destruct (StatisticalAnalyzer.run_ols_regression (analyzer_of d))
    as [ols|]; [|discriminate].
  destruct (StatisticalAnalyzer.test_heteroscedasticity L (analyzer_of d))
    as [het|]; [|discriminate].
  destruct (StatisticalAnalyzer.test_autocorrelation L (analyzer_of d))
    as [auto|]; [|discriminate].
  unfold heteroscedasticity_flag. cbn [stats set_stat set_model].
  rewrite lookup_insert_ne by discriminate. rewrite lookup_insert_eq.
  destruct (has_heteroscedasticity het).
  - destruct (StatisticalAnalyzer.run_wls_regression L (analyzer_of d))
      as [wls|]; [|discriminate].
    cbn. intros H. injection H as <-. eexists. repeat split. exact Hd.
  - cbn. intros H. injection H as <-. eexists. repeat split. exact Hd.
Qed.

(** X10.  [_perform_statistical_analysis] raises nothing of its own once
    the data is there.  Without data it fails with TypeError, in the
    constructor of the analyzer.  With data, an exception [cls] is one that
    a call of the step raised on this data: one of the library calls of
    the diagnostics, or, after the diagnostics returned with the
    heteroscedasticity flag set, the weighted fit on the weights computed
    from the OLS residuals.  The lookup of the flag never fails. *)
Theorem analysis_step_raises (self : State A) (g : RNG L) (cls : string) :
  fst (_perform_statistical_analysis L self g) = Raises cls ->
  match data self with
  | None => cls = "TypeError"
  | Some d =>
      library_raises L (analyzer_of d) cls \/
      exists ols het,
        StatisticalAnalyzer.run_ols_regression (analyzer_of d) = Returns ols /\
        StatisticalAnalyzer.test_heteroscedasticity L (analyzer_of d) = Returns het /\
        has_heteroscedasticity het = true /\
        WLS_fit L (StatisticalAnalyzer.y (analyzer_of d))
          (StatisticalAnalyzer.X (analyzer_of d))
          (StatisticalAnalyzer.wls_weights (resid ols)) = Raises cls
  end.
Proof.
  rewrite perform_diagnose_branch. intros H.
  apply run_bind_Raises in H as [H|(x & g1 & Hx & H)].
  - unfold diagnose in H.
    apply run_bind_Raises in H as [H|(d & g2 & Hd & H)].
    { destruct (data self); [discriminate H|].
      cbn in H. injection H as <-. reflexivity. }
    apply lift_inv in Hd as [Hd _].
    destruct (data self) as [d'|]; [|discriminate Hd]. injection Hd as ->.
    left.
    apply run_bind_Raises in H as [H|(an & g3 & Han & H)]; [discriminate H|].
    apply lift_inv in Han as [Han _]. injection Han as <-.
    apply run_bind_Raises in H as [H|(v & g4 & _ & H)]; [discriminate H|].
    apply run_bind_Raises in H as [H|(nr & g5 & _ & H)].
    { rewrite test_normality_run in H. cbn [fst] in H.
      apply normality_of_seed_raises. exact H. }
    apply run_bind_Raises in H as [H|(st & g6 & _ & H)].
    { eapply test_stationarity_raises. exact H. }
    apply run_bind_Raises in H as [H|(co & g7 & _ & H)]; [discriminate H|].
    apply run_bind_Raises in H as [H|(ol & g8 & _ & H)].
    { eapply run_ols_raises. exact H. }
    apply run_bind_Raises in H as [H|(he & g9 & _ & H)].
    { eapply test_heteroscedasticity_raises. exact H. }
    apply run_bind_Raises in H as [H|(au & g10 & _ & H)].
    { eapply test_autocorrelation_raises. exact H. }
    discriminate H.
  - apply diagnose_inv in Hx as (d & Hd & Han & Hols & Hhet & _).
    rewrite Hd. injection Han as Han. rewrite <- Han in Hols, Hhet.
    unfold branch in H.
    destruct (has_heteroscedasticity (dg_het x)) eqn:Hflag; [|discriminate H].
    apply run_bind_Raises in H as [H|(w & g2 & _ & H)]; [|discriminate H].
    cbn in H. unfold StatisticalAnalyzer.run_wls_regression in H.
    rewrite <- Han, Hols in H. cbn in H.
    right. exists (dg_ols x), (dg_het x). repeat split; assumption.
Qed.

End StepAndSummary.

Lemma analysis_stats_are_the_summary_witness :
  exists s,
    StatisticalAnalyzer.get_analysis_summary fixture (analyzer_of frame6) 0%nat
      = (Returns s, 0%nat) /\
    EconometricAnalysis.stats frame6_report
      = <["autocorrelation" := VAutocorrelation (s_autocorrelation binary64 s)]>
        (<["heteroscedasticity" := VHeteroscedasticity (s_heteroscedasticity binary64 s)]>
         (<["correlation" := VCorrelation (s_correlation binary64 s)]>
          (<["stationarity" := VStationarity (s_stationarity binary64 s)]>
           (<["normality" := VNormality (s_normality binary64 s)]>
            (<["descriptive" := VDescriptive (s_descriptive binary64 s)]> ∅))))) /\
    EconometricAnalysis.data frame6_report = Some frame6.
Proof.
  destruct (analysis_stats_are_the_summary fixture
              (EconometricAnalysis.collected
                 (EconometricAnalysis.__init__ "2015-01-01") frame6)
              frame6 0%nat frame6_report)
    as (s & Hs & Hst & Hd & _); [reflexivity | vm_compute; reflexivity |].
  exists s. repeat split; assumption.
Defined.

Lemma analysis_step_raises_witness :
  library_raises fixture_short (analyzer_of frame5) "ValueError" \/
  exists ols het,
    StatisticalAnalyzer.run_ols_regression (analyzer_of frame5) = Returns ols /\
    StatisticalAnalyzer.test_heteroscedasticity fixture_short (analyzer_of frame5)
      = Returns het /\
    has_heteroscedasticity het = true /\
    WLS_fit fixture_short (StatisticalAnalyzer.y (analyzer_of frame5))
      (StatisticalAnalyzer.X (analyzer_of frame5))
      (StatisticalAnalyzer.wls_weights (resid ols)) = Raises "ValueError".
Proof.
  apply (analysis_step_raises fixture_short
           (EconometricAnalysis.collected
              (EconometricAnalysis.__init__ "2015-01-01") frame5)
           0%nat "ValueError").
  vm_compute. reflexivity.
Defined.

(** On five observations the ADF test of [fixture_short] refuses the
    series: that is the exception of the step, and it is not a TypeError or
    an error of the analyzer's own. *)
Example short_series_step :
  fst (EconometricAnalysis._perform_statistical_analysis fixture_short
         (EconometricAnalysis.collected
            (EconometricAnalysis.__init__ "2015-01-01") frame5) 0%nat)
    = Raises "ValueError" /\
  adfuller fixture_short (map DJI_Close frame5) = Raises "ValueError" /\
  fst (EconometricAnalysis._perform_statistical_analysis fixture
         (EconometricAnalysis.__init__ "2015-01-01") 0%nat)
    = Raises "TypeError".
Proof. repeat split; vm_compute; reflexivity. Qed.

(** * The report and the analysis *)

Section Report.
Context {A : Arith} (L : Library A).
Import EconometricAnalysis.

(** What a completed analysis step leaves in the state. *)
Lemma perform_inv (self : State A) (d : DataFrame A) (g : RNG L) (self' : State A) :
  data self = Some d ->
  fst (_perform_statistical_analysis L self g) = Returns self' ->
  exists ols het auto,
    StatisticalAnalyzer.run_ols_regression (analyzer_of d) = Returns ols /\
    StatisticalAnalyzer.test_heteroscedasticity L (analyzer_of d) = Returns het /\
    StatisticalAnalyzer.test_autocorrelation L (analyzer_of d) = Returns auto /\
    stats self' !! "heteroscedasticity" = Some (VHeteroscedasticity het) /\
    stats self' !! "autocorrelation" = Some (VAutocorrelation auto) /\
    (exists corr, stats self' !! "correlation" = Some (VCorrelation corr)) /\
    data self' = Some d /\
    if has_heteroscedasticity het
    then exists wls,
           StatisticalAnalyzer.run_wls_regression L (analyzer_of d) = Returns wls /\
           models self' = <["wls" := wls]> (<["ols" := ols]> (models self))
    else models self' = <["ols" := ols]> (models self).
Proof.
  intros Hd. unfold _perform_statistical_analysis, run_bind, lift, run_ret.
  rewrite Hd. cbn [StatisticalAnalyzer.__init__].
  change (StatisticalAnalyzer._prepare_regression_data
            (StatisticalAnalyzer.MkAnalyzer d (MkDesign false []) []))
    with (analyzer_of d).
  cbn [StatisticalAnalyzer.compute_descriptive_stats
       StatisticalAnalyzer.compute_correlation].
  rewrite test_normality_run.
  destruct (normality_of_seed L (analyzer_of d) 5000) as [normality|];
    [|discriminate].
  destruct (StatisticalAnalyzer.test_stationarity L (analyzer_of d))
    as [stationarity|]; [|discriminate].
  destruct (StatisticalAnalyzer.run_ols_regression (analyzer_of d))
    as [ols|]; [|discriminate].
  destruct (StatisticalAnalyzer.test_heteroscedasticity L (analyzer_of d))
    as [het|]; [|discriminate].
  destruct (StatisticalAnalyzer.test_autocorrelation L (analyzer_of d))
    as [auto|]; [|discriminate].
  unfold heteroscedasticity_flag. cbn [stats set_stat set_model].
  rewrite lookup_insert_ne by discriminate. rewrite lookup_insert_eq.
  destruct (has_heteroscedasticity het) eqn:Hflag.
  - destruct (StatisticalAnalyzer.run_wls_regression L (analyzer_of d))
      as [wls|]; [|discriminate].
    cbn [fst]. intros H. injection H as <-. exists ols, het, auto.
    cbn [stats models data set_stat set_model]. rewrite Hflag.
    rewrite lookup_insert_ne by discriminate. rewrite !lookup_insert_eq.
    split; [reflexivity|]. split; [reflexivity|]. split; [reflexivity|].
    split; [reflexivity|]. split; [reflexivity|].
    split.
    { eexists. rewrite !lookup_insert_ne by discriminate.
      apply lookup_insert_eq. }
    split; [exact Hd|]. exists wls. split; reflexivity.
  - cbn [fst]. intros H. injection H as <-. exists ols, het, auto.
    cbn [stats models data set_stat set_model]. rewrite Hflag.
    rewrite lookup_insert_ne by discriminate. rewrite !lookup_insert_eq.
    split; [reflexivity|]. split; [reflexivity|]. split; [reflexivity|].
    split; [reflexivity|]. split; [reflexivity|].
    split.
    { eexists. rewrite !lookup_insert_ne by discriminate.
      apply lookup_insert_eq. }
    split; [exact Hd|]. reflexivity.
Qed.

(** X11.  In the report of a completed analysis that started without a
    weighted model, the keys that the conclusions read are there and the
    places that speak of heteroscedasticity agree.  The flags read by the
    report are those of the two tests; the conclusion of the
    heteroscedasticity chapter announces the weighted regression exactly
    when the flag is set; when [_add_regression_results] returns, it has
    printed the section on the weighted regression exactly when the flag is
    set; when [_add_conclusion] returns, it lists 'heteroscedasticite' and
    'autocorrelation' exactly when their flags are set, and writes 'Aucun
    probleme majeur' exactly when neither is.  An exception of either of the
    two is one raised by a read of [params] or [pvalues] on the OLS model
    or on the weighted model. *)
Theorem report_follows_analysis (R : ReportGenerator.Reads A)
    (self : State A) (d : DataFrame A) (g : RNG L) (self' : State A) :
  data self = Some d ->
  models self !! "wls" = None ->
  fst (_perform_statistical_analysis L self g) = Returns self' ->
  exists ols het auto,
    StatisticalAnalyzer.run_ols_regression (analyzer_of d) = Returns ols /\
    StatisticalAnalyzer.test_heteroscedasticity L (analyzer_of d) = Returns het /\
    StatisticalAnalyzer.test_autocorrelation L (analyzer_of d) = Returns auto /\
    ReportGenerator.heteroscedasticity_flag (report_of self')
      = Returns (has_heteroscedasticity het) /\
    ReportGenerator.autocorrelation_flag (report_of self')
      = Returns (has_autocorrelation auto) /\
    ReportGenerator.heteroscedasticity_conclusion (report_of self')
      = Returns
          (if has_heteroscedasticity het
           then "Les tests revelent la presence d'heteroscedasticite dans les residus du modele. "
                +:+ "Cela indique que la variance des erreurs n'est pas constante. Une regression "
                +:+ "ponderee (WLS) sera appliquee pour corriger ce probleme."
           else "Les tests ne revelent pas d'heteroscedasticite significative dans les residus. "
                +:+ "L'hypothese d'homoscedasticite est respectee.") /\
    (forall sections,
       ReportGenerator._add_regression_results R (report_of self') = Returns sections ->
       (In "2. Regression WLS (Moindres Carres Ponderes)" sections
          <-> has_heteroscedasticity het = true)) /\
    (forall issues problems,
       ReportGenerator._add_conclusion R (report_of self')
         = Returns (issues, problems) ->
       (In "heteroscedasticite" issues <-> has_heteroscedasticity het = true) /\
       (In "autocorrelation" issues <-> has_autocorrelation auto = true) /\
       (problems = "Aucun probleme majeur n'a ete detecte dans les residus."
                   +:+ ReportGenerator.nl +:+ ReportGenerator.nl
          <-> has_heteroscedasticity het = false
              /\ has_autocorrelation auto = false)) /\
    (forall cls,
       ReportGenerator._add_conclusion R (report_of self') = Raises cls ->
       ReportGenerator.pvalues_at R ols 1 = Raises cls) /\
    (forall cls,
       ReportGenerator._add_regression_results R (report_of self') = Raises cls ->
       ReportGenerator.params_at R ols 0 = Raises cls \/
       ReportGenerator.params_at R ols 1 = Raises cls \/
       ReportGenerator.pvalues_at R ols 1 = Raises cls \/
       exists wls,
         has_heteroscedasticity het = true /\
         StatisticalAnalyzer.run_wls_regression L (analyzer_of d) = Returns wls /\
         (ReportGenerator.params_at R wls 0 = Raises cls \/
          ReportGenerator.params_at R wls 1 = Raises cls \/
          ReportGenerator.pvalues_at R wls 1 = Raises cls)).
Proof.
  intros Hd Hw H.
  destruct (perform_inv self d g self' Hd H)
    as (ols & het & auto & Hols & Hhet & Hauto & Hsh & Hsa & Hsc & _ & Hm).
  assert (Hfh : ReportGenerator.heteroscedasticity_flag (report_of self')
                = Returns (has_heteroscedasticity het)).
  { unfold ReportGenerator.heteroscedasticity_flag, report_of. cbn.
    rewrite Hsh. reflexivity. }
  assert (Hfa : ReportGenerator.autocorrelation_flag (report_of self')
                = Returns (has_autocorrelation auto)).
  { unfold ReportGenerator.autocorrelation_flag, report_of. cbn.
    rewrite Hsa. reflexivity. }
  assert (Hfc : exists corr,
             ReportGenerator.correlation_value (report_of self') = Returns corr).
  { destruct Hsc as (corr & Hsc). exists corr.
    unfold ReportGenerator.correlation_value, report_of. cbn.
    rewrite Hsc. reflexivity. }
  destruct Hfc as (corr & Hfc).
  assert (Hmo : ReportGenerator.models (report_of self') !! "ols" = Some ols).
  { change (ReportGenerator.models (report_of self')) with (models self').
    destruct (has_heteroscedasticity het).
    - destruct Hm as (wls & _ & ->).
      rewrite lookup_insert_ne by discriminate. apply lookup_insert_eq.
    - rewrite Hm. apply lookup_insert_eq. }
  exists ols, het, auto.
  split; [exact Hols|]. split; [exact Hhet|]. split; [exact Hauto|].
  split; [exact Hfh|]. split; [exact Hfa|].
  split.
  { unfold ReportGenerator.heteroscedasticity_conclusion. rewrite Hfh.
    destruct (has_heteroscedasticity het); reflexivity. }
  split.
  { intros sections. unfold ReportGenerator._add_regression_results.
    rewrite Hmo.
    change (ReportGenerator.models (report_of self')) with (models self').
    intros Hs.
    apply bind_Returns in Hs as (c0 & _ & Hs).
    apply bind_Returns in Hs as (c1 & _ & Hs).
    apply bind_Returns in Hs as (p1 & _ & Hs).
    destruct (has_heteroscedasticity het).
    - destruct Hm as (wls & _ & Hm). rewrite Hm, lookup_insert_eq in Hs.
      apply bind_Returns in Hs as (w0 & _ & Hs).
      apply bind_Returns in Hs as (w1 & _ & Hs).
      apply bind_Returns in Hs as (q1 & _ & Hs).
      cbn in Hs. injection Hs as <-. cbn [In]. tauto.
    - rewrite Hm in Hs. rewrite lookup_insert_ne in Hs by discriminate.
      rewrite Hw in Hs. cbn in Hs. injection Hs as <-.
      cbn [In]. intuition discriminate. }
  split.
  { intros issues problems. unfold ReportGenerator._add_conclusion.
    rewrite Hmo. intros Hs.
    apply bind_Returns in Hs as (c & _ & Hs).
    apply bind_Returns in Hs as (p1 & _ & Hs).
    apply bind_Returns in Hs as (p2 & _ & Hs).
    rewrite Hfh, Hfa in Hs. cbn in Hs.
    destruct (has_heteroscedasticity het), (has_autocorrelation auto);
      cbn in Hs; injection Hs as <- <-; cbn [In];
      repeat split; try (intros; tauto); try (intros; discriminate);
      try (intros [? ?]; discriminate); intuition discriminate. }
  split.
  { intros cls. unfold ReportGenerator._add_conclusion.
    rewrite Hmo. intros Hs.
    apply bind_Raises in Hs as [Hs|(c & _ & Hs)]; [congruence|].
    apply bind_Raises in Hs as [Hs|(p1 & _ & Hs)]; [exact Hs|].
    apply bind_Raises in Hs as [Hs|(p2 & _ & Hs)]; [exact Hs|].
    rewrite Hfh, Hfa in Hs. discriminate Hs. }
  intros cls. unfold ReportGenerator._add_regression_results.
  rewrite Hmo.
  change (ReportGenerator.models (report_of self')) with (models self').
  intros Hs.
  apply bind_Raises in Hs as [Hs|(c0 & _ & Hs)]; [left; exact Hs|].
  apply bind_Raises in Hs as [Hs|(c1 & _ & Hs)]; [right; left; exact Hs|].
  apply bind_Raises in Hs as [Hs|(p1 & _ & Hs)]; [right; right; left; exact Hs|].
  do 3 right.
  destruct (has_heteroscedasticity het).
  - destruct Hm as (wls & Hwls & Hm). rewrite Hm, lookup_insert_eq in Hs.
    exists wls. split; [reflexivity|]. split; [exact Hwls|].
    apply bind_Raises in Hs as [Hs|(w0 & _ & Hs)]; [left; exact Hs|].
    apply bind_Raises in Hs as [Hs|(w1 & _ & Hs)]; [right; left; exact Hs|].
    apply bind_Raises in Hs as [Hs|(q1 & _ & Hs)]; [right; right; exact Hs|].
    discriminate Hs.
  - rewrite Hm in Hs. rewrite lookup_insert_ne in Hs by discriminate.
    rewrite Hw in Hs. discriminate Hs.
Qed.

End Report.

Lemma report_follows_analysis_witness :
  exists sections issues problems,
    ReportGenerator._add_regression_results reads_positional (report_of frame6_report)
      = Returns sections /\
    ReportGenerator._add_conclusion reads_positional (report_of frame6_report)
      = Returns (issues, problems) /\
    has_heteroscedasticity frame6_het = true /\
    In "2. Regression WLS (Moindres Carres Ponderes)" sections /\
    In "heteroscedasticite" issues.
Proof.
  destruct (report_follows_analysis fixture reads_positional
              (EconometricAnalysis.collected
                 (EconometricAnalysis.__init__ "2015-01-01") frame6)
              frame6 0%nat frame6_report)
    as (ols & het & auto & _ & Hhet & _ & _ & _ & _ & Hsec & Hconc & _);
    [reflexivity | reflexivity | vm_compute; reflexivity |].
  assert (Hf : het = frame6_het).
  { vm_compute in Hhet. injection Hhet as <-. vm_compute. reflexivity. }
  destruct (ReportGenerator._add_regression_results reads_positional
              (report_of frame6_report)) as [sections|cls] eqn:Es;
    [|vm_compute in Es; discriminate Es].
  destruct (ReportGenerator._add_conclusion reads_positional
              (report_of frame6_report)) as [[issues problems]|cls] eqn:Ec;
    [|vm_compute in Ec; discriminate Ec].
  exists sections, issues, problems.
  assert (Hflag : has_heteroscedasticity het = true)
    by (rewrite Hf; vm_compute; reflexivity).
  split; [reflexivity|]. split; [reflexivity|].
  split; [rewrite <- Hf; exact Hflag|].
  split.
  - apply (Hsec sections eq_refl). exact Hflag.
  - apply (Hconc issues problems eq_refl). exact Hflag.
Defined.

(** On a constant predictor the fit has one parameter: read by position,
    [params[1]] is out of range and [_add_regression_results] raises. *)
Example one_parameter_fit_report :
  match fst (EconometricAnalysis._perform_statistical_analysis fixture
               (EconometricAnalysis.collected
                  (EconometricAnalysis.__init__ "2015-01-01") frame_flat_co2)
               0%nat) with
  | Returns self' =>
      ReportGenerator._add_regression_results reads_positional (report_of self')
        = Raises "IndexError"
  | Raises _ => False
  end.
Proof. vm_compute. reflexivity. Qed.

(** ** The words on the correlation *)






(** The constant index level of [frame_flat_dji], from the correlation to
    the words of the report. *)
Example flat_series_label :
  match StatisticalAnalyzer.compute_correlation (analyzer_of frame_flat_dji) with
  | Returns corr =>
      ReportGenerator.correlation_sign corr = "negative" /\
      ReportGenerator.correlation_strength corr = "faible"
  | Raises _ => False
  end.
Proof. vm_compute. split; reflexivity. Qed.

(** ** The summary of the collected data *)

Section Summary.
Context {A : Arith}.
Import DataCollector.

Lemma fold_min_spec (t : list Z) (x : Z) :
  let m := fold_left Z.min t x in
  In m (x :: t) /\ (m <= x)%Z /\ Forall (Z.le m) t.
Proof.
  revert x. induction t as [|y t IH]; intros x; cbn.
  - repeat split; [left; reflexivity | lia | constructor].
  - destruct (IH (Z.min x y)) as (Hin & Hle & Hall). cbn in Hin.
    repeat split.
    + destruct Hin as [Hin|Hin]; [|right; right; exact Hin].
      destruct (Z.min_spec x y) as [[_ E]|[_ E]];
        [left | right; left]; congruence.
    + lia.
    + constructor; [lia | exact Hall].
Qed.

Lemma fold_max_spec (t : list Z) (x : Z) :
  let m := fold_left Z.max t x in
  In m (x :: t) /\ (x <= m)%Z /\ Forall (fun v => (v <= m)%Z) t.
Proof.
  revert x. induction t as [|y t IH]; intros x; cbn.
  - repeat split; [left; reflexivity | lia | constructor].
  - destruct (IH (Z.max x y)) as (Hin & Hle & Hall). cbn in Hin.
    repeat split.
    + destruct Hin as [Hin|Hin]; [|right; right; exact Hin].
      destruct (Z.max_spec x y) as [[_ E]|[_ E]];
        [right; left | left]; congruence.
    + lia.
    + constructor; [lia | exact Hall].
Qed.

(** X13.  When [get_data_summary] returns, a frame is stored and the
    summary counts its rows; on an empty frame both ends of the period are
    NaT, and otherwise they are dates of the frame, the first not after
    the second, with the date of every row between them. *)
Theorem data_summary_period (self : Collector A) (summary : DataSummary A) :
  get_data_summary self = Returns summary ->
  exists df,
    df_merged self = Some df /\
    n_observations summary = length df /\
    match date_start summary, date_end summary with
    | None, None => df = []
    | Some lo, Some hi =>
        In lo (map Date df) /\ In hi (map Date df) /\ (lo <= hi)%Z /\
        Forall (fun r => (lo <= Date r <= hi)%Z) df
    | _, _ => False
    end.
Proof.
  unfold get_data_summary. destruct (df_merged self) as [df|]; [|discriminate].
  intros H. injection H as <-. exists df. cbn. repeat split.
  destruct df as [|r df]; [reflexivity|]. cbn [map date_min date_max].
  pose proof (fold_min_spec (map Date df) (Date r)) as (Hmi & Hml & Hma).
  pose proof (fold_max_spec (map Date df) (Date r)) as (Hxi & Hxl & Hxa).
  repeat split; try assumption; [lia|].
  constructor; [lia|].
  rewrite List.Forall_forall in Hma, Hxa. apply List.Forall_forall.
  intros q Hq. split; [apply Hma | apply Hxa]; apply in_map; exact Hq.
Qed.

(** X14.  The count that [merge_datasets] logs as removed is the number
    of matched rows with a missing value in either column; it is zero
    exactly when the merged frame is the whole inner join. *)
Theorem removed_counts_missing (df_dj df_co2 : list (Z * num A)) :
  removed df_dj df_co2
  = length (List.filter
              (fun r => isnan A (DJI_Close r) || isnan A (CO2_Level r))
              (inner_merge df_dj df_co2)) /\
  (length (merge_datasets df_dj df_co2) + removed df_dj df_co2
   = length (inner_merge df_dj df_co2))%nat /\
  (removed df_dj df_co2 = 0%nat
   <-> merge_datasets df_dj df_co2 = inner_merge df_dj df_co2).
Proof.
  pose proof (removed_count df_dj df_co2) as Hc.
  assert (Hp : forall l : DataFrame A,
             (length (dropna l)
              + length (List.filter
                          (fun r => isnan A (DJI_Close r) || isnan A (CO2_Level r)) l)
              = length l)%nat).
  { unfold dropna. induction l as [|r l IH]; [reflexivity|]. cbn.
    destruct (isnan A (DJI_Close r)), (isnan A (CO2_Level r)); cbn; lia. }
  specialize (Hp (inner_merge df_dj df_co2)).
  fold (merge_datasets df_dj df_co2) in Hp.
  split; [lia|]. split; [exact Hc|]. split.
  - intros H0. unfold merge_datasets, dropna. apply filter_all_true.
    apply List.Forall_forall. intros r Hr.
    assert (Hn : List.filter
                   (fun r => isnan A (DJI_Close r) || isnan A (CO2_Level r))
                   (inner_merge df_dj df_co2) = []).
    { apply length_zero_iff_nil. lia. }
    destruct (isnan A (DJI_Close r) || isnan A (CO2_Level r)) eqn:E.
    + assert (Hin : In r (List.filter
                           (fun r => isnan A (DJI_Close r) || isnan A (CO2_Level r))
                           (inner_merge df_dj df_co2)))
        by (apply filter_In; split; assumption).
      rewrite Hn in Hin. contradiction Hin.
    + apply orb_false_iff in E as [-> ->]. reflexivity.
  - intros E. rewrite E in Hc. lia.
Qed.

End Summary.

Lemma data_summary_period_witness :
  exists df,
    DataCollector.df_merged
      (snd (DataCollector.collect_all_data services_ok
              (DataCollector.__init__ "2015-01-01"))) = Some df /\
    length df = 3%nat /\
    In 1%Z (map Date df) /\ In 5%Z (map Date df) /\ (1 <= 5)%Z /\
    Forall (fun r => (1 <= Date r <= 5)%Z) df.
Proof.
  destruct (DataCollector.get_data_summary
              (snd (DataCollector.collect_all_data services_ok
                      (DataCollector.__init__ "2015-01-01"))))
    as [summary|cls] eqn:E; [|vm_compute in E; discriminate E].
  destruct (data_summary_period _ summary E) as (df & Hdf & Hn & Hp).
  vm_compute in E. injection E as <-. cbn in Hn, Hp.
  exists df. split; [exact Hdf|]. split; [symmetry; exact Hn|]. exact Hp.
Defined.
